(** * Duty management: table distribution and duty roster generation

    A shallow embedding of the scheduling logic of [app.py]: the models
    (Student, Table, Term, WeeklyDutyAssignment, DailyDuty), the queries the
    code runs on them, [create_duty_schedule_for_term], [regenerate_week],
    [distribute_students_to_tables_smart] and [change_student_table].

    The program is sequential Python over a SQLAlchemy session.  It is
    embedded in a state-and-exception monad over the session's rows, the
    state of the [random] module and the flashed messages.  *)

From Stdlib Require Import ZArith List String Bool Lia Permutation Sorted Finite.
From Stdlib Require Import DecimalString.
Import ListNotations.
Local Open Scope string_scope.
Local Open Scope list_scope.
Local Open Scope Z_scope.

(** ** Python run-time: exceptions, integers, lists, dates *)

Inductive exn : Type :=
| OverflowError (msg : string)
| ZeroDivisionError (msg : string)
| IndexError (msg : string)
| KeyError (msg : string).

(** [str(e)] of the handlers. *)
Definition exn_str (e : exn) : string :=
  match e with
  | OverflowError m | ZeroDivisionError m | IndexError m | KeyError m => m
  end.

(** The outcome of a computation: a value, an exception, or no outcome at
    all (a loop that does not end). *)
Inductive result (A : Type) : Type :=
| Ok (a : A)
| Raise (e : exn)
| Diverge.
Arguments Ok {A} a.
Arguments Raise {A} e.
Arguments Diverge {A}.

(** [str(n)] for an int. *)
Definition str_of_int (n : Z) : string := NilZero.string_of_int (Z.to_int n).

(** [range(lo, hi)]. *)
Definition py_range (lo hi : Z) : list Z :=
  map (fun i => lo + Z.of_nat i) (seq 0 (Z.to_nat (hi - lo))).

Definition len {A} (l : list A) : Z := Z.of_nat (List.length l).

(** [a % b] on ints: the sign follows the divisor, division by zero raises. *)
Definition py_mod (a b : Z) : result Z :=
  if b =? 0 then Raise (ZeroDivisionError "integer modulo by zero")
  else Ok (a mod b).

(** [l[i]]: a negative index counts from the end, out of range raises. *)
Definition py_getitem {A} (l : list A) (i : Z) : result A :=
  let j := if i <? 0 then i + len l else i in
  if j <? 0 then Raise (IndexError "list index out of range")
  else match nth_error l (Z.to_nat j) with
       | Some a => Ok a
       | None => Raise (IndexError "list index out of range")
       end.

(** [date]: a proleptic Gregorian ordinal ([date.toordinal()]), from
    [date.min] = 0001-01-01 (ordinal 1) to [date.max] = 9999-12-31. *)
Definition date := Z.
Definition date_min : date := 1.
Definition date_max : date := 3652059.

(** [d + timedelta(days=n)]: raises OverflowError outside [date.min, date.max]. *)
Definition date_add_days (d : date) (n : Z) : result date :=
  let o := d + n in
  if (date_min <=? o) && (o <=? date_max) then Ok o
  else Raise (OverflowError "date value out of range").

(** ** The [random] module

    The generator is a tape of raw draws; an exhausted tape keeps giving 0.
    Every outcome of the real generator is the outcome of some tape. *)

Definition rng := list Z.

Definition next_raw (g : rng) : Z * rng :=
  match g with
  | [] => (0, [])
  | x :: g' => (x, g')
  end.

(** [random._randbelow(n)], for [n > 0]: an int in [0, n). *)
Definition randbelow (n : Z) (g : rng) : Z * rng :=
  let (x, g') := next_raw g in (x mod n, g').

(** [x[i], x[j] = x[j], x[i]] *)
Fixpoint set_nth {A} (i : nat) (a : A) (l : list A) : list A :=
  match l, i with
  | [], _ => []
  | _ :: l', O => a :: l'
  | b :: l', S i' => b :: set_nth i' a l'
  end.

Definition swap {A} (x : list A) (i j : nat) : list A :=
  match nth_error x i, nth_error x j with
  | Some xi, Some xj => set_nth j xi (set_nth i xj x)
  | _, _ => x
  end.

(** [random.shuffle(x)]:
    [for i in reversed(range(1, len(x))): j = randbelow(i + 1); swap x[i], x[j]]. *)
Fixpoint shuffle_from {A} (i : nat) (x : list A) (g : rng) : list A * rng :=
  match i with
  | O => (x, g)
  | S i' =>
      let (j, g1) := randbelow (Z.of_nat i + 1) g in
      shuffle_from i' (swap x i (Z.to_nat j)) g1
  end.

Definition shuffle {A} (x : list A) (g : rng) : list A * rng :=
  shuffle_from (List.length x - 1) x g.

(** ** Floats

    A Python float is an IEEE-754 binary64.  Every float the scoring code
    computes is a non-negative multiple of 2^-52 or [float('inf')], so a
    finite float is represented by its numerator over 2^52, and rounding to
    53 significant bits (round to nearest, ties to even) is written out. *)

Definition ulp_bits : Z := 52.

Definition round53 (n : Z) : Z :=
  if n <=? 0 then n
  else
    let l := Z.log2 n + 1 in
    if l <=? 53 then n
    else
      let sh := l - 53 in
      let q := Z.shiftr n sh in
      let r := n - Z.shiftl q sh in
      let half := Z.shiftl 1 (sh - 1) in
      let q' := if r <? half then q
                else if half <? r then q + 1
                else if Z.even q then q else q + 1 in
      Z.shiftl q' sh.

Inductive pyfloat : Type :=
| Finite (numerator : Z)
| Inf.

(** [x < y] on floats. *)
Definition float_lt (x y : pyfloat) : bool :=
  match x, y with
  | Finite a, Finite b => a <? b
  | Finite _, Inf => true
  | Inf, _ => false
  end.

(** [float(n)] for a non-negative int. *)
Definition float_of_int (n : Z) : Z := round53 (Z.shiftl n ulp_bits).

(** [n + x] for an int [n] and a float [x]: the int is converted, the sum
    is rounded once. *)
Definition int_add_float (n : Z) (x : Z) : pyfloat :=
  Finite (round53 (float_of_int n + x)).

(** [random.random()] is [k / 2^53] for a 53-bit [k]; [random.uniform(0, 2)]
    is [0 + (2 - 0) * random()], that is [k / 2^52] exactly: numerator [k]. *)
Definition uniform_0_2 (g : rng) : Z * rng :=
  let (x, g') := next_raw g in (x mod 2 ^ 53, g').

(** ** Database models *)

Module Student.
Record t : Type := mk {
  id : Z;                       (* primary key *)
  student_id : string;
  full_name : string;
  grade : option Z;
  gender : option string;
  country : option string;
  table_number : option Z
}.
Definition with_table_number (tn : option Z) (s : t) : t :=
  mk (id s) (student_id s) (full_name s) (grade s) (gender s) (country s) tn.
End Student.

Module Table.
Record t : Type := mk {
  id : Z;
  table_number : Z;             (* unique, not null *)
  capacity : Z;
  current_count : Z
}.
Definition with_current_count (c : Z) (tb : t) : t :=
  mk (id tb) (table_number tb) (capacity tb) c.
End Table.

Module Term.
Record t : Type := mk {
  id : Z;
  name : string;
  start_date : date;
  end_date : date;
  weeks : Z;
  is_active : bool
}.
End Term.

Module WeeklyDutyAssignment.
Record t : Type := mk {
  id : Z;
  term_id : Z;
  week_number : Z;
  table_number : Z;
  start_date : date;
  end_date : date
}.
End WeeklyDutyAssignment.

Module DailyDuty.
Record t : Type := mk {
  id : Z;
  weekly_assignment_id : Z;
  date_ : date;                 (* column [date] *)
  shift : string;               (* 'AM' or 'PM' *)
  student1_id : option Z;
  student2_id : option Z
}.
End DailyDuty.

(** The rows of the five tables the scheduling code touches, each in
    insertion (rowid) order. *)
Record DB : Type := mkDB {
  students : list Student.t;
  tables : list Table.t;
  terms : list Term.t;
  weekly_duty_assignments : list WeeklyDutyAssignment.t;
  daily_duties : list DailyDuty.t
}.

Definition with_students (l : list Student.t) (d : DB) : DB :=
  mkDB l (tables d) (terms d) (weekly_duty_assignments d) (daily_duties d).
Definition with_tables (l : list Table.t) (d : DB) : DB :=
  mkDB (students d) l (terms d) (weekly_duty_assignments d) (daily_duties d).
Definition with_weekly (l : list WeeklyDutyAssignment.t) (d : DB) : DB :=
  mkDB (students d) (tables d) (terms d) l (daily_duties d).
Definition with_daily (l : list DailyDuty.t) (d : DB) : DB :=
  mkDB (students d) (tables d) (terms d) (weekly_duty_assignments d) l.

(** The id SQLite gives a new row of an [INTEGER PRIMARY KEY] column: one
    more than the largest id in use, 1 in an empty table.  The id of a
    deleted row is given again when it was the largest. *)
Definition next_id (ids : list Z) : Z := 1 + fold_right Z.max 0 ids.

Definition option_Z_eqb (a b : option Z) : bool :=
  match a, b with
  | Some x, Some y => x =? y
  | None, None => true
  | _, _ => false
  end.

Definition option_string_eqb (a b : option string) : bool :=
  match a, b with
  | Some x, Some y => String.eqb x y
  | None, None => true
  | _, _ => false
  end.

(** ** Queries *)

(** [ORDER BY table_number]: a stable insertion sort. *)
Fixpoint insert_by_number (tb : Table.t) (l : list Table.t) : list Table.t :=
  match l with
  | [] => [tb]
  | x :: l' =>
      if Table.table_number tb <? Table.table_number x then tb :: l
      else x :: insert_by_number tb l'
  end.

Definition order_by_table_number (l : list Table.t) : list Table.t :=
  fold_right insert_by_number [] (rev l).

(** [Table.query.order_by(Table.table_number).all()] *)
Definition Table_query_ordered (d : DB) : list Table.t :=
  order_by_table_number (tables d).

(** [Table.query.filter_by(table_number=n).first()] *)
Definition Table_query_first (n : Z) (d : DB) : option Table.t :=
  find (fun tb => Table.table_number tb =? n) (tables d).

(** [Student.query.filter_by(table_number=n).all()] for an int [n]. *)
Definition Student_query_by_table (n : Z) (d : DB) : list Student.t :=
  filter (fun s => option_Z_eqb (Student.table_number s) (Some n)) (students d).

(** [Student.query.filter_by(table_number=None).all()] *)
Definition Student_query_unassigned (d : DB) : list Student.t :=
  filter (fun s => option_Z_eqb (Student.table_number s) None) (students d).

(** [Student.query.get(id)] *)
Definition Student_query_get (i : Z) (d : DB) : option Student.t :=
  find (fun s => Student.id s =? i) (students d).

(** [Term.query.get(term_id)] *)
Definition Term_query_get (i : Z) (d : DB) : option Term.t :=
  find (fun t => Term.id t =? i) (terms d).

(** [WeeklyDutyAssignment.query.get(id)] *)
Definition Weekly_query_get (i : Z) (d : DB) : option WeeklyDutyAssignment.t :=
  find (fun w => WeeklyDutyAssignment.id w =? i) (weekly_duty_assignments d).

(** [WeeklyDutyAssignment.query.filter_by(term_id=term_id).delete()]: a bulk
    [DELETE FROM weekly_duty_assignment WHERE term_id = ?].  A query-level
    delete does not run the [cascade='all, delete-orphan'] of the
    [daily_duties] relationship (that cascade belongs to
    [session.delete(obj)]), the foreign key of [DailyDuty] declares no
    [ON DELETE] action, and SQLite does not enforce foreign keys unless asked
    to: the rows of [daily_duty] stay as they are. *)
Definition Weekly_delete_by_term (term_id : Z) (d : DB) : DB :=
  with_weekly
    (filter (fun w => negb (WeeklyDutyAssignment.term_id w =? term_id))
            (weekly_duty_assignments d)) d.

(** [DailyDuty.query.filter_by(weekly_assignment_id=i).delete()] *)
Definition Daily_delete_by_weekly (i : Z) (d : DB) : DB :=
  with_daily
    (filter (fun x => negb (DailyDuty.weekly_assignment_id x =? i))
            (daily_duties d)) d.

(** [db.session.add(WeeklyDutyAssignment(...)); db.session.flush()]: the row
    is inserted and its id is known. *)
Definition Weekly_insert (term_id week_number table_number : Z)
    (start_date end_date : date) (d : DB) : WeeklyDutyAssignment.t * DB :=
  let w := WeeklyDutyAssignment.mk
             (next_id (map WeeklyDutyAssignment.id (weekly_duty_assignments d)))
             term_id week_number table_number start_date end_date in
  (w, with_weekly (weekly_duty_assignments d ++ [w]) d).

(** [db.session.add(DailyDuty(...))] *)
Definition Daily_insert (weekly_assignment_id : Z) (dt : date) (shift : string)
    (student1_id student2_id : option Z) (d : DB) : DB :=
  let x := DailyDuty.mk (next_id (map DailyDuty.id (daily_duties d)))
             weekly_assignment_id dt shift student1_id student2_id in
  with_daily (daily_duties d ++ [x]) d.

(** ** The monad of a request

    A computation runs on the session's rows, the state of [random] and the
    flashed messages, and ends with a value or an exception; an exception keeps
    the state it was raised in (a handler's [db.session.rollback()] restores
    the rows). *)

Record State : Type := mkState {
  db : DB;
  rand : rng;
  flashed : list (string * string)    (* (message, category) *)
}.

Definition M (A : Type) : Type := State -> result A * State.

Definition ret {A} (a : A) : M A := fun s => (Ok a, s).

Definition bind {A B} (m : M A) (f : A -> M B) : M B :=
  fun s => match m s with
           | (Ok a, s') => f a s'
           | (Raise e, s') => (Raise e, s')
           | (Diverge, s') => (Diverge, s')
           end.

Notation "x <- m ;; k" := (bind m (fun x => k))
  (at level 61, m at next level, right associativity).
Notation "m ;;; k" := (bind m (fun _ => k))
  (at level 61, right associativity).

Definition lift {A} (r : result A) : M A := fun s => (r, s).

Definition get_db : M DB := fun s => (Ok (db s), s).

Definition modify_db (f : DB -> DB) : M unit :=
  fun s => (Ok tt, mkState (f (db s)) (rand s) (flashed s)).

(** A query-and-update that returns a value. *)
Definition run_db {A} (f : DB -> A * DB) : M A :=
  fun s => let (a, d) := f (db s) in (Ok a, mkState d (rand s) (flashed s)).

Definition with_random {A} (f : rng -> A * rng) : M A :=
  fun s => let (a, g) := f (rand s) in (Ok a, mkState (db s) g (flashed s)).

(** [flash(message, category)] *)
Definition flash (message category : string) : M unit :=
  fun s => (Ok tt, mkState (db s) (rand s) (flashed s ++ [(message, category)])).

(** [db.session.commit()].  The rows written by this code satisfy every
    constraint of their tables, so a commit does not fail. *)
Definition commit : M unit := ret tt.

(** [db.session.rollback()], to the rows at the start of the request. *)
Definition rollback (d0 : DB) : M unit := modify_db (fun _ => d0).

(** [try: body except Exception as e: handler(e)] *)
Definition try_except {A} (body : M A) (handler : exn -> M A) : M A :=
  fun s => match body s with
           | (Ok a, s') => (Ok a, s')
           | (Raise e, s') => handler e s'
           | (Diverge, s') => (Diverge, s')
           end.

(** [for x in xs: body], the loop's local variables passed along. *)
Fixpoint for_loop {A L} (xs : list A) (body : A -> L -> M L) (l : L) : M L :=
  match xs with
  | [] => ret l
  | x :: xs' => l' <- body x l ;; for_loop xs' body l'
  end.

(** ** Duty roster generator *)

Definition shifts : list string := ["AM"; "PM"].

(** [while len(student_pool) < 28: student_pool.extend(table_students)].
    The loop does not end when [table_students] is empty; with a student in
    it, 28 rounds are enough. *)
Fixpoint extend_pool (fuel : nat) (student_pool table_students : list Student.t)
  : M (list Student.t) :=
  if len student_pool <? 28 then
    match fuel with
    | O => fun s => (Diverge, s)
    | S fuel' => extend_pool fuel' (student_pool ++ table_students) table_students
    end
  else ret student_pool.

(** The two nested loops that both [create_duty_schedule_for_term] and
    [regenerate_week] run on the pool, from [student_index = 0]:
    [for day_offset in range(7): ... for shift in ['AM', 'PM']: ...].
    The loops' local variable is [student_index]. *)
Definition assign_shift (weekly_assignment_id : Z) (duty_date : date)
    (student_pool : list Student.t) (shift : string) (student_index : Z) : M Z :=
  i1 <- lift (py_mod student_index (len student_pool)) ;;
  student1 <- lift (py_getitem student_pool i1) ;;
  let student_index := student_index + 1 in
  i2 <- lift (py_mod student_index (len student_pool)) ;;
  student2 <- lift (py_getitem student_pool i2) ;;
  let student_index := student_index + 1 in
  modify_db (Daily_insert weekly_assignment_id duty_date shift
               (Some (Student.id student1)) (Some (Student.id student2))) ;;;
  ret student_index.

Definition assign_day (weekly_assignment_id : Z) (week_start : date)
    (student_pool : list Student.t) (day_offset : Z) (student_index : Z) : M Z :=
  duty_date <- lift (date_add_days week_start day_offset) ;;
  for_loop shifts (assign_shift weekly_assignment_id duty_date student_pool)
    student_index.

Definition assign_week_duties (weekly_assignment_id : Z) (week_start : date)
    (student_pool : list Student.t) : M Z :=
  for_loop (py_range 0 7)
    (assign_day weekly_assignment_id week_start student_pool) 0.

(** The body of [for week_num in range(1, term.weeks + 1)]; the loop's local
    variable is [current_date]. *)
Definition create_week (term_id : Z) (tables : list Table.t)
    (week_num : Z) (current_date : date) : M date :=
  let week_start := current_date in
  week_end <- lift (date_add_days week_start 6) ;;
  i <- lift (py_mod (week_num - 1) (len tables)) ;;
  table <- lift (py_getitem tables i) ;;
  weekly_assignment <-
    run_db (Weekly_insert term_id week_num (Table.table_number table)
              week_start week_end) ;;
  d <- get_db ;;
  let table_students := Student_query_by_table (Table.table_number table) d in
  match table_students with
  | [] => lift (date_add_days week_end 1)            (* continue *)
  | _ :: _ =>
      student_pool <- with_random (shuffle table_students) ;;
      student_pool <- extend_pool 28 student_pool table_students ;;
      assign_week_duties (WeeklyDutyAssignment.id weekly_assignment)
        week_start student_pool ;;;
      lift (date_add_days week_end 1)
  end.

Definition create_duty_schedule_for_term (term_id : Z) : M (bool * string) :=
  d0 <- get_db ;;
  match Term_query_get term_id d0 with
  | None => ret (false, "Term not found")
  | Some term =>
      match Table_query_ordered d0 with
      | [] => ret (false, "No tables available")
      | (_ :: _) as tables =>
          modify_db (Weekly_delete_by_term term_id) ;;;
          for_loop (py_range 1 (Term.weeks term + 1))
            (create_week term_id tables) (Term.start_date term) ;;;
          try_except
            (commit ;;;
             ret (true, ("Successfully created duty schedule for "
                         ++ str_of_int (Term.weeks term) ++ " weeks")%string))
            (fun e => rollback d0 ;;; ret (false, ("Error: " ++ exn_str e)%string))
      end
  end.

(** The JSON response of an AJAX endpoint: [success], the [message] or
    [error] text, and the HTTP status. *)
Record response : Type := mkResponse {
  success : bool;
  text : string;
  status : Z
}.

(** The part of [regenerate_week] that writes: the old duties of the week
    are deleted and fourteen are written from a fresh pool. *)
Definition regenerate_duties (weekly_assignment_id : Z)
    (weekly_assignment : WeeklyDutyAssignment.t)
    (table_students : list Student.t) : M response :=
  modify_db (Daily_delete_by_weekly weekly_assignment_id) ;;;
  student_pool <- with_random (shuffle table_students) ;;
  student_pool <- extend_pool 28 student_pool table_students ;;
  assign_week_duties (WeeklyDutyAssignment.id weekly_assignment)
    (WeeklyDutyAssignment.start_date weekly_assignment) student_pool ;;;
  commit ;;;
  ret (mkResponse true "Week regenerated successfully" 200).

(** [regenerate_week], on the [weekly_assignment_id] of the request. *)
Definition regenerate_week (weekly_assignment_id : Z) : M response :=
  d0 <- get_db ;;
  try_except
    (match Weekly_query_get weekly_assignment_id d0 with
     | None => ret (mkResponse false "Weekly assignment not found" 404)
     | Some weekly_assignment =>
         let table_students :=
           Student_query_by_table
             (WeeklyDutyAssignment.table_number weekly_assignment) d0 in
         match table_students with
         | [] => ret (mkResponse false "No students in this table" 400)
         | _ :: _ =>
             regenerate_duties weekly_assignment_id weekly_assignment
               table_students
         end
     end)
    (fun e => rollback d0 ;;; ret (mkResponse false (exn_str e) 500)).

(** ** Python dicts and sets

    A dict keeps its keys in insertion order, and the code depends on that
    order (the first table with the lowest score wins, the fallback walks
    the tables in order): an association list with no repeated key. *)

Section Dict.
Context {K V : Type} (eqb : K -> K -> bool).

Definition dict : Type := list (K * V).

Fixpoint dict_get (k : K) (d : dict) : option V :=
  match d with
  | [] => None
  | (k', v) :: d' => if eqb k k' then Some v else dict_get k d'
  end.

(** [d[k] = v]: an existing key keeps its place. *)
Fixpoint dict_set (k : K) (v : V) (d : dict) : dict :=
  match d with
  | [] => [(k, v)]
  | (k', v') :: d' =>
      if eqb k k' then (k', v) :: d' else (k', v') :: dict_set k v d'
  end.

(** [list(d.keys())] *)
Definition dict_keys (d : dict) : list K := map fst d.

(** [d[k]] on a plain dict. *)
Definition dict_getitem (k : K) (d : dict) : result V :=
  match dict_get k d with
  | Some v => Ok v
  | None => Raise (KeyError "key")
  end.
End Dict.

(** [s in assigned_students] and [assigned_students.add(s)] for a set of
    model objects, which hash by identity: the set of their primary keys. *)
Definition set_mem (i : Z) (s : list Z) : bool := existsb (Z.eqb i) s.
Definition set_add (i : Z) (s : list Z) : list Z :=
  if set_mem i s then s else s ++ [i].

(** ** Table distributor *)

(** The key of [by_grade]: [student.grade if student.grade else 'unknown']
    (a grade of 0 is falsy too). *)
Inductive grade_key : Type :=
| Grade (g : Z)
| unknown.

Definition grade_key_eqb (a b : grade_key) : bool :=
  match a, b with
  | Grade x, Grade y => x =? y
  | unknown, unknown => true
  | _, _ => false
  end.

Definition grade_key_of (s : Student.t) : grade_key :=
  match Student.grade s with
  | Some g => if g =? 0 then unknown else Grade g
  | None => unknown
  end.

(** [by_grade[grade].append(student)] on a [defaultdict(list)]. *)
Definition by_grade_append (student : Student.t)
    (by_grade : dict (K:=grade_key) (V:=list Student.t)) :=
  let grade := grade_key_of student in
  match dict_get grade_key_eqb grade by_grade with
  | Some l => dict_set grade_key_eqb grade (l ++ [student]) by_grade
  | None => dict_set grade_key_eqb grade [student] by_grade
  end.

(** [by_grade[grade]] on a [defaultdict(list)]. *)
Definition by_grade_getitem (grade : grade_key)
    (by_grade : dict (K:=grade_key) (V:=list Student.t)) : list Student.t :=
  match dict_get grade_key_eqb grade by_grade with
  | Some l => l
  | None => []
  end.

(** [sum(1 for s in l if p(s))] *)
Definition count_if {A} (p : A -> bool) (l : list A) : Z := len (filter p l).

Definition assignments : Type := dict (K:=Z) (V:=list Student.t).

(** The locals of the placement loops: [table_assignments] and
    [assigned_students]. *)
Definition locals : Type := (assignments * list Z)%type.

(** The integer part of a table's score for a student. *)
Definition collisions (student : Student.t) (current_students : list Student.t) : Z :=
  let same_grade :=
    count_if (fun s => option_Z_eqb (Student.grade s) (Student.grade student))
             current_students in
  let same_gender :=
    count_if (fun s => option_string_eqb (Student.gender s) (Student.gender student))
             current_students in
  let same_country :=
    count_if (fun s => option_string_eqb (Student.country s) (Student.country student))
             current_students in
  same_grade * 3 + same_gender * 2 + same_country * 2.

(** The body of [for table_num in available_tables]; the loop's locals are
    [(best_table, best_score)]. *)
Definition score_table (student : Student.t) (table_assignments : assignments)
    (table_num : Z) (best : option Z * pyfloat) : M (option Z * pyfloat) :=
  current_students <- lift (dict_getitem Z.eqb table_num table_assignments) ;;
  let score := collisions student current_students in
  jitter <- with_random uniform_0_2 ;;
  let score := int_add_float score jitter in
  if float_lt score (snd best) then ret (Some table_num, score) else ret best.

(** [table_assignments[table_num].append(student); assigned_students.add(student)] *)
Definition assign_to (table_num : Z) (student : Student.t) (l : locals) : M locals :=
  current <- lift (dict_getitem Z.eqb table_num (fst l)) ;;
  ret (dict_set Z.eqb table_num (current ++ [student]) (fst l),
       set_add (Student.id student) (snd l)).

(** One round of [for student in grade_students], after the test of
    [available_tables]. *)
Definition place_student (student : Student.t) (l : locals) : M locals :=
  let available_tables := dict_keys (fst l) in
  best <- for_loop available_tables (score_table student (fst l)) (None, Inf) ;;
  match fst best with
  | Some best_table =>
      if best_table =? 0 then ret l              (* [if best_table:] *)
      else assign_to best_table student l
  | None => ret l
  end.

(** [for student in grade_students], with its [break]. *)
Fixpoint place_group (grade_students : list Student.t) (l : locals) : M locals :=
  match grade_students with
  | [] => ret l
  | student :: rest =>
      match dict_keys (fst l) with
      | [] => ret l                              (* break *)
      | _ :: _ => l' <- place_student student l ;; place_group rest l'
      end
  end.

(** The body of [for grade in grade_keys]. *)
Definition place_grade (by_grade : dict (K:=grade_key) (V:=list Student.t))
    (grade : grade_key) (l : locals) : M locals :=
  let grade_students :=
    filter (fun s => negb (set_mem (Student.id s) (snd l)))
           (by_grade_getitem grade by_grade) in
  grade_students <- with_random (shuffle grade_students) ;;
  place_group grade_students l.

(** [enumerate(l)] *)
Definition enumerate {A} (l : list A) : list (Z * A) :=
  combine (py_range 0 (len l)) l.

(** The body of [for idx, student in enumerate(remaining_students)]. *)
Definition place_remaining (table_list : list Z) (x : Z * Student.t) (l : locals)
  : M locals :=
  let (idx, student) := x in
  i <- lift (py_mod idx (len table_list)) ;;
  table_num <- lift (py_getitem table_list i) ;;
  assign_to table_num student l.

(** [student.table_number = tn] on the row of the session. *)
Definition Student_set_table_number (i : Z) (tn : option Z) (d : DB) : DB :=
  with_students
    (map (fun s => if Student.id s =? i then Student.with_table_number tn s else s)
         (students d)) d.

(** [table.current_count = c] on the row of the session. *)
Definition Table_set_current_count (i : Z) (c : Z) (d : DB) : DB :=
  with_tables
    (map (fun tb => if Table.id tb =? i then Table.with_current_count c tb else tb)
         (tables d)) d.

(** [s.table_number] read through a reference held from before a write:
    the session has one object per row. *)
Definition current_table_number (d : DB) (s : Student.t) : option Z :=
  match Student_query_get (Student.id s) d with
  | Some s' => Student.table_number s'
  | None => Student.table_number s
  end.

(** [for table_num, students_list in table_assignments.items(): ...] *)
Definition write_assignments (table_assignments : assignments) : M unit :=
  for_loop table_assignments
    (fun item _ =>
       for_loop (snd item)
         (fun student _ =>
            modify_db (Student_set_table_number (Student.id student) (Some (fst item))))
         tt)
    tt.

(** [for table in tables: count = ...; table.current_count = count], where
    [students] is the list of the students that were unassigned. *)
Definition recount_tables (tables : list Table.t) (students : list Student.t) : M unit :=
  for_loop tables
    (fun table _ =>
       d <- get_db ;;
       let count :=
         count_if (fun s => option_Z_eqb (current_table_number d s)
                                         (Some (Table.table_number table)))
                  students in
       modify_db (Table_set_current_count (Table.id table) count))
    tt.

(** The run proper of [distribute_students_to_tables_smart], from
    [random.shuffle(students)] on, with a table and an unassigned student. *)
Definition distribute_some (d0 : DB) (students : list Student.t)
    (tables : list Table.t) : M bool :=
  students <- with_random (shuffle students) ;;
  let table_assignments : assignments :=
    fold_left (fun d table => dict_set Z.eqb (Table.table_number table) [] d)
              tables [] in
  let by_grade := fold_left (fun d s => by_grade_append s d) students [] in
  grade_keys <- with_random (shuffle (dict_keys by_grade)) ;;
  l <- for_loop grade_keys (place_grade by_grade) (table_assignments, []) ;;
  let remaining_students :=
    filter (fun s => negb (set_mem (Student.id s) (snd l))) students in
  remaining_students <- with_random (shuffle remaining_students) ;;
  let table_list := dict_keys (fst l) in
  l <- for_loop (enumerate remaining_students) (place_remaining table_list) l ;;
  write_assignments (fst l) ;;;
  recount_tables tables students ;;;
  try_except
    (commit ;;;
     flash ("Successfully distributed " ++ str_of_int (len (snd l))
            ++ " students with balanced diversity!")%string "success" ;;;
     ret true)
    (fun e =>
       rollback d0 ;;;
       flash ("Error during distribution: " ++ exn_str e)%string "error" ;;;
       ret false).

Definition distribute_students_to_tables_smart : M bool :=
  d0 <- get_db ;;
  let students := Student_query_unassigned d0 in
  let tables := Table_query_ordered d0 in
  match tables with
  | [] =>
      flash "No tables available. Please create tables first." "error" ;;;
      ret false
  | _ :: _ =>
      match students with
      | [] =>
          flash "No unassigned students to distribute." "info" ;;;
          ret true
      | _ :: _ => distribute_some d0 students tables
      end
  end.

(** ** Manual reassignment *)

Inductive http : Type :=
| Redirect (endpoint : string)
| Abort (code : Z).

(** An int of a form, a URL or a JSON body that is bound as a parameter of
    a statement: sqlite3 takes the ints of a 64-bit INTEGER and raises
    OverflowError on any other.  The ints read from a row fit. *)
Definition int64 (n : Z) : bool := (- 2 ^ 63 <=? n) && (n <? 2 ^ 63).

Definition too_large : exn :=
  OverflowError "Python int too large to convert to SQLite INTEGER".

Definition sqlite_int (n : Z) : result unit :=
  if int64 n then Ok tt else Raise too_large.

(** [old_table.current_count = Student.query.filter_by(table_number=n).count()]
    when the table exists. *)
Definition refresh_count (n : Z) : M unit :=
  d <- get_db ;;
  match Table_query_first n d with
  | Some tb =>
      modify_db (Table_set_current_count (Table.id tb)
                   (len (Student_query_by_table n d)))
  | None => ret tt
  end.

(** An int is truthy when it is there and not 0. *)
Definition truthy (n : option Z) : bool :=
  match n with
  | Some x => negb (x =? 0)
  | None => false
  end.

Definition str_of_option_int (n : option Z) : string :=
  match n with
  | Some x => str_of_int x
  | None => "None"
  end.

(** [change_student_table(student_id)], on the [table_number] of the form
    ([None] when it is missing or not an int).  [get_or_404] and the lookup of
    the table are outside the [try]: an int they cannot bind leaves the
    request as an exception, before anything is written. *)
Definition change_student_table (student_id : Z) (new_table_number : option Z)
  : M http :=
  d0 <- get_db ;;
  lift (sqlite_int student_id) ;;;
  match Student_query_get student_id d0 with
  | None => ret (Abort 404)
  | Some student =>
      let old_table_number := Student.table_number student in
      let finish :=
        try_except
          (commit ;;;
           (if truthy old_table_number then
              match old_table_number with
              | Some n => refresh_count n
              | None => ret tt
              end
            else ret tt) ;;;
           (if truthy new_table_number then
              match new_table_number with
              | Some n => refresh_count n
              | None => ret tt
              end
            else ret tt) ;;;
           commit ;;;
           flash ("Student " ++ Student.student_id student ++ " moved to Table "
                  ++ (if option_Z_eqb new_table_number (Some 0) then "Unassigned"
                      else str_of_option_int new_table_number))%string "success")
          (fun e =>
             rollback d0 ;;;
             flash ("Error changing table: " ++ exn_str e)%string "error") ;;;
        ret (Redirect "students") in
      if option_Z_eqb new_table_number (Some 0) then
        modify_db (Student_set_table_number (Student.id student) None) ;;;
        finish
      else
        match new_table_number with
        | Some n =>
            lift (sqlite_int n) ;;;
            match Table_query_first n d0 with
            | Some _ =>
                modify_db (Student_set_table_number (Student.id student) (Some n)) ;;;
                finish
            | None =>
                flash ("Table " ++ str_of_int n ++ " does not exist")%string "error" ;;;
                ret (Redirect "students")
            end
        | None =>
            flash "Table None does not exist" "error" ;;;
            ret (Redirect "students")
        end
  end.

(** ** Table management *)

(** [Table.query.get(id)] *)
Definition Table_query_get (i : Z) (d : DB) : option Table.t :=
  find (fun tb => Table.id tb =? i) (tables d).

(** [db.session.add(Table(table_number=n, capacity=c))]: [current_count]
    takes its default, 0. *)
Definition Table_insert (table_number capacity : Z) (d : DB) : DB :=
  with_tables
    (tables d ++ [Table.mk (next_id (map Table.id (tables d)))
                           table_number capacity 0]) d.

(** [table.table_number = n; table.capacity = c] on the row of the session. *)
Definition Table_set_number_capacity (i : Z) (n c : Z) (d : DB) : DB :=
  with_tables
    (map (fun tb => if Table.id tb =? i
                    then Table.mk (Table.id tb) n c (Table.current_count tb)
                    else tb)
         (tables d)) d.

(** [db.session.delete(table)] *)
Definition Table_delete (i : Z) (d : DB) : DB :=
  with_tables (filter (fun tb => negb (Table.id tb =? i)) (tables d)) d.

(** [for student in students: student.table_number = tn] *)
Definition move_students (students : list Student.t) (tn : option Z) : M unit :=
  for_loop students
    (fun student _ => modify_db (Student_set_table_number (Student.id student) tn))
    tt.

(** The POST of [add_table], on the [table_number] and [capacity] of the
    form ([None] when missing or not an int).  [redirect(request.url)] leads
    back to the form of the endpoint.  The lookup of the number is outside
    the [try]; the capacity is bound when the commit sends the INSERT. *)
Definition add_table (table_number capacity : option Z) : M http :=
  if negb (truthy table_number) || negb (truthy capacity) then
    flash "Table number and capacity are required" "error" ;;;
    ret (Redirect "add_table")
  else
    match table_number, capacity with
    | Some n, Some c =>
        if c <=? 0 then
          flash "Capacity must be greater than 0" "error" ;;;
          ret (Redirect "add_table")
        else
          d0 <- get_db ;;
          lift (sqlite_int n) ;;;
          match Table_query_first n d0 with
          | Some _ =>
              flash ("Table " ++ str_of_int n ++ " already exists")%string "error" ;;;
              ret (Redirect "add_table")
          | None =>
              modify_db (Table_insert n c) ;;;
              try_except
                (lift (sqlite_int c) ;;;
                 commit ;;;
                 flash ("Table " ++ str_of_int n
                        ++ " added successfully with capacity "
                        ++ str_of_int c)%string "success")
                (fun e =>
                   rollback d0 ;;;
                   flash ("Error adding table: " ++ exn_str e)%string "error") ;;;
              ret (Redirect "tables")
          end
    | _, _ =>
        flash "Table number and capacity are required" "error" ;;;
        ret (Redirect "add_table")
    end.

(** An exception that leaves the request: the session is removed, and
    what it had not committed is gone. *)
Definition leaves_request (d0 : DB) (r : result unit) : M unit :=
  match r with
  | Ok _ => ret tt
  | _ => rollback d0 ;;; lift r
  end.

(** The POST of [edit_table].  [get_or_404], the lookup of the new number
    and the count are outside the [try].  The count is a query, and the
    session flushes before a query: the students moved and the table with
    its new number and capacity are written then, the capacity being bound
    for the first time. *)
Definition edit_table (id : Z) (new_table_number new_capacity : option Z) : M http :=
  d0 <- get_db ;;
  lift (sqlite_int id) ;;;
  match Table_query_get id d0 with
  | None => ret (Abort 404)
  | Some table =>
      if negb (truthy new_table_number) || negb (truthy new_capacity) then
        flash "Table number and capacity are required" "error" ;;;
        ret (Redirect "edit_table")
      else
        match new_table_number, new_capacity with
        | Some n, Some c =>
            if c <=? 0 then
              flash "Capacity must be greater than 0" "error" ;;;
              ret (Redirect "edit_table")
            else
              let write :=
                (if negb (n =? Table.table_number table) then
                   move_students
                     (Student_query_by_table (Table.table_number table) d0)
                     (Some n)
                 else ret tt) ;;;
                modify_db (Table_set_number_capacity (Table.id table) n c) ;;;
                leaves_request d0 (sqlite_int c) ;;;
                d <- get_db ;;
                modify_db (Table_set_current_count (Table.id table)
                             (len (Student_query_by_table n d))) ;;;
                try_except
                  (commit ;;;
                   flash ("Table " ++ str_of_int n ++ " updated successfully")%string
                         "success")
                  (fun e =>
                     rollback d0 ;;;
                     flash ("Error updating table: " ++ exn_str e)%string "error") ;;;
                ret (Redirect "tables") in
              if negb (n =? Table.table_number table) then
                lift (sqlite_int n) ;;;
                match Table_query_first n d0 with
                | Some _ =>
                    flash ("Table " ++ str_of_int n ++ " already exists")%string
                          "error" ;;;
                    ret (Redirect "edit_table")
                | None => write
                end
              else write
        | _, _ =>
            flash "Table number and capacity are required" "error" ;;;
            ret (Redirect "edit_table")
        end
  end.

(** [delete_table(id)]; [get_or_404] is outside the [try]. *)
Definition delete_table (id : Z) : M http :=
  d0 <- get_db ;;
  lift (sqlite_int id) ;;;
  match Table_query_get id d0 with
  | None => ret (Abort 404)
  | Some table =>
      move_students (Student_query_by_table (Table.table_number table) d0) None ;;;
      modify_db (Table_delete (Table.id table)) ;;;
      try_except
        (commit ;;;
         flash ("Table " ++ str_of_int (Table.table_number table)
                ++ " deleted. Students have been unassigned.")%string "info")
        (fun e =>
           rollback d0 ;;;
           flash ("Error deleting table: " ++ exn_str e)%string "error") ;;;
      ret (Redirect "tables")
  end.

(** [redistribute()] *)
Definition redistribute : M http :=
  d0 <- get_db ;;
  if len (tables d0) =? 0 then
    flash "No tables available. Please create tables first." "error" ;;;
    ret (Redirect "tables")
  else
    move_students (students d0) None ;;;
    for_loop (tables d0)
      (fun table _ => modify_db (Table_set_current_count (Table.id table) 0)) tt ;;;
    cleared <- try_except
                 (commit ;;; ret true)
                 (fun e =>
                    rollback d0 ;;;
                    flash ("Error clearing assignments: " ++ exn_str e)%string
                          "error" ;;;
                    ret false) ;;
    if cleared then
      distribute_students_to_tables_smart ;;;
      ret (Redirect "tables")
    else ret (Redirect "tables").

(** [clear_students()]: [Student.query.delete()] is a bulk
    [DELETE FROM student]. *)
Definition clear_students : M http :=
  d0 <- get_db ;;
  try_except
    (modify_db (with_students []) ;;;
     commit ;;;
     flash "All students have been cleared!" "info")
    (fun e =>
       rollback d0 ;;;
       flash ("Error clearing students: " ++ exn_str e)%string "error") ;;;
  ret (Redirect "students").

(** ** Terms *)

Definition with_terms (l : list Term.t) (d : DB) : DB :=
  mkDB (students d) (tables d) l (weekly_duty_assignments d) (daily_duties d).

(** [timedelta(weeks=w)] in days: a timedelta holds at most 999999999 days
    either way, and its days are first made a C int. *)
Definition timedelta_weeks (w : Z) : result Z :=
  let days := 7 * w in
  if Z.abs days <=? 999999999 then Ok days
  else if (- 2 ^ 31 <=? days) && (days <? 2 ^ 31) then
    Raise (OverflowError ("days=" ++ str_of_int days
                          ++ "; must have magnitude <= 999999999")%string)
  else Raise (OverflowError "Python int too large to convert to C int").

(** [Term.query.update({'is_active': False})] *)
Definition Term_deactivate_all (d : DB) : DB :=
  with_terms
    (map (fun t => Term.mk (Term.id t) (Term.name t) (Term.start_date t)
                           (Term.end_date t) (Term.weeks t) false)
         (terms d)) d.

(** [db.session.add(Term(...))] *)
Definition Term_insert (name : string) (start_date end_date : date) (weeks : Z)
    (is_active : bool) (d : DB) : DB :=
  with_terms
    (terms d ++ [Term.mk (next_id (map Term.id (terms d))) name start_date end_date
                         weeks is_active]) d.

(** The outcome of [datetime.strptime(start_date_str, '%Y-%m-%d').date()]:
    a date, or the text of the ValueError. *)
Inductive parsed : Type :=
| Parsed (d : date)
| Unparsed (msg : string).

(** A str of the form is truthy when it is there and not empty. *)
Definition truthy_str (x : option string) : bool :=
  match x with
  | Some EmptyString | None => false
  | Some _ => true
  end.

(** The double quote of the messages. *)
Definition dquote : string := String (Ascii.ascii_of_nat 34) EmptyString.

(** The POST of [add_term], on the fields of the form, [start] being what
    [strptime] makes of [start_date_str] and [is_active] whether the
    checkbox is 'on'.  A ValueError of [strptime] goes to the handler like
    the OverflowError of the two sums. *)
Definition add_term (name start_date_str : option string) (start : parsed)
    (weeks : option Z) (is_active : bool) : M http :=
  if truthy_str name && truthy_str start_date_str && truthy weeks then
    match name, weeks with
    | Some name_, Some weeks_ =>
        d0 <- get_db ;;
        let handler (msg : string) : M http :=
          rollback d0 ;;;
          flash ("Error creating term: " ++ msg)%string "error" ;;;
          ret (Redirect "add_term") in
        match start with
        | Unparsed msg => handler msg
        | Parsed start_date =>
            try_except
              (delta <- lift (timedelta_weeks weeks_) ;;
               end_date <- lift (date_add_days start_date delta) ;;
               (if is_active then modify_db Term_deactivate_all else ret tt) ;;;
               modify_db (Term_insert name_ start_date end_date weeks_ is_active) ;;;
               commit ;;;
               flash ("Term " ++ dquote ++ name_ ++ dquote
                      ++ " created successfully")%string "success" ;;;
               ret (Redirect "manage_terms"))
              (fun e => handler (exn_str e))
        end
    | _, _ =>
        flash "All fields are required" "error" ;;;
        ret (Redirect "add_term")
    end
  else
    flash "All fields are required" "error" ;;;
    ret (Redirect "add_term").

(** [db.session.delete(term)]: the [cascade='all, delete-orphan'] of
    [Term.weekly_assignments] deletes the weekly rows of the term, and that
    of [WeeklyDutyAssignment.daily_duties] the daily rows whose
    [weekly_assignment_id] is the id of one of them. *)
Definition Term_delete (i : Z) (d : DB) : DB :=
  let doomed :=
    map WeeklyDutyAssignment.id
        (filter (fun w => WeeklyDutyAssignment.term_id w =? i)
                (weekly_duty_assignments d)) in
  mkDB (students d) (tables d)
       (filter (fun t => negb (Term.id t =? i)) (terms d))
       (filter (fun w => negb (WeeklyDutyAssignment.term_id w =? i))
               (weekly_duty_assignments d))
       (filter (fun x => negb (existsb (Z.eqb (DailyDuty.weekly_assignment_id x))
                                       doomed))
               (daily_duties d)).

(** [delete_term(id)] *)
Definition delete_term (id : Z) : M http :=
  d0 <- get_db ;;
  match Term_query_get id d0 with
  | None => ret (Abort 404)
  | Some term =>
      try_except
        (modify_db (Term_delete (Term.id term)) ;;;
         commit ;;;
         flash ("Term " ++ dquote ++ Term.name term ++ dquote
                ++ " deleted successfully")%string "success")
        (fun e =>
           rollback d0 ;;;
           flash ("Error deleting term: " ++ exn_str e)%string "error") ;;;
      ret (Redirect "manage_terms")
  end.

(** ** Manual slot edit and duty counts *)

(** [DailyDuty.query.get(duty_id)] *)
Definition DailyDuty_query_get (i : Z) (d : DB) : option DailyDuty.t :=
  find (fun x => DailyDuty.id x =? i) (daily_duties d).

(** [duty.student1_id = v] and [duty.student2_id = v] on the row of the
    session. *)
Definition DailyDuty_set_student1 (i : Z) (v : option Z) (d : DB) : DB :=
  with_daily
    (map (fun x => if DailyDuty.id x =? i
                   then DailyDuty.mk (DailyDuty.id x) (DailyDuty.weekly_assignment_id x)
                          (DailyDuty.date_ x) (DailyDuty.shift x) v
                          (DailyDuty.student2_id x)
                   else x)
         (daily_duties d)) d.

Definition DailyDuty_set_student2 (i : Z) (v : option Z) (d : DB) : DB :=
  with_daily
    (map (fun x => if DailyDuty.id x =? i
                   then DailyDuty.mk (DailyDuty.id x) (DailyDuty.weekly_assignment_id x)
                          (DailyDuty.date_ x) (DailyDuty.shift x)
                          (DailyDuty.student1_id x) v
                   else x)
         (daily_duties d)) d.

(** The JSON response of [update_duty]: [success], the [error] text or the
    [student_info] (id, student_id, full_name), and the HTTP status. *)
Inductive update_response : Type :=
| Updated (student_info : option (Z * string * string))
| Refused (error : string) (status : Z).

(** [update_duty], on the [duty_id], [slot] and [student_id] of the request
    ([student_id] is [None] for null).  Everything is inside the [try]: an
    int SQLite cannot bind, the id of the duty at the lookup or the id of
    the student when the commit sends the UPDATE, goes to the handler. *)
Definition update_duty (duty_id : Z) (slot : string) (student_id : option Z)
  : M update_response :=
  d0 <- get_db ;;
  try_except
    (lift (sqlite_int duty_id) ;;;
     match DailyDuty_query_get duty_id d0 with
     | None => ret (Refused "Duty not found" 404)
     | Some duty =>
         let value := if truthy student_id then student_id else None in
         let answer :=
           match value with
           | Some v => lift (sqlite_int v)
           | None => ret tt
           end ;;;
           commit ;;;
           d <- get_db ;;
           ret (Updated
                  (if truthy student_id then
                     match student_id with
                     | Some i =>
                         match Student_query_get i d with
                         | Some student =>
                             Some (Student.id student, Student.student_id student,
                                   Student.full_name student)
                         | None => None
                         end
                     | None => None
                     end
                   else None)) in
         if String.eqb slot "student1" then
           modify_db (DailyDuty_set_student1 (DailyDuty.id duty) value) ;;;
           answer
         else if String.eqb slot "student2" then
           modify_db (DailyDuty_set_student2 (DailyDuty.id duty) value) ;;;
           answer
         else ret (Refused "Invalid slot" 400)
     end)
    (fun e => rollback d0 ;;; ret (Refused (exn_str e) 500)).

(** [get_student_duty_count(student_id, term_id)] *)
Definition get_student_duty_count (student_id term_id : Z) (d : DB) : Z :=
  let weekly_assignments :=
    filter (fun w => WeeklyDutyAssignment.term_id w =? term_id)
           (weekly_duty_assignments d) in
  let weekly_ids := map WeeklyDutyAssignment.id weekly_assignments in
  count_if
    (fun x =>
       existsb (Z.eqb (DailyDuty.weekly_assignment_id x)) weekly_ids
       && (option_Z_eqb (DailyDuty.student1_id x) (Some student_id)
           || option_Z_eqb (DailyDuty.student2_id x) (Some student_id)))
    (daily_duties d).

(** ** Import

    The rows of the sheet are given as the loop of [upload] reads them:
    [str(row['Student ID']).strip()], [str(row['Full Name']).strip()] and the
    three optional columns after their conversion, [None] for a missing
    column or an empty cell.  Reading the file and the conversions
    themselves belong to pandas. *)

Record sheet_row : Type := mkRow {
  row_student_id : string;
  row_full_name : string;
  row_grade : option Z;
  row_gender : option string;
  row_country : option string
}.

(** [Student.query.filter_by(student_id=student_id).first()]; the session
    flushes first, so the rows added by this request are seen. *)
Definition Student_query_by_student_id (student_id : string) (d : DB)
  : option Student.t :=
  find (fun s => String.eqb (Student.student_id s) student_id) (students d).

(** [db.session.add(Student(...))]: no table yet. *)
Definition Student_insert (row : sheet_row) (d : DB) : DB :=
  with_students
    (students d ++ [Student.mk (next_id (map Student.id (students d)))
                               (row_student_id row) (row_full_name row)
                               (row_grade row) (row_gender row) (row_country row)
                               None]) d.

(** The body of [for _, row in df.iterrows()]; the loop's local variable is
    [imported_count].  The INSERT of the new row is sent by the next flush
    (the query of the next round, or the commit), which binds its grade;
    nothing is read in between, and all of it is inside the [try]. *)
Definition import_row (row : sheet_row) (imported_count : Z) : M Z :=
  d <- get_db ;;
  match Student_query_by_student_id (row_student_id row) d with
  | Some _ => ret imported_count                 (* continue *)
  | None =>
      modify_db (Student_insert row) ;;;
      match row_grade row with
      | Some g => lift (sqlite_int g)
      | None => ret tt
      end ;;;
      ret (imported_count + 1)
  end.

(** [upload] from [imported_count = 0] on.  A rollback goes back to the last
    commit: the rows of the start of the request before [commit], the
    imported rows after it. *)
Definition import_students (rows : list sheet_row) : M http :=
  d0 <- get_db ;;
  imported <- try_except
                (imported_count <- for_loop rows import_row 0 ;;
                 commit ;;;
                 ret (Some imported_count))
                (fun e =>
                   rollback d0 ;;;
                   flash ("Error importing file: " ++ exn_str e)%string "error" ;;;
                   ret None) ;;
  match imported with
  | None => ret (Redirect "upload")
  | Some imported_count =>
      d1 <- get_db ;;
      try_except
        ((if len (tables d1) >? 0 then
            distribute_students_to_tables_smart ;;; ret tt
          else
            flash ("Successfully imported " ++ str_of_int imported_count
                   ++ " students. Create tables to assign students.")%string
                  "info") ;;;
         ret (Redirect "students"))
        (fun e =>
           rollback d1 ;;;
           flash ("Error importing file: " ++ exn_str e)%string "error" ;;;
           ret (Redirect "upload"))
  end.

(** * Vocabulary of the properties *)

Definition by_number (a b : Table.t) : Prop :=
  Table.table_number a <= Table.table_number b.

(** The rows a computation appended to [daily_duty]. *)
Definition add_daily (rows : list DailyDuty.t) (s : State) : State :=
  mkState (with_daily (daily_duties (db s) ++ rows) (db s)) (rand s) (flashed s).

Definition duty_key (x : DailyDuty.t) : date * string :=
  (DailyDuty.date_ x, DailyDuty.shift x).

(** A duty of week [wid] whose two slots hold students of [pool]. *)
Definition duty_from (wid : Z) (pool : list Student.t) (x : DailyDuty.t) : Prop :=
  DailyDuty.weekly_assignment_id x = wid /\
  exists a b, In a pool /\ In b pool /\
              DailyDuty.student1_id x = Some (Student.id a) /\
              DailyDuty.student2_id x = Some (Student.id b).

(** The fourteen (date, shift) pairs of the week that starts on [start]. *)
Definition week_slots (start : date) : list (date * string) :=
  flat_map (fun k => [(start + k, "AM"); (start + k, "PM")]) (py_range 0 7).

(** The students of table [n] among [studs]. *)
Definition members (n : Z) (studs : list Student.t) : list Student.t :=
  filter (fun s => option_Z_eqb (Student.table_number s) (Some n)) studs.

(** What one round of the week loop writes: the weekly row [wa] of week [w]
    that starts on [cur], given the ids [ids] already in the table, and its
    daily rows [rows]. *)
Record week_written (tid : Z) (tabs : list Table.t) (studs : list Student.t)
    (ids : list Z) (cur : date) (w : Z)
    (wa : WeeklyDutyAssignment.t) (rows : list DailyDuty.t) : Prop := {
  ww_id : WeeklyDutyAssignment.id wa = next_id ids;
  ww_term : WeeklyDutyAssignment.term_id wa = tid;
  ww_week : WeeklyDutyAssignment.week_number wa = w;
  ww_start : WeeklyDutyAssignment.start_date wa = cur;
  ww_end : WeeklyDutyAssignment.end_date wa = cur + 6;
  ww_table : exists tb,
      nth_error tabs (Z.to_nat ((w - 1) mod len tabs)) = Some tb /\
      WeeklyDutyAssignment.table_number wa = Table.table_number tb;
  ww_empty : members (WeeklyDutyAssignment.table_number wa) studs = [] -> rows = [];
  ww_rows : members (WeeklyDutyAssignment.table_number wa) studs <> [] ->
      map duty_key rows = week_slots cur /\
      Forall (duty_from (WeeklyDutyAssignment.id wa)
                (members (WeeklyDutyAssignment.table_number wa) studs)) rows
}.

(** The state after a round: one weekly row and its daily rows appended. *)
Definition add_week (wa : list WeeklyDutyAssignment.t) (rows : list DailyDuty.t)
    (s : State) : State :=
  mkState (with_daily (daily_duties (db s) ++ rows)
             (with_weekly (weekly_duty_assignments (db s) ++ wa) (db s)))
          (rand s) (flashed s).

(** The rounds of the week loop, one after the other: the ids in the weekly
    table grow and the date moves on by seven days. *)
Inductive weeks_written (tid : Z) (tabs : list Table.t) (studs : list Student.t)
  : list Z -> date -> list Z ->
    list WeeklyDutyAssignment.t -> list DailyDuty.t -> Prop :=
| weeks_done ids cur : weeks_written tid tabs studs ids cur [] [] []
| weeks_step ids cur w ws wa was rows rest :
    week_written tid tabs studs ids cur w wa rows ->
    weeks_written tid tabs studs (ids ++ [WeeklyDutyAssignment.id wa])
      (cur + 7) ws was rest ->
    weeks_written tid tabs studs ids cur (w :: ws) (wa :: was) (rows ++ rest).

(** A term as [add_term] stores it: its start is a date, and so is the end
    it computed as [start_date + timedelta(weeks=weeks)]. *)
Definition Term_ok (t : Term.t) : Prop :=
  date_min <= Term.start_date t <= date_max /\
  date_min <= Term.start_date t + 7 * Term.weeks t <= date_max.

Definition of_term (tid : Z) (w : WeeklyDutyAssignment.t) : bool :=
  WeeklyDutyAssignment.term_id w =? tid.

Definition created_message (weeks : Z) : string :=
  ("Successfully created duty schedule for " ++ str_of_int weeks ++ " weeks")%string.


(** The window of a weekly row: its week number, first and last day. *)
Definition window (wa : WeeklyDutyAssignment.t) : Z * Z * Z :=
  (WeeklyDutyAssignment.week_number wa, WeeklyDutyAssignment.start_date wa,
   WeeklyDutyAssignment.end_date wa).

(** A computation that gives an outcome from every state. *)
Definition halts {A} (m : M A) : Prop := forall s, fst (m s) <> Diverge.

Definition scenario_student (i : Z) (student_id full_name : string) (tn : Z)
  : Student.t :=
  Student.mk i student_id full_name (Some 9) (Some "F") (Some "VN") (Some tn).

Definition scenario_term : Term.t := Term.mk 1 "Spring" 738886 738900 2 true.

Definition scenario_db : DB :=
  mkDB [scenario_student 1 "S001" "An" 1; scenario_student 2 "S002" "Binh" 1;
        scenario_student 3 "S003" "Chi" 1; scenario_student 4 "S004" "Dung" 2;
        scenario_student 5 "S005" "Giang" 2; scenario_student 6 "S006" "Hoa" 2]
       [Table.mk 1 1 3 3; Table.mk 2 2 3 3]
       [scenario_term] [] [].

Definition scenario : State := mkState scenario_db [] [].

(** The state of the scenario after one generation. *)
Definition scenario_generated : State :=
  snd (create_duty_schedule_for_term 1 scenario).

(** The state of the scenario after a second generation for the same term. *)
Definition scenario_regenerated : State :=
  snd (create_duty_schedule_for_term 1 scenario_generated).

(** The students already placed at table [k]. *)
Definition current_at (ta : assignments) (k : Z) : list Student.t :=
  match dict_get Z.eqb k ta with
  | Some l => l
  | None => []
  end.

(** The scores the loop over [available_tables] computes, in the order of
    the tables, the jitters drawn one after the other from [g]. *)
Fixpoint table_scores (student : Student.t) (ta : assignments) (keys : list Z)
    (g : rng) : list (Z * pyfloat) :=
  match keys with
  | [] => []
  | k :: ks =>
      (k, int_add_float (collisions student (current_at ta k)) (fst (uniform_0_2 g)))
      :: table_scores student ta ks (snd (uniform_0_2 g))
  end.

(** The generator after [n] draws. *)
Fixpoint after_draws (n : nat) (g : rng) : rng :=
  match n with
  | O => g
  | S n' => after_draws n' (snd (next_raw g))
  end.

(** [best_table, best_score] after the scores [scs], starting from [best]:
    a score replaces the best one when it is strictly lower. *)
Definition pick (best : option Z * pyfloat) (scs : list (Z * pyfloat))
  : option Z * pyfloat :=
  fold_left (fun b x => if float_lt (snd x) (snd b) then (Some (fst x), snd x) else b)
            scs best.

(** [table_assignments[t].append(student); assigned_students.add(student)]
    as a change of the locals. *)
Definition seat (t : Z) (student : Student.t) (l : locals) : locals :=
  (dict_set Z.eqb t (current_at (fst l) t ++ [student]) (fst l),
   set_add (Student.id student) (snd l)).

(** Every student in [table_assignments]. *)
Definition placed (ta : assignments) : list Student.t := List.concat (map snd ta).

(** Lists only grow. *)
Definition grows (a b : assignments) : Prop :=
  forall k, exists ext, current_at b k = current_at a k ++ ext.

(** The invariant of the placement loops: the set [assigned_students] holds
    the ids of the students in [table_assignments], each once, and these
    students are among [universe]. *)
Definition coherent (universe : list Student.t) (l : locals) : Prop :=
  Permutation (map Student.id (placed (fst l))) (snd l) /\
  NoDup (snd l) /\
  forall st, In st (placed (fst l)) -> In st universe.

(** A moment of placement: the student, the locals and the state with which
    [place_student] is entered. *)
Definition moment : Type := (Student.t * locals * State)%type.

Definition student_of (m : moment) : Student.t := fst (fst m).
Definition locals_of (m : moment) : locals := snd (fst m).
Definition state_of (m : moment) : State := snd m.

(** The scores of all tables at a moment. *)
Definition moment_scores (m : moment) : list (Z * pyfloat) :=
  table_scores (student_of m) (fst (locals_of m))
    (dict_keys (fst (locals_of m))) (rand (state_of m)).

(** Table [t] has a score that no table's score is below. *)
Definition lowest (scores : list (Z * pyfloat)) (t : Z) : Prop :=
  exists sc, In (t, sc) scores /\
             forall x, In x scores -> float_lt (snd x) sc = false.

(** The moments of [for student in grade_students]. *)
Fixpoint group_moments (grade_students : list Student.t) (l : locals) (s : State)
  : list moment :=
  match grade_students with
  | [] => []
  | student :: rest =>
      match dict_keys (fst l) with
      | [] => []
      | _ :: _ =>
          (student, l, s)
          :: match place_student student l s with
             | (Ok l', s') => group_moments rest l' s'
             | _ => []
             end
      end
  end.

(** At moment [m] the tables scored are [keys], the student goes to a table
    of lowest score, and is found there in [final], which extends the lists
    of the moment. *)
Definition moment_ok (keys : list Z) (final : assignments) (m : moment) : Prop :=
  exists t,
    lowest (moment_scores m) t /\
    dict_keys (fst (locals_of m)) = keys /\
    In t keys /\
    fst (place_student (student_of m) (locals_of m) (state_of m))
    = Ok (if t =? 0 then locals_of m else seat t (student_of m) (locals_of m)) /\
    (t <> 0 -> In (student_of m) (current_at final t)) /\
    grows (fst (locals_of m)) final.

(** The moments of [for grade in grade_keys]. *)
Fixpoint grade_moments (by_grade : dict (K:=grade_key) (V:=list Student.t))
    (grade_keys : list grade_key) (l : locals) (s : State) : list moment :=
  match grade_keys with
  | [] => []
  | grade :: rest =>
      let grade_students :=
        filter (fun st => negb (set_mem (Student.id st) (snd l)))
               (by_grade_getitem grade by_grade) in
      let sh := shuffle grade_students (rand s) in
      let s1 := mkState (db s) (snd sh) (flashed s) in
      group_moments (fst sh) l s1
      ++ match place_group (fst sh) l s1 with
         | (Ok l', s') => grade_moments by_grade rest l' s'
         | _ => []
         end
  end.

(** The table the last write to the student with id [i] names. *)
Fixpoint owner (ta : assignments) (i : Z) : option Z :=
  match ta with
  | [] => None
  | (k, cur) :: rest =>
      match owner rest i with
      | Some k' => Some k'
      | None => if existsb (fun st => Student.id st =? i) cur then Some k else None
      end
  end.

(** A student row after [write_assignments]. *)
Definition written (ta : assignments) (r : Student.t) : Student.t :=
  match owner ta (Student.id r) with
  | Some k => Student.with_table_number (Some k) r
  | None => r
  end.

Definition set_students (l : list Student.t) (s : State) : State :=
  mkState (with_students l (db s)) (rand s) (flashed s).

Definition empty_assignments (tabs : list Table.t) : assignments :=
  fold_left (fun d table => dict_set Z.eqb (Table.table_number table) [] d) tabs [].

(** The moments of placement of a run from state [s]. *)
Definition distribution_moments (s : State) : list moment :=
  let tables := Table_query_ordered (db s) in
  let sh := shuffle (Student_query_unassigned (db s)) (rand s) in
  let by_grade := fold_left (fun d st => by_grade_append st d) (fst sh) [] in
  let shk := shuffle (dict_keys by_grade) (snd sh) in
  grade_moments by_grade (fst shk) (empty_assignments tables, [])
    (mkState (db s) (snd shk) (flashed s)).

Definition no_tables_message : string :=
  "No tables available. Please create tables first.".
Definition nothing_to_do_message : string :=
  "No unassigned students to distribute.".

Definition empty_state : State := mkState (mkDB [] [] [] [] []) [] [].

Definition seated_state : State :=
  mkState (mkDB [Student.mk 1 "S001" "An" (Some 9) (Some "F") (Some "VN") (Some 1)]
                [Table.mk 1 1 4 1] [] [] []) [] [].

Definition option_Z_eq_dec (a b : option Z) : {a = b} + {a <> b}.
Proof. decide equality. apply Z.eq_dec. Defined.

Definition option_string_eq_dec (a b : option string) : {a = b} + {a <> b}.
Proof. decide equality. apply string_dec. Defined.

(** The score of the specification, without the jitter: 3 times the number
    of [members] sharing the student's grade, plus 2 times those sharing the
    gender, plus 2 times those sharing the country. *)
Definition weighted_collisions (student : Student.t) (members : list Student.t) : Z :=
  3 * Z.of_nat (count_occ option_Z_eq_dec (map Student.grade members)
                  (Student.grade student))
  + 2 * Z.of_nat (count_occ option_string_eq_dec (map Student.gender members)
                    (Student.gender student))
  + 2 * Z.of_nat (count_occ option_string_eq_dec (map Student.country members)
                    (Student.country student)).

(** One student seated at table 1 before the run, one unassigned student
    with the same grade, gender and country, and an empty table 2. *)
Definition seated_before : Student.t :=
  Student.mk 1 "S001" "An" (Some 9) (Some "F") (Some "VN") (Some 1).

Definition newcomer : Student.t :=
  Student.mk 2 "S002" "Binh" (Some 9) (Some "F") (Some "VN") None.

Definition preseated_state : State :=
  mkState (mkDB [seated_before; newcomer] [Table.mk 1 1 4 1; Table.mk 2 2 4 0]
             [] [] [])
          [] [].

(** A table with a seated student and one unassigned student. *)
Definition mixed_db : DB :=
  mkDB [Student.mk 1 "S001" "An" (Some 9) (Some "F") (Some "VN") (Some 1);
        Student.mk 2 "S002" "Binh" (Some 9) (Some "M") (Some "VN") None]
       [Table.mk 1 1 4 1] [] [] [].

(** Two tables and three students to seat. *)
Definition intake_state : State :=
  mkState
    (mkDB [Student.mk 1 "S001" "An" (Some 9) (Some "F") (Some "VN") None;
           Student.mk 2 "S002" "Binh" (Some 9) (Some "M") (Some "VN") None;
           Student.mk 3 "S003" "Chi" (Some 10) (Some "F") (Some "TH") None]
          [Table.mk 1 1 2 0; Table.mk 2 2 2 0] [] [] [])
    [5; 3; 4503599627370496; 7; 1; 2; 9007199254740991; 11] [].

(** [current_count] of a table is the number of students at it. *)
Definition count_ok (d : DB) (tb : Table.t) : Prop :=
  Table.current_count tb = len (Student_query_by_table (Table.table_number tb) d).

Definition counts_ok (d : DB) : Prop := Forall (count_ok d) (tables d).

(** The primary keys and the unique column of the tables that hold
    students and tables. *)
Definition keys_ok (d : DB) : Prop :=
  NoDup (map Student.id (students d)) /\
  NoDup (map Table.id (tables d)) /\
  NoDup (map Table.table_number (tables d)).

(** [table.current_count = Student.query.filter_by(table_number=n).count()]
    on the table numbered [n]. *)
Definition recount_number (n : Z) (d : DB) : DB :=
  with_tables
    (map (fun tb => if Table.table_number tb =? n
                    then Table.with_current_count (len (Student_query_by_table n d)) tb
                    else tb)
         (tables d)) d.

(** The counts are right on the tables whose number is in [S]. *)
Definition ok_on (S : Z -> Prop) (d : DB) : Prop :=
  Forall (fun tb => S (Table.table_number tb) -> count_ok d tb) (tables d).

(** The counts refreshed for a table number, when it is truthy. *)
Definition refreshed (tn : option Z) (d : DB) : DB :=
  if truthy tn then
    match tn with
    | Some n => recount_number n d
    | None => d
    end
  else d.

(** The rows after a manual reassignment that went through. *)
Definition reassigned (sid : Z) (old tn : option Z) (d : DB) : DB :=
  refreshed tn (refreshed old (Student_set_table_number sid tn d)).

Definition moved_message (student : Student.t) (new_table_number : option Z)
  : string * string :=
  (("Student " ++ Student.student_id student ++ " moved to Table "
    ++ (if option_Z_eqb new_table_number (Some 0) then "Unassigned"
        else str_of_option_int new_table_number))%string, "success").

(** What refreshing a count leaves alone. *)
Definition table_identity (tb : Table.t) : Z * Z * Z :=
  (Table.id tb, Table.table_number tb, Table.capacity tb).

Definition schedule_of (d : DB)
  : list Term.t * list WeeklyDutyAssignment.t * list DailyDuty.t :=
  (terms d, weekly_duty_assignments d, daily_duties d).

(** The table number a reassignment request gives the student. *)
Definition requested_table (new_table_number : option Z) (d : DB) (st : Student.t)
  : option Z :=
  if option_Z_eqb new_table_number (Some 0) then None
  else match new_table_number with
       | Some n =>
           match Table_query_first n d with
           | Some _ => Some n
           | None => Student.table_number st
           end
       | None => Student.table_number st
       end.

Definition keeps_db {A} (m : M A) : Prop :=
  forall s a s', m s = (Ok a, s') -> db s' = db s /\ flashed s' = flashed s.

(** The students of [studs] whose row in [d] names table [n]. *)
Definition seated_among (studs : list Student.t) (d : DB) (n : Z) : Z :=
  count_if (fun s => option_Z_eqb (current_table_number d s) (Some n)) studs.

(** The tables after [recount_tables tabs studs]. *)
Definition recount_fold (tabs : list Table.t) (studs : list Student.t) (d : DB) : DB :=
  fold_left
    (fun d table =>
       Table_set_current_count (Table.id table)
         (seated_among studs d (Table.table_number table)) d)
    tabs d.

(** The rows once [redistribute] has cleared every seat and every count. *)
Definition cleared (d : DB) : DB :=
  mkDB (map (Student.with_table_number None) (students d))
       (map (Table.with_current_count 0) (tables d))
       (terms d) (weekly_duty_assignments d) (daily_duties d).

(** Every seat names a table. *)
Definition seats_ok (d : DB) : Prop :=
  Forall (fun st => match Student.table_number st with
                    | Some n => In n (map Table.table_number (tables d))
                    | None => True
                    end) (students d).

(** What the routes of students and tables keep of the seating: unique ids
    and table numbers, no table numbered 0, every seat at an existing
    table, every cached count right. *)
Definition consistent (d : DB) : Prop :=
  keys_ok d /\
  ~ In 0 (map Table.table_number (tables d)) /\
  seats_ok d /\
  counts_ok d.

(** A student row once the students of table [m] were given [tn]. *)
Definition reseat (m : Z) (tn : option Z) (r : Student.t) : Student.t :=
  if option_Z_eqb (Student.table_number r) (Some m)
  then Student.with_table_number tn r else r.

Definition deleted_table (t : Table.t) (d : DB) : DB :=
  Table_delete (Table.id t)
    (with_students (map (reseat (Table.table_number t) None) (students d)) d).

(** The rows after an accepted edit of table [t] to number [n] and
    capacity [c]. *)
Definition edited (t : Table.t) (n c : Z) (d : DB) : DB :=
  let d1 := with_students (map (reseat (Table.table_number t) (Some n)) (students d)) d in
  let d2 := Table_set_number_capacity (Table.id t) n c d1 in
  Table_set_current_count (Table.id t) (len (Student_query_by_table n d2)) d2.

Definition is_some {A} (x : option A) : bool :=
  match x with
  | Some _ => true
  | None => false
  end.

(** The value [update_duty] stores for a posted student id. *)
Definition slot_value (student_id : option Z) : option Z :=
  if truthy student_id then student_id else None.

(** A daily row with one of its slots set. *)
Definition with_slot (slot : string) (v : option Z) (x : DailyDuty.t) : DailyDuty.t :=
  if String.eqb slot "student1" then
    DailyDuty.mk (DailyDuty.id x) (DailyDuty.weekly_assignment_id x)
      (DailyDuty.date_ x) (DailyDuty.shift x) v (DailyDuty.student2_id x)
  else if String.eqb slot "student2" then
    DailyDuty.mk (DailyDuty.id x) (DailyDuty.weekly_assignment_id x)
      (DailyDuty.date_ x) (DailyDuty.shift x) (DailyDuty.student1_id x) v
  else x.

(** Whether SQLite can bind the value a slot is set to. *)
Definition binds (v : option Z) : bool :=
  match v with Some i => int64 i | None => true end.

(** Every daily row belongs to a weekly row. *)
Definition refs_ok (d : DB) : Prop :=
  Forall (fun x => In (DailyDuty.weekly_assignment_id x)
                      (map WeeklyDutyAssignment.id (weekly_duty_assignments d)))
         (daily_duties d).

Definition term_deleted_message (term : Term.t) : string * string :=
  (("Term " ++ dquote ++ Term.name term ++ dquote ++ " deleted successfully")%string,
   "success").

(** The terms after an accepted [add_term]. *)
Definition with_new_term (name : string) (start_date : date) (weeks : Z)
    (is_active : bool) (d : DB) : DB :=
  Term_insert name start_date (start_date + 7 * weeks) weeks is_active
    (if is_active then Term_deactivate_all d else d).

Definition term_created_message (name : string) : string * string :=
  (("Term " ++ dquote ++ name ++ dquote ++ " created successfully")%string, "success").

(** The form of [add_term] is accepted: every field is there, the date
    parses, and the end of the term is a date. *)
Definition term_accepted (name start_date_str : option string) (start : parsed)
    (weeks : option Z) : option (string * date * Z) :=
  if truthy_str name && truthy_str start_date_str && truthy weeks then
    match name, start, weeks with
    | Some name_, Parsed start_date, Some weeks_ =>
        if (Z.abs (7 * weeks_) <=? 999999999)
           && (date_min <=? start_date + 7 * weeks_)
           && (start_date + 7 * weeks_ <=? date_max)
        then Some (name_, start_date, weeks_) else None
    | _, _, _ => None
    end
  else None.

Definition active_terms (d : DB) : list Term.t := filter Term.is_active (terms d).

(** The student ids in the slots of the rows, in the order written. *)
Definition slots_of (rows : list DailyDuty.t) : list (option Z) :=
  flat_map (fun x => [DailyDuty.student1_id x; DailyDuty.student2_id x]) rows.

(** The id at [student_pool[j % len(student_pool)]]. *)
Definition pool_at (pool : list Student.t) (j : Z) : option Z :=
  option_map Student.id (nth_error pool (Z.to_nat (j mod len pool))).

(** How often the student with id [i] is in a list. *)
Definition times (i : Z) (l : list Student.t) : nat :=
  List.length (filter (fun x => Student.id x =? i) l).

(** In how many of the slots of the rows the student with id [i] is. *)
Definition slot_count (i : Z) (rows : list DailyDuty.t) : Z :=
  count_if (fun v => option_Z_eqb v (Some i)) (slots_of rows).

(** The rows an import adds, given the student ids already there: the first
    row of every id that is not known. *)
Fixpoint fresh_rows (known : list string) (rows : list sheet_row) : list sheet_row :=
  match rows with
  | [] => []
  | row :: rest =>
      if existsb (String.eqb (row_student_id row)) known then fresh_rows known rest
      else row :: fresh_rows (known ++ [row_student_id row]) rest
  end.

Definition student_ids (d : DB) : list string := map Student.student_id (students d).

Definition insert_all (rows : list sheet_row) (d : DB) : DB :=
  fold_left (fun d row => Student_insert row d) rows d.

Definition imported_message (n : Z) : string * string :=
  (("Successfully imported " ++ str_of_int n
    ++ " students. Create tables to assign students.")%string, "info").

(** Whether SQLite can bind the grade of every row. *)
Definition grades_bind (rows : list sheet_row) : bool :=
  forallb (fun row => binds (row_grade row)) rows.

Definition import_failed_message (e : exn) : string * string :=
  (("Error importing file: " ++ exn_str e)%string, "error").

(** * Properties *)

(** ** The monad *)

Lemma bind_Ok {A B} (m : M A) (f : A -> M B) s b s' :
  bind m f s = (Ok b, s') ->
  exists a s1, m s = (Ok a, s1) /\ f a s1 = (Ok b, s').
Proof.
  unfold bind. destruct (m s) as [[a | e |] s1]; intros H; try discriminate.
  exists a, s1. split; [reflexivity | exact H].
Qed.

Lemma lift_Ok {A} (r : result A) s a s' :
  lift r s = (Ok a, s') -> r = Ok a /\ s' = s.
Proof. unfold lift. intros H. inversion H. split; reflexivity. Qed.

Lemma ret_Ok {A} (x : A) s a s' : ret x s = (Ok a, s') -> a = x /\ s' = s.
Proof. unfold ret. intros H. inversion H. split; reflexivity. Qed.

Lemma get_db_Ok s d s' : get_db s = (Ok d, s') -> d = db s /\ s' = s.
Proof. unfold get_db. intros H. inversion H. split; reflexivity. Qed.

Lemma modify_db_Ok f s u s' :
  modify_db f s = (Ok u, s') -> s' = mkState (f (db s)) (rand s) (flashed s).
Proof. unfold modify_db. intros H. inversion H. reflexivity. Qed.

Lemma with_random_Ok {A} (f : rng -> A * rng) s a s' :
  with_random f s = (Ok a, s') ->
  a = fst (f (rand s)) /\ s' = mkState (db s) (snd (f (rand s))) (flashed s).
Proof.
  unfold with_random. destruct (f (rand s)) as [x g]. intros H. inversion H.
  split; reflexivity.
Qed.

Lemma flash_Ok m c s u s' :
  flash m c s = (Ok u, s') ->
  s' = mkState (db s) (rand s) (flashed s ++ [(m, c)]).
Proof. unfold flash. intros H. inversion H. reflexivity. Qed.

(** Takes a successful run apart, one step at a time. *)
Ltac run_inv H :=
  lazymatch type of H with
  | bind _ _ _ = (Ok _, _) =>
      let a := fresh "a" in
      let s1 := fresh "s" in
      let H1 := fresh "Hrun" in
      let H2 := fresh "Hrun" in
      apply bind_Ok in H; destruct H as (a & s1 & H1 & H2);
      run_inv H1; run_inv H2
  | lift _ _ = (Ok _, _) =>
      let E := fresh "E" in
      apply lift_Ok in H; destruct H as [H E]; subst
  | ret _ _ = (Ok _, _) =>
      let E := fresh "E" in
      apply ret_Ok in H; destruct H as [H E]; subst
  | get_db _ = (Ok _, _) =>
      let E := fresh "E" in
      apply get_db_Ok in H; destruct H as [H E]; subst
  | modify_db _ _ = (Ok _, _) => apply modify_db_Ok in H; subst
  | flash _ _ _ = (Ok _, _) => apply flash_Ok in H; subst
  | with_random _ _ = (Ok _, _) =>
      let E := fresh "E" in
      apply with_random_Ok in H; destruct H as [H E]; subst
  | _ => idtac
  end.

(** ** Python run-time *)

Lemma py_range_length lo hi : List.length (py_range lo hi) = Z.to_nat (hi - lo).
Proof. unfold py_range. now rewrite length_map, length_seq. Qed.

Lemma py_range_In lo hi x : In x (py_range lo hi) <-> lo <= x < hi.
Proof.
  unfold py_range. rewrite in_map_iff. split.
  - intros (i & <- & Hi). apply in_seq in Hi. lia.
  - intros Hx. exists (Z.to_nat (x - lo)). split; [lia |].
    apply in_seq. lia.
Qed.

Lemma py_range_cons lo hi :
  lo < hi -> py_range lo hi = lo :: py_range (lo + 1) hi.
Proof.
  intros Hlt. unfold py_range.
  replace (Z.to_nat (hi - lo)) with (S (Z.to_nat (hi - (lo + 1)))) by lia.
  cbn [seq map]. f_equal; [lia |].
  rewrite <- seq_shift, map_map. apply map_ext. intros i. lia.
Qed.

Lemma py_range_nil lo hi : hi <= lo -> py_range lo hi = [].
Proof.
  intros Hle. unfold py_range. now replace (Z.to_nat (hi - lo)) with O by lia.
Qed.

Lemma py_mod_Ok a b r : py_mod a b = Ok r -> b <> 0 /\ r = a mod b.
Proof.
  unfold py_mod. destruct (Z.eqb_spec b 0); intros H; inversion H. now split.
Qed.

Lemma py_getitem_In {A} (l : list A) i a : py_getitem l i = Ok a -> In a l.
Proof.
  unfold py_getitem.
  destruct (_ <? 0); [discriminate |].
  destruct (nth_error l _) eqn:E; intros H; inversion H; subst.
  eapply nth_error_In; eassumption.
Qed.

Lemma py_getitem_nth {A} (l : list A) i a :
  0 <= i -> py_getitem l i = Ok a -> nth_error l (Z.to_nat i) = Some a.
Proof.
  intros Hi. unfold py_getitem.
  destruct (Z.ltb_spec i 0) as [Hn | _]; [lia |].
  destruct (Z.ltb_spec i 0) as [Hn | _]; [lia |].
  destruct (nth_error l _) eqn:E; intros Hg; inversion Hg; subst. reflexivity.
Qed.

Lemma py_getitem_total {A} (l : list A) i :
  0 <= i < len l -> exists a, py_getitem l i = Ok a.
Proof.
  unfold len. intros Hi. unfold py_getitem.
  destruct (Z.ltb_spec i 0) as [Hn | _]; [lia |].
  destruct (Z.ltb_spec i 0) as [Hn | _]; [lia |].
  destruct (nth_error l (Z.to_nat i)) eqn:E; [eauto |].
  apply nth_error_None in E. lia.
Qed.

Lemma date_add_days_Ok d n r :
  date_add_days d n = Ok r -> r = d + n /\ date_min <= d + n <= date_max.
Proof.
  unfold date_add_days.
  destruct (Z.leb_spec date_min (d + n)), (Z.leb_spec (d + n) date_max);
    cbn; intros E; inversion E. lia.
Qed.

Lemma date_add_days_total d n :
  date_min <= d + n <= date_max -> date_add_days d n = Ok (d + n).
Proof.
  intros [H1 H2]. unfold date_add_days.
  apply Z.leb_le in H1, H2. now rewrite H1, H2.
Qed.

(** ** [random.shuffle] permutes *)

Lemma set_nth_length {A} i (a : A) l : List.length (set_nth i a l) = List.length l.
Proof.
  revert i. induction l as [| b l IH]; intros [| i]; cbn; auto.
Qed.

Lemma set_nth_Permutation {A} i (a b : A) l :
  nth_error l i = Some b -> Permutation (b :: set_nth i a l) (a :: l).
Proof.
  revert i. induction l as [| c l IH]; intros [| i]; cbn; try discriminate.
  - intros H. inversion H; subst. apply perm_swap.
  - intros H. specialize (IH _ H).
    eapply perm_trans; [apply perm_swap |].
    eapply perm_trans; [apply perm_skip, IH |]. apply perm_swap.
Qed.

Lemma set_nth_same {A} i j (a : A) l :
  nth_error l j = Some a -> nth_error l i <> None ->
  nth_error (set_nth i a l) j = Some a.
Proof.
  revert i j. induction l as [| c l IH]; intros [| i] [| j]; cbn;
    try discriminate; try congruence; auto.
Qed.

Lemma swap_Permutation {A} (x : list A) i j : Permutation (swap x i j) x.
Proof.
  unfold swap.
  destruct (nth_error x i) as [xi |] eqn:Ei; [| reflexivity].
  destruct (nth_error x j) as [xj |] eqn:Ej; [| reflexivity].
  assert (H1 : Permutation (xi :: set_nth i xj x) (xj :: x))
    by (apply set_nth_Permutation; exact Ei).
  assert (Ej' : nth_error (set_nth i xj x) j = Some xj)
    by (apply set_nth_same; congruence).
  assert (H2 : Permutation (xj :: set_nth j xi (set_nth i xj x))
                           (xi :: set_nth i xj x))
    by (apply set_nth_Permutation; exact Ej').
  apply (Permutation_cons_inv (a := xj)).
  eapply perm_trans; eassumption.
Qed.

Lemma shuffle_from_Permutation {A} i (x : list A) g :
  Permutation (fst (shuffle_from i x g)) x.
Proof.
  revert x g. induction i as [| i IH]; intros x g; cbn [shuffle_from].
  - reflexivity.
  - destruct (randbelow _ g) as [j g1].
    eapply perm_trans; [apply IH | apply swap_Permutation].
Qed.

Lemma shuffle_Permutation {A} (x : list A) g : Permutation (fst (shuffle x g)) x.
Proof. apply shuffle_from_Permutation. Qed.

Lemma shuffle_In {A} (x : list A) g a : In a (fst (shuffle x g)) <-> In a x.
Proof.
  split; apply Permutation_in;
    [| apply Permutation_sym]; apply shuffle_Permutation.
Qed.

Lemma shuffle_length {A} (x : list A) g :
  List.length (fst (shuffle x g)) = List.length x.
Proof. apply Permutation_length, shuffle_Permutation. Qed.

(** ** [ORDER BY table_number] *)

Lemma insert_by_number_Permutation tb l :
  Permutation (insert_by_number tb l) (tb :: l).
Proof.
  induction l as [| x l IH]; cbn [insert_by_number]; [reflexivity |].
  destruct (_ <? _); [reflexivity |].
  eapply perm_trans; [apply perm_skip, IH | apply perm_swap].
Qed.

Lemma order_by_table_number_Permutation l :
  Permutation (order_by_table_number l) l.
Proof.
  unfold order_by_table_number.
  eapply perm_trans; [| apply Permutation_sym, Permutation_rev].
  induction (rev l) as [| x r IH]; cbn [fold_right]; [reflexivity |].
  eapply perm_trans; [apply insert_by_number_Permutation |].
  apply perm_skip, IH.
Qed.

Lemma insert_by_number_Sorted tb l :
  Sorted by_number l -> Sorted by_number (insert_by_number tb l).
Proof.
  induction 1 as [| x l Hs IH Hhd]; cbn [insert_by_number].
  - repeat constructor.
  - destruct (Z.ltb_spec (Table.table_number tb) (Table.table_number x)).
    + constructor; [constructor; assumption |].
      constructor. unfold by_number. lia.
    + constructor; [exact IH |].
      destruct l as [| y l]; cbn [insert_by_number].
      * constructor. unfold by_number. lia.
      * destruct (Z.ltb_spec (Table.table_number tb) (Table.table_number y)).
        -- constructor. unfold by_number. lia.
        -- constructor. inversion Hhd. assumption.
Qed.

Lemma order_by_table_number_Sorted l : Sorted by_number (order_by_table_number l).
Proof.
  unfold order_by_table_number.
  induction (rev l) as [| x r IH]; cbn [fold_right]; [constructor |].
  apply insert_by_number_Sorted, IH.
Qed.

(** ** Duty roster generator *)

Lemma add_daily_nil s : add_daily [] s = s.
Proof.
  destruct s as [[st tb tm wk dl] g fl]. unfold add_daily, with_daily. cbn.
  now rewrite app_nil_r.
Qed.

Lemma add_daily_app r1 r2 s : add_daily r2 (add_daily r1 s) = add_daily (r1 ++ r2) s.
Proof. unfold add_daily, with_daily. cbn. now rewrite app_assoc. Qed.

Lemma assign_shift_Ok wid dt pool sh idx s idx' s' :
  assign_shift wid dt pool sh idx s = (Ok idx', s') ->
  idx' = idx + 2 /\
  exists x, s' = add_daily [x] s /\ duty_key x = (dt, sh) /\ duty_from wid pool x.
Proof.
  unfold assign_shift. intros H. run_inv H.
  split; [lia |].
  eexists. split; [reflexivity |]. split; [reflexivity |].
  split; [reflexivity |].
  exists a0, a2. cbn. repeat split; eapply py_getitem_In; eassumption.
Qed.

Lemma assign_shifts_Ok wid dt pool shs : forall idx s idx' s',
  for_loop shs (assign_shift wid dt pool) idx s = (Ok idx', s') ->
  exists rows, s' = add_daily rows s /\
               map duty_key rows = map (fun sh => (dt, sh)) shs /\
               Forall (duty_from wid pool) rows.
Proof.
  induction shs as [| sh shs IH]; intros idx s idx' s' H; cbn [for_loop] in H.
  - run_inv H. exists []. now rewrite add_daily_nil.
  - apply bind_Ok in H. destruct H as (i1 & s1 & H1 & H2).
    apply assign_shift_Ok in H1. destruct H1 as (-> & x & -> & Hk & Hx).
    apply IH in H2. destruct H2 as (rows & -> & Hks & Hrows).
    exists (x :: rows). rewrite add_daily_app. cbn [map app].
    rewrite Hk, Hks. auto.
Qed.

Lemma assign_days_Ok wid start pool ds : forall idx s idx' s',
  for_loop ds (assign_day wid start pool) idx s = (Ok idx', s') ->
  exists rows, s' = add_daily rows s /\
               map duty_key rows =
                 flat_map (fun k => map (fun sh => (start + k, sh)) shifts) ds /\
               Forall (duty_from wid pool) rows.
Proof.
  induction ds as [| k ds IH]; intros idx s idx' s' H; cbn [for_loop] in H.
  - run_inv H. exists []. now rewrite add_daily_nil.
  - apply bind_Ok in H. destruct H as (i1 & s1 & H1 & H2).
    unfold assign_day in H1. apply bind_Ok in H1.
    destruct H1 as (dt & s0 & Hd & H1). run_inv Hd.
    apply date_add_days_Ok in Hd. destruct Hd as [-> _].
    apply assign_shifts_Ok in H1. destruct H1 as (r1 & -> & Hk1 & Hr1).
    apply IH in H2. destruct H2 as (r2 & -> & Hk2 & Hr2).
    exists (r1 ++ r2). rewrite add_daily_app. cbn [flat_map].
    rewrite map_app, Hk1, Hk2. split; [reflexivity |]. split; [reflexivity |].
    apply Forall_app. auto.
Qed.

Lemma week_slots_length start : List.length (week_slots start) = 14%nat.
Proof. reflexivity. Qed.

Lemma assign_week_duties_Ok wid start pool s idx' s' :
  assign_week_duties wid start pool s = (Ok idx', s') ->
  exists rows, s' = add_daily rows s /\
               map duty_key rows = week_slots start /\
               Forall (duty_from wid pool) rows.
Proof. unfold assign_week_duties. apply assign_days_Ok. Qed.

Lemma extend_pool_Ok fuel : forall pool ts s p s',
  extend_pool fuel pool ts s = (Ok p, s') ->
  s' = s /\ 28 <= len p /\ forall a, In a p -> In a pool \/ In a ts.
Proof.
  induction fuel as [| fuel IH]; intros pool ts s p s'; cbn [extend_pool];
    destruct (Z.ltb_spec (len pool) 28) as [Hlt | Hge]; intros H;
    try discriminate.
  - run_inv H. auto with zarith.
  - apply IH in H. destruct H as (-> & Hlen & Hin).
    repeat split; auto. intros a Ha. apply Hin in Ha.
    rewrite in_app_iff in Ha. tauto.
  - run_inv H. auto with zarith.
Qed.

Lemma extend_pool_total fuel : forall pool ts s,
  ts <> [] -> 28 <= Z.of_nat fuel + len pool ->
  exists p, extend_pool fuel pool ts s = (Ok p, s) /\ 28 <= len p.
Proof.
  induction fuel as [| fuel IH]; intros pool ts s Hts Hfuel; cbn [extend_pool];
    destruct (Z.ltb_spec (len pool) 28) as [Hlt | Hge];
    try (exists pool; split; [reflexivity | assumption]).
  - lia.
  - apply IH; [assumption |].
    unfold len in *. rewrite length_app.
    destruct ts as [| t ts]; [congruence |]. cbn [List.length]. lia.
Qed.

Lemma assign_shift_total wid dt pool sh idx s :
  0 < len pool ->
  exists x, assign_shift wid dt pool sh idx s = (Ok (idx + 2), add_daily [x] s).
Proof.
  intros Hlen. unfold assign_shift, py_mod.
  destruct (Z.eqb_spec (len pool) 0) as [E | _]; [lia |].
  destruct (py_getitem_total pool (idx mod len pool)) as [a Ha];
    [apply Z.mod_pos_bound; exact Hlen |].
  destruct (py_getitem_total pool ((idx + 1) mod len pool)) as [b Hb];
    [apply Z.mod_pos_bound; exact Hlen |].
  exists (DailyDuty.mk (next_id (map DailyDuty.id (daily_duties (db s))))
            wid dt sh (Some (Student.id a)) (Some (Student.id b))).
  unfold bind, lift, ret, modify_db. rewrite Ha, Hb.
  replace (idx + 1 + 1) with (idx + 2) by lia. reflexivity.
Qed.

Lemma assign_shifts_total wid dt pool shs : forall idx s,
  0 < len pool ->
  exists idx' s', for_loop shs (assign_shift wid dt pool) idx s = (Ok idx', s').
Proof.
  induction shs as [| sh shs IH]; intros idx s Hlen; cbn [for_loop].
  - unfold ret. eauto.
  - destruct (assign_shift_total wid dt pool sh idx s Hlen) as [x Hx].
    unfold bind. rewrite Hx. apply IH. exact Hlen.
Qed.

Lemma assign_days_total wid start pool ds : forall idx s,
  0 < len pool ->
  (forall k, In k ds -> date_min <= start + k <= date_max) ->
  exists idx' s', for_loop ds (assign_day wid start pool) idx s = (Ok idx', s').
Proof.
  induction ds as [| k ds IH]; intros idx s Hlen Hds; cbn [for_loop].
  - unfold ret. eauto.
  - unfold bind at 1. unfold assign_day at 1. unfold bind at 1, lift at 1.
    rewrite date_add_days_total by (apply Hds; now left).
    destruct (assign_shifts_total wid (start + k) pool shifts idx s Hlen)
      as (i1 & s1 & H1).
    rewrite H1. apply IH; [exact Hlen |]. intros k' Hk'. apply Hds. now right.
Qed.

Lemma assign_week_duties_total wid start pool s :
  0 < len pool -> date_min <= start -> start + 6 <= date_max ->
  exists idx' s', assign_week_duties wid start pool s = (Ok idx', s').
Proof.
  intros Hlen Hmin Hmax. unfold assign_week_duties.
  apply assign_days_total; [exact Hlen |].
  intros k Hk. apply py_range_In in Hk. lia.
Qed.

Lemma create_week_Ok tid tabs w cur s cur' s' :
  create_week tid tabs w cur s = (Ok cur', s') ->
  cur' = cur + 7 /\
  exists wa rows g,
    week_written tid tabs (students (db s))
      (map WeeklyDutyAssignment.id (weekly_duty_assignments (db s))) cur w wa rows /\
    s' = mkState (db (add_week [wa] rows s)) g (flashed s).
Proof.
  unfold create_week. intros H.
  apply bind_Ok in H. destruct H as (week_end & s1 & He & H). run_inv He.
  apply date_add_days_Ok in He. destruct He as [-> _].
  apply bind_Ok in H. destruct H as (i & s1 & Hi & H). run_inv Hi.
  apply py_mod_Ok in Hi. destruct Hi as [Hlen ->].
  apply bind_Ok in H. destruct H as (tb & s1 & Ht & H). run_inv Ht.
  assert (Hpos : 0 < len tabs) by (unfold len in *; lia).
  apply py_getitem_nth in Ht; [| apply Z.mod_pos_bound; exact Hpos].
  apply bind_Ok in H. destruct H as (wa & s1 & Hw & H).
  unfold run_db, Weekly_insert in Hw. inversion Hw; subst wa s1; clear Hw.
  apply bind_Ok in H. destruct H as (d & s1 & Hd & H). run_inv Hd.
  set (wa := WeeklyDutyAssignment.mk _ _ _ _ _ _) in *.
  change (Student_query_by_table (Table.table_number tb) _)
    with (members (Table.table_number tb) (students (db s))) in H.
  destruct (members (Table.table_number tb) (students (db s))) as [| m ms] eqn:Em.
  - run_inv H. apply date_add_days_Ok in H. destruct H as [-> _].
    split; [lia |]. exists wa, [], (rand s). split.
    + constructor; cbn; try reflexivity; eauto.
      rewrite Em. congruence.
    + unfold add_week, with_daily, with_weekly. cbn. now rewrite app_nil_r.
  - apply bind_Ok in H. destruct H as (p0 & s1 & Hp0 & H). run_inv Hp0.
    apply bind_Ok in H. destruct H as (pool & s1 & Hp & H).
    apply extend_pool_Ok in Hp. destruct Hp as (-> & Hlen28 & Hpool).
    apply bind_Ok in H. destruct H as (idx & s1 & Ha & H).
    apply assign_week_duties_Ok in Ha. destruct Ha as (rows & -> & Hk & Hrows).
    run_inv H. apply date_add_days_Ok in H. destruct H as [-> _].
    split; [lia |]. exists wa, rows, (snd (shuffle (m :: ms) (rand s))). split.
    + constructor; cbn; try reflexivity; eauto.
      * rewrite Em. intros E. discriminate.
      * intros _. split; [exact Hk |].
        rewrite Em. eapply Forall_impl; [| exact Hrows].
        intros x (Hx & a & b & Ha & Hb & H1 & H2). split; [exact Hx |].
        exists a, b. repeat split; auto.
        -- apply Hpool in Ha. destruct Ha as [Ha | Ha]; [| exact Ha].
           now apply shuffle_In in Ha.
        -- apply Hpool in Hb. destruct Hb as [Hb | Hb]; [| exact Hb].
           now apply shuffle_In in Hb.
    + reflexivity.
Qed.

Lemma create_weeks_Ok tid tabs ws : forall cur s cur' s',
  for_loop ws (create_week tid tabs) cur s = (Ok cur', s') ->
  exists was rows g,
    weeks_written tid tabs (students (db s))
      (map WeeklyDutyAssignment.id (weekly_duty_assignments (db s)))
      cur ws was rows /\
    s' = mkState (db (add_week was rows s)) g (flashed s).
Proof.
  induction ws as [| w ws IH]; intros cur s cur' s' H; cbn [for_loop] in H.
  - run_inv H. exists [], [], (rand s). split; [constructor |].
    destruct s as [[st tb tm wk dl] g fl]. unfold add_week, with_daily, with_weekly.
    cbn. now rewrite !app_nil_r.
  - apply bind_Ok in H. destruct H as (c1 & s1 & H1 & H2).
    apply create_week_Ok in H1. destruct H1 as (-> & wa & rows & g & Hw & ->).
    apply IH in H2. destruct H2 as (was & rest & g' & Hws & ->).
    exists (wa :: was), (rows ++ rest), g'. split.
    + econstructor; [exact Hw |].
      cbn in Hws. rewrite map_app in Hws. exact Hws.
    + unfold add_week, with_daily, with_weekly. cbn.
      now rewrite <- !app_assoc.
Qed.

Lemma bind_run {A B} (m : M A) (f : A -> M B) s a s1 :
  m s = (Ok a, s1) -> bind m f s = f a s1.
Proof. unfold bind. now intros ->. Qed.

Lemma with_random_run {A} (f : rng -> A * rng) s :
  with_random f s
  = (Ok (fst (f (rand s))), mkState (db s) (snd (f (rand s))) (flashed s)).
Proof. unfold with_random. now destruct (f (rand s)). Qed.

Lemma create_week_total tid tabs w cur s :
  tabs <> [] -> date_min <= cur -> cur + 7 <= date_max ->
  exists s', create_week tid tabs w cur s = (Ok (cur + 7), s').
Proof.
  intros Htabs Hmin Hmax. unfold create_week.
  assert (Hpos : 0 < len tabs).
  { unfold len. destruct tabs; [congruence | cbn [List.length]; lia]. }
  rewrite (bind_run _ _ s (cur + 6) s)
    by (unfold lift; rewrite date_add_days_total by lia; reflexivity).
  rewrite (bind_run _ _ s ((w - 1) mod len tabs) s).
  2:{ unfold lift, py_mod. destruct (Z.eqb_spec (len tabs) 0); [lia | reflexivity]. }
  destruct (py_getitem_total tabs ((w - 1) mod len tabs)) as [tb Htb];
    [apply Z.mod_pos_bound; exact Hpos |].
  rewrite (bind_run _ _ s tb s) by (unfold lift; now rewrite Htb).
  unfold run_db, Weekly_insert.
  erewrite bind_run by reflexivity.
  erewrite bind_run by reflexivity.
  set (s1 := mkState _ _ _).
  destruct (Student_query_by_table _ _) as [| m ms] eqn:Em.
  - unfold lift. rewrite date_add_days_total by lia.
    replace (cur + 6 + 1) with (cur + 7) by lia. eauto.
  - rewrite (bind_run _ _ _ _ _ (with_random_run _ s1)).
    set (s2 := mkState _ _ _).
    destruct (extend_pool_total 28 (fst (shuffle (m :: ms) (rand s1))) (m :: ms) s2)
      as (pool & Hp & Hlen); [discriminate | unfold len; lia |].
    rewrite (bind_run _ _ _ _ _ Hp).
    match goal with
    | |- context [assign_week_duties ?wid cur pool] =>
        destruct (assign_week_duties_total wid cur pool s2)
          as (idx & s3 & Ha); [lia | lia | lia |]
    end.
    rewrite (bind_run _ _ _ _ _ Ha).
    unfold lift. rewrite date_add_days_total by lia.
    replace (cur + 6 + 1) with (cur + 7) by lia. eauto.
Qed.

Lemma create_weeks_total tid tabs ws : forall cur s,
  tabs <> [] -> date_min <= cur -> cur + 7 * len ws <= date_max ->
  exists s', for_loop ws (create_week tid tabs) cur s = (Ok (cur + 7 * len ws), s').
Proof.
  induction ws as [| w ws IH]; intros cur s Htabs Hmin Hmax; cbn [for_loop].
  - exists s. unfold ret, len. cbn. repeat f_equal. lia.
  - assert (Hlen : len (w :: ws) = len ws + 1)
      by (unfold len; cbn [List.length]; lia).
    rewrite Hlen in *.
    assert (Hnn : 0 <= len ws) by (unfold len; lia).
    destruct (create_week_total tid tabs w cur s Htabs Hmin) as [s1 H1]; [lia |].
    rewrite (bind_run _ _ _ _ _ H1).
    destruct (IH (cur + 7) s1 Htabs) as [s' H']; [unfold date_min in *; lia | lia |].
    exists s'. rewrite H'. do 2 f_equal. lia.
Qed.

(** A successful generation: what it returns and what it leaves in the
    weekly and daily tables. *)
Lemma create_duty_schedule_for_term_run tid s term :
  Term_query_get tid (db s) = Some term ->
  tables (db s) <> [] ->
  Term_ok term ->
  exists was rows g,
    create_duty_schedule_for_term tid s
    = (Ok (true, created_message (Term.weeks term)),
       mkState
         (with_daily (daily_duties (db s) ++ rows)
            (with_weekly
               (filter (fun w => negb (of_term tid w)) (weekly_duty_assignments (db s))
                ++ was) (db s)))
         g (flashed s)) /\
    weeks_written tid (Table_query_ordered (db s)) (students (db s))
      (map WeeklyDutyAssignment.id
         (filter (fun w => negb (of_term tid w)) (weekly_duty_assignments (db s))))
      (Term.start_date term) (py_range 1 (Term.weeks term + 1)) was rows.
Proof.
  intros Hterm Htabs [[Hmin Hmax] [Hemin Hemax]].
  assert (Hord : Table_query_ordered (db s) <> []).
  { intros E. apply Htabs.
    pose proof (order_by_table_number_Permutation (tables (db s))) as P.
    unfold Table_query_ordered in E. rewrite E in P.
    now apply Permutation_nil in P. }
  set (s1 := mkState (Weekly_delete_by_term tid (db s)) (rand s) (flashed s)).
  destruct (create_weeks_total tid (Table_query_ordered (db s))
              (py_range 1 (Term.weeks term + 1)) (Term.start_date term) s1 Hord Hmin)
    as [s2 Hrun].
  { unfold len. rewrite py_range_length. lia. }
  pose proof (create_weeks_Ok _ _ _ _ _ _ _ Hrun) as (was & rows & g & Hw & Hs2).
  exists was, rows, g. split; [| exact Hw].
  unfold create_duty_schedule_for_term.
  rewrite (bind_run _ _ s (db s) s) by reflexivity.
  rewrite Hterm.
  destruct (Table_query_ordered (db s)) as [| tb tbs] eqn:Etabs; [congruence |].
  rewrite (bind_run _ _ s tt s1) by reflexivity.
  rewrite (bind_run _ _ _ _ _ Hrun).
  rewrite Hs2. reflexivity.
Qed.

(** ** What the rounds of the week loop add up to *)

Lemma next_id_gt ids i : In i ids -> i < next_id ids.
Proof.
  unfold next_id. induction ids as [| j ids IH]; cbn [fold_right In]; [tauto |].
  intros [-> | Hi]; [lia |]. specialize (IH Hi). lia.
Qed.

Section WeeksWritten.
Variables (tid : Z) (tabs : list Table.t) (studs : list Student.t).

Lemma weeks_written_numbers ids cur ws was rows :
  weeks_written tid tabs studs ids cur ws was rows ->
  map WeeklyDutyAssignment.week_number was = ws /\
  Forall (fun wa => of_term tid wa = true) was.
Proof.
  induction 1 as [| ids cur w ws wa was rows rest Hw _ [IH1 IH2]];
    [split; [reflexivity | constructor] |].
  cbn [map]. rewrite IH1, (ww_week _ _ _ _ _ _ _ _ Hw). split; [reflexivity |].
  constructor; [| exact IH2].
  unfold of_term. rewrite (ww_term _ _ _ _ _ _ _ _ Hw). apply Z.eqb_refl.
Qed.

Lemma weeks_written_tables ids cur ws was rows :
  weeks_written tid tabs studs ids cur ws was rows ->
  Forall (fun wa => exists tb,
            nth_error tabs
              (Z.to_nat ((WeeklyDutyAssignment.week_number wa - 1) mod len tabs))
            = Some tb /\
            WeeklyDutyAssignment.table_number wa = Table.table_number tb) was.
Proof.
  induction 1 as [| ids cur w ws wa was rows rest Hw _ IH]; constructor;
    [| exact IH].
  rewrite (ww_week _ _ _ _ _ _ _ _ Hw). exact (ww_table _ _ _ _ _ _ _ _ Hw).
Qed.

Lemma weeks_written_windows ids cur ws was rows :
  weeks_written tid tabs studs ids cur ws was rows ->
  forall lo hi, ws = py_range lo hi ->
  Forall (fun wa =>
            WeeklyDutyAssignment.start_date wa
            = cur + 7 * (WeeklyDutyAssignment.week_number wa - lo) /\
            WeeklyDutyAssignment.end_date wa
            = WeeklyDutyAssignment.start_date wa + 6) was.
Proof.
  induction 1 as [| ids cur w ws wa was rows rest Hw _ IH]; intros lo hi E;
    [constructor |].
  destruct (Z.lt_ge_cases lo hi) as [Hlt | Hge];
    [| rewrite py_range_nil in E by lia; discriminate].
  rewrite py_range_cons in E by exact Hlt. inversion E; subst w ws.
  constructor.
  - rewrite (ww_week _ _ _ _ _ _ _ _ Hw), (ww_start _ _ _ _ _ _ _ _ Hw),
      (ww_end _ _ _ _ _ _ _ _ Hw). lia.
  - eapply Forall_impl; [| apply (IH (lo + 1) hi eq_refl)].
    cbn beta. intros wa' [H1 H2]. rewrite H2, H1. lia.
Qed.

Lemma weeks_written_ids ids cur ws was rows :
  weeks_written tid tabs studs ids cur ws was rows ->
  Forall (fun wa => forall i, In i ids -> i < WeeklyDutyAssignment.id wa) was.
Proof.
  induction 1 as [| ids cur w ws wa was rows rest Hw _ IH]; constructor.
  - intros i Hi. rewrite (ww_id _ _ _ _ _ _ _ _ Hw). now apply next_id_gt.
  - eapply Forall_impl; [| exact IH]. cbn beta. intros wa' H i Hi.
    apply H, in_or_app. now left.
Qed.

(** Every daily row written belongs to one of the weekly rows written. *)
Lemma weeks_written_owner ids cur ws was rows :
  weeks_written tid tabs studs ids cur ws was rows ->
  Forall (fun x => exists wa, In wa was /\
                   DailyDuty.weekly_assignment_id x = WeeklyDutyAssignment.id wa)
         rows.
Proof.
  induction 1 as [| ids cur w ws wa was rows rest Hw _ IH]; [constructor |].
  apply Forall_app. split.
  - destruct (members (WeeklyDutyAssignment.table_number wa) studs) eqn:Em.
    + rewrite (ww_empty _ _ _ _ _ _ _ _ Hw Em). constructor.
    + destruct (ww_rows _ _ _ _ _ _ _ _ Hw) as [_ Hr]; [congruence |].
      eapply Forall_impl; [| exact Hr]. intros x [Hx _].
      exists wa. split; [now left | exact Hx].
  - eapply Forall_impl; [| exact IH]. intros x (wa' & Hin & Hx).
    exists wa'. split; [now right | exact Hx].
Qed.

Lemma filter_none {A} (p : A -> bool) l :
  Forall (fun x => p x = false) l -> filter p l = [].
Proof.
  induction 1 as [| x l Hx _ IH]; cbn [filter]; [reflexivity |].
  now rewrite Hx.
Qed.

Lemma filter_all {A} (p : A -> bool) l :
  Forall (fun x => p x = true) l -> filter p l = l.
Proof.
  induction 1 as [| x l Hx _ IH]; cbn [filter]; [reflexivity |].
  now rewrite Hx, IH.
Qed.

End WeeksWritten.

Lemma filter_of_term tid others was :
  Forall (fun wa => of_term tid wa = true) was ->
  filter (of_term tid) (filter (fun w => negb (of_term tid w)) others ++ was) = was.
Proof.
  intros Hwas. rewrite filter_app, (filter_all _ _ Hwas).
  rewrite filter_none; [reflexivity |].
  apply Forall_forall. intros x Hx. apply filter_In in Hx.
  destruct Hx as [_ Hx]. now destruct (of_term tid x).
Qed.

Lemma py_range_NoDup lo hi : NoDup (py_range lo hi).
Proof.
  unfold py_range. apply Finite.Injective_map_NoDup; [| apply seq_NoDup].
  intros i j. lia.
Qed.

(** ** Full-term generation *)

Section Generation.
Variables (tid : Z) (s : State) (term : Term.t).
Hypothesis Hterm : Term_query_get tid (db s) = Some term.
Hypothesis Htables : tables (db s) <> [].
Hypothesis Hdates : Term_ok term.

(** C3: for a term of W weeks generated against T >= 1 tables, generation
    succeeds and leaves exactly W weekly rows for the term, their week numbers
    being 1, 2, ..., W in this order (each value once), and the row of week
    [w] carries the number of the table at index [(w - 1) mod T] of the tables
    ordered by table_number. *)
Theorem generation_round_robin :
  0 <= Term.weeks term ->
  exists msg s',
    create_duty_schedule_for_term tid s = (Ok (true, msg), s') /\
    let ordered := Table_query_ordered (db s) in
    let created := filter (of_term tid) (weekly_duty_assignments (db s')) in
    Permutation ordered (tables (db s)) /\
    Sorted by_number ordered /\
    len created = Term.weeks term /\
    map WeeklyDutyAssignment.week_number created = py_range 1 (Term.weeks term + 1) /\
    NoDup (map WeeklyDutyAssignment.week_number created) /\
    (forall w, 1 <= w <= Term.weeks term <->
               In w (map WeeklyDutyAssignment.week_number created)) /\
    Forall (fun wa => exists tb,
              nth_error ordered
                (Z.to_nat ((WeeklyDutyAssignment.week_number wa - 1) mod len ordered))
              = Some tb /\
              WeeklyDutyAssignment.table_number wa = Table.table_number tb)
           created.
Proof.
  intros HW.
  destruct (create_duty_schedule_for_term_run tid s term Hterm Htables Hdates)
    as (was & rows & g & Hrun & Hw).
  eexists _, _. split; [exact Hrun |].
  cbn [db with_daily with_weekly weekly_duty_assignments].
  destruct (weeks_written_numbers _ _ _ _ _ _ _ _ Hw) as [Hnum Hterm'].
  rewrite (filter_of_term _ _ _ Hterm').
  split; [apply order_by_table_number_Permutation |].
  split; [apply order_by_table_number_Sorted |].
  split.
  { unfold len. rewrite <- (length_map WeeklyDutyAssignment.week_number), Hnum.
    rewrite py_range_length. lia. }
  split; [exact Hnum |].
  rewrite Hnum. split; [apply py_range_NoDup |].
  split; [intros w; rewrite py_range_In; lia |].
  exact (weeks_written_tables _ _ _ _ _ _ _ _ Hw).
Qed.

(** C4: generation leaves one weekly row for each week 1, 2, ..., W of the
    term, and the window of week [w] starts on
    [term.start_date + 7 * (w - 1)] and ends six days later, whether or not
    the week's table has students, so the window of week [w + 1] starts the
    day after the window of week [w] ends. *)
Theorem generation_windows_contiguous :
  exists msg s',
    create_duty_schedule_for_term tid s = (Ok (true, msg), s') /\
    let created := filter (of_term tid) (weekly_duty_assignments (db s')) in
    map window created
    = map (fun w => (w, Term.start_date term + 7 * (w - 1),
                     Term.start_date term + 7 * (w - 1) + 6))
          (py_range 1 (Term.weeks term + 1)) /\
    Forall (fun wa =>
              WeeklyDutyAssignment.start_date wa
              = Term.start_date term
                + 7 * (WeeklyDutyAssignment.week_number wa - 1) /\
              WeeklyDutyAssignment.end_date wa
              = WeeklyDutyAssignment.start_date wa + 6) created /\
    forall wa wb,
      In wa created -> In wb created ->
      WeeklyDutyAssignment.week_number wb = WeeklyDutyAssignment.week_number wa + 1 ->
      WeeklyDutyAssignment.start_date wb = WeeklyDutyAssignment.end_date wa + 1.
Proof.
  destruct (create_duty_schedule_for_term_run tid s term Hterm Htables Hdates)
    as (was & rows & g & Hrun & Hw).
  eexists _, _. split; [exact Hrun |].
  cbn [db with_daily with_weekly weekly_duty_assignments].
  destruct (weeks_written_numbers _ _ _ _ _ _ _ _ Hw) as [Hnum Hterm'].
  rewrite (filter_of_term _ _ _ Hterm').
  pose proof (weeks_written_windows _ _ _ _ _ _ _ _ Hw 1 _ eq_refl) as Hwin.
  split.
  { rewrite <- Hnum, map_map. apply map_ext_in. intros wa Hin.
    rewrite Forall_forall in Hwin. destruct (Hwin wa Hin) as [Hs He].
    unfold window. now rewrite He, Hs. }
  split; [exact Hwin |].
  rewrite Forall_forall in Hwin.
  intros wa wb Ha Hb Hnext.
  destruct (Hwin wa Ha) as [Hsa Hea]. destruct (Hwin wb Hb) as [Hsb _].
  rewrite Hsb, Hea, Hsa, Hnext. lia.
Qed.

End Generation.

(** ** Single-week regeneration *)

Lemma halts_bind {A B} (m : M A) (f : A -> M B) :
  halts m -> (forall a, halts (f a)) -> halts (bind m f).
Proof.
  intros Hm Hf s. unfold bind. specialize (Hm s).
  destruct (m s) as [[a | e |] s1]; cbn in *; [apply Hf | discriminate | congruence].
Qed.

Lemma bind_raise {A B} (m : M A) (f : A -> M B) s e s1 :
  m s = (Raise e, s1) -> bind m f s = (Raise e, s1).
Proof. unfold bind. now intros ->. Qed.

Lemma halts_lift {A} (r : result A) : r <> Diverge -> halts (lift r).
Proof. intros Hr s. exact Hr. Qed.

Lemma halts_ret {A} (a : A) : halts (ret a).
Proof. intros s. discriminate. Qed.

Lemma halts_modify_db f : halts (modify_db f).
Proof. intros s. discriminate. Qed.

Lemma halts_for_loop {A L} (body : A -> L -> M L) xs :
  (forall x l, halts (body x l)) -> forall l, halts (for_loop xs body l).
Proof.
  intros Hb. induction xs as [| x xs IH]; intros l; cbn [for_loop].
  - apply halts_ret.
  - apply halts_bind; [apply Hb | exact IH].
Qed.

Lemma py_mod_halts a b : py_mod a b <> Diverge.
Proof. unfold py_mod. destruct (b =? 0); discriminate. Qed.

Lemma py_getitem_halts {A} (l : list A) i : py_getitem l i <> Diverge.
Proof.
  unfold py_getitem. destruct (_ <? 0); [discriminate |].
  destruct (nth_error l _); discriminate.
Qed.

Lemma date_add_days_halts d n : date_add_days d n <> Diverge.
Proof. unfold date_add_days. destruct (_ && _); discriminate. Qed.

Lemma halts_assign_week_duties wid start pool :
  halts (assign_week_duties wid start pool).
Proof.
  unfold assign_week_duties. apply halts_for_loop. intros k idx.
  unfold assign_day. apply halts_bind.
  { apply halts_lift, date_add_days_halts. }
  intros dt. apply halts_for_loop. intros sh i. unfold assign_shift.
  repeat (apply halts_bind;
          [first [apply halts_lift; first [apply py_mod_halts | apply py_getitem_halts]
                 | apply halts_modify_db] | intros ?]).
  apply halts_ret.
Qed.

(** The outcome of the writing part: either fourteen duties of the week in
    place of the old ones, or an exception. *)
Lemma regenerate_duties_run wid wa ts s :
  ts <> [] ->
  (exists rows g,
     regenerate_duties wid wa ts s
     = (Ok (mkResponse true "Week regenerated successfully" 200),
        mkState (with_daily
                   (filter (fun x => negb (DailyDuty.weekly_assignment_id x =? wid))
                           (daily_duties (db s)) ++ rows) (db s))
                g (flashed s)) /\
     map duty_key rows = week_slots (WeeklyDutyAssignment.start_date wa) /\
     Forall (duty_from (WeeklyDutyAssignment.id wa) ts) rows) \/
  (exists e s', regenerate_duties wid wa ts s = (Raise e, s')).
Proof.
  intros Hts. unfold regenerate_duties.
  set (s1 := mkState (Daily_delete_by_weekly wid (db s)) (rand s) (flashed s)).
  rewrite (bind_run _ _ s tt s1) by reflexivity.
  rewrite (bind_run _ _ _ _ _ (with_random_run _ s1)).
  set (s2 := mkState _ _ _).
  destruct (extend_pool_total 28 (fst (shuffle ts (rand s1))) ts s2 Hts)
    as (pool & Hp & Hlen); [unfold len; lia |].
  rewrite (bind_run _ _ _ _ _ Hp).
  pose proof (halts_assign_week_duties (WeeklyDutyAssignment.id wa)
                (WeeklyDutyAssignment.start_date wa) pool s2) as Hh.
  destruct (assign_week_duties _ _ pool s2) as [[idx | e |] s3] eqn:Ea.
  - left. rewrite (bind_run _ _ _ _ _ Ea).
    apply assign_week_duties_Ok in Ea. destruct Ea as (rows & -> & Hk & Hr).
    exists rows, (rand s2). split; [reflexivity |]. split; [exact Hk |].
    eapply Forall_impl; [| exact Hr].
    intros x (Hx & a & b & Ha & Hb & H1 & H2). split; [exact Hx |].
    apply extend_pool_Ok in Hp. destruct Hp as (_ & _ & Hpool).
    exists a, b.
    split; [destruct (Hpool a Ha) as [H | H]; [now apply shuffle_In in H | exact H] |].
    split; [destruct (Hpool b Hb) as [H | H]; [now apply shuffle_In in H | exact H] |].
    split; assumption.
  - right. rewrite (bind_raise _ _ _ _ _ Ea). eauto.
  - cbn in Hh. congruence.
Qed.

(** C9: regenerating a week always answers, and whatever it answers, the
    weekly assignments (all their fields), the students, tables and terms are
    as before, and so is every DailyDuty row of every other weekly
    assignment: the rows that do not belong to the regenerated week are the
    same rows in the same order. *)
Theorem regenerate_week_leaves_other_weeks :
  forall (weekly_assignment_id : Z) (s : State),
  exists r s',
    regenerate_week weekly_assignment_id s = (Ok r, s') /\
    weekly_duty_assignments (db s') = weekly_duty_assignments (db s) /\
    students (db s') = students (db s) /\
    tables (db s') = tables (db s) /\
    terms (db s') = terms (db s) /\
    filter (fun x => negb (DailyDuty.weekly_assignment_id x =? weekly_assignment_id))
           (daily_duties (db s'))
    = filter (fun x => negb (DailyDuty.weekly_assignment_id x =? weekly_assignment_id))
             (daily_duties (db s)) /\
    (success r = true ->
     exists wa,
       Weekly_query_get weekly_assignment_id (db s) = Some wa /\
       map duty_key
         (filter (fun x => DailyDuty.weekly_assignment_id x =? weekly_assignment_id)
                 (daily_duties (db s')))
       = week_slots (WeeklyDutyAssignment.start_date wa)).
Proof.
  intros wid s. unfold regenerate_week.
  rewrite (bind_run _ _ s (db s) s) by reflexivity. unfold try_except.
  destruct (Weekly_query_get wid (db s)) as [wa |] eqn:Eget.
  2:{ eexists _, _. split; [reflexivity |]. repeat split. discriminate. }
  destruct (Student_query_by_table _ (db s)) as [| m ms] eqn:Ets.
  { eexists _, _. split; [reflexivity |]. repeat split. discriminate. }
  destruct (regenerate_duties_run wid wa (m :: ms) s) as
    [(rows & g & Hrun & Hkeys & Hrows) | (e & s1 & Hrun)];
    [discriminate | |]; rewrite Hrun.
  - assert (Hmine : Forall (fun x => (DailyDuty.weekly_assignment_id x =? wid) = true) rows).
    { apply find_some in Eget. destruct Eget as [_ Eid]. apply Z.eqb_eq in Eid.
      eapply Forall_impl; [| exact Hrows]. intros x [Hx _].
      rewrite Hx, Eid. apply Z.eqb_refl. }
    eexists _, _. split; [reflexivity |]. cbn. repeat split.
    + rewrite filter_app. rewrite (filter_none _ rows), app_nil_r.
      * apply filter_all. apply Forall_forall. intros x Hx.
        apply filter_In in Hx. tauto.
      * eapply Forall_impl; [| exact Hmine]. cbn beta. now intros x ->.
    + intros _. exists wa. split; [reflexivity |].
      rewrite filter_app, (filter_all _ rows Hmine), filter_none; [exact Hkeys |].
      apply Forall_forall. intros x Hx. apply filter_In in Hx.
      destruct Hx as [_ Hx]. now destruct (_ =? _).
  - eexists _, _. split; [reflexivity |]. repeat split. discriminate.
Qed.

(** C10: regenerating a week whose table has no member answers with the
    failure "No students in this table" (HTTP 400) and changes nothing: the
    check comes before the deletion, so the week keeps its DailyDuty rows. *)
Theorem regenerate_week_empty_table_is_atomic :
  forall (weekly_assignment_id : Z) (s : State) (wa : WeeklyDutyAssignment.t),
    Weekly_query_get weekly_assignment_id (db s) = Some wa ->
    Student_query_by_table (WeeklyDutyAssignment.table_number wa) (db s) = [] ->
    regenerate_week weekly_assignment_id s
    = (Ok (mkResponse false "No students in this table" 400), s).
Proof.
  intros wid s wa Hget Hts. unfold regenerate_week.
  rewrite (bind_run _ _ s (db s) s) by reflexivity. unfold try_except.
  rewrite Hget, Hts. reflexivity.
Qed.

(** ** The scenario of the specification

    A term of two weeks from 2024-01-01 (ordinal 738886), two tables of three
    students each. *)

Lemma scenario_term_found : Term_query_get 1 (db scenario) = Some scenario_term.
Proof. reflexivity. Qed.

Lemma scenario_has_tables : tables (db scenario) <> [].
Proof. discriminate. Qed.

Lemma scenario_term_ok : Term_ok scenario_term.
Proof. unfold Term_ok, date_min, date_max. cbn. lia. Qed.

Lemma generation_round_robin_scenario :
  exists msg s',
    create_duty_schedule_for_term 1 scenario = (Ok (true, msg), s') /\
    map WeeklyDutyAssignment.week_number
      (filter (of_term 1) (weekly_duty_assignments (db s')))
    = py_range 1 3.
Proof.
  destruct (generation_round_robin 1 scenario scenario_term
              scenario_term_found scenario_has_tables scenario_term_ok)
    as (msg & s' & Hrun & _ & _ & _ & Hnum & _).
  - cbn. lia.
  - exists msg, s'. split; [exact Hrun | exact Hnum].
Defined.

Lemma generation_windows_scenario :
  exists msg s',
    create_duty_schedule_for_term 1 scenario = (Ok (true, msg), s') /\
    map window (filter (of_term 1) (weekly_duty_assignments (db s')))
    = [(1, 738886, 738892); (2, 738893, 738899)].
Proof.
  destruct (generation_windows_contiguous 1 scenario scenario_term
              scenario_term_found scenario_has_tables scenario_term_ok)
    as (msg & s' & Hrun & Hrows & _).
  exists msg, s'. split; [exact Hrun | exact Hrows].
Defined.


Lemma regenerate_empty_table_scenario :
  regenerate_week 1
    (mkState (mkDB [] [] [] [WeeklyDutyAssignment.mk 1 1 1 1 738886 738892]
                [DailyDuty.mk 1 1 738886 "AM" (Some 1) (Some 2)]) [] [])
  = (Ok (mkResponse false "No students in this table" 400),
     mkState (mkDB [] [] [] [WeeklyDutyAssignment.mk 1 1 1 1 738886 738892]
                [DailyDuty.mk 1 1 738886 "AM" (Some 1) (Some 2)]) [] []).
Proof.
  apply (regenerate_week_empty_table_is_atomic 1 _
           (WeeklyDutyAssignment.mk 1 1 1 1 738886 738892)); reflexivity.
Defined.

(** C2: on the scenario, a second generation for the same term succeeds and
    keeps every DailyDuty row of the first one: the 28 rows of the first run
    are the first 28 of the 56 rows after the second run, and the weekly row
    that takes the freed id 1 has 28 duties, not 14. *)
Theorem regeneration_keeps_first_run_duties :
  fst (create_duty_schedule_for_term 1 scenario)
  = Ok (true, created_message 2) /\
  fst (create_duty_schedule_for_term 1 scenario_generated)
  = Ok (true, created_message 2) /\
  List.length (daily_duties (db scenario_generated)) = 28%nat /\
  List.length (daily_duties (db scenario_regenerated)) = 56%nat /\
  firstn 28 (daily_duties (db scenario_regenerated))
  = daily_duties (db scenario_generated) /\
  map WeeklyDutyAssignment.id (weekly_duty_assignments (db scenario_regenerated))
  = [1; 2] /\
  List.length
    (filter (fun x => DailyDuty.weekly_assignment_id x =? 1)
            (daily_duties (db scenario_regenerated))) = 28%nat.
Proof.
  split; [vm_compute; reflexivity |].
  split; [vm_compute; reflexivity |].
  split; [vm_compute; reflexivity |].
  split; [vm_compute; reflexivity |].
  split; [vm_compute; reflexivity |].
  split; vm_compute; reflexivity.
Qed.

(** ** Floats *)

Lemma float_lt_pushes_up x b r :
  float_lt x b = true -> float_lt x r = false -> float_lt b r = false.
Proof.
  destruct x as [x |], b as [b |], r as [r |]; cbn; try congruence;
    rewrite ?Z.ltb_lt, ?Z.ltb_ge; lia.
Qed.

Lemma float_ge_trans x b r :
  float_lt x b = false -> float_lt b r = false -> float_lt x r = false.
Proof.
  destruct x as [x |], b as [b |], r as [r |]; cbn; try congruence;
    rewrite ?Z.ltb_ge; lia.
Qed.

Lemma float_lt_irrefl x : float_lt x x = false.
Proof. destruct x; cbn; [apply Z.ltb_irrefl | reflexivity]. Qed.

(** ** Dicts *)

Section DictFacts.
Context {K V : Type} (eqb : K -> K -> bool).
Hypothesis eqb_spec : forall a b, reflect (a = b) (eqb a b).

Lemma dict_get_In k (d : dict) :
  In k (dict_keys d) -> exists v : V, dict_get eqb k d = Some v.
Proof.
  induction d as [| [k' v'] d IH]; cbn; [tauto |].
  intros [-> | Hin].
  - destruct (eqb_spec k k); [eauto | congruence].
  - destruct (eqb_spec k k'); [eauto | auto].
Qed.

Lemma dict_get_Some_In k (v : V) (d : dict) :
  dict_get eqb k d = Some v -> In (k, v) d.
Proof.
  induction d as [| [k' v'] d IH]; cbn; [discriminate |].
  destruct (eqb_spec k k') as [-> | _].
  - intros E. inversion E. now left.
  - auto.
Qed.

Lemma dict_get_Some_key k (v : V) (d : dict) :
  dict_get eqb k d = Some v -> In k (dict_keys d).
Proof.
  intros H. apply dict_get_Some_In in H. apply (in_map fst) in H. exact H.
Qed.

Lemma dict_set_keys k (v : V) (d : dict) :
  In k (dict_keys d) -> dict_keys (dict_set eqb k v d) = dict_keys d.
Proof.
  induction d as [| [k' v'] d IH]; cbn; [tauto |].
  destruct (eqb_spec k k') as [-> | Hne]; [reflexivity |].
  intros [E | Hin]; [congruence |]. cbn. f_equal. apply IH, Hin.
Qed.

Lemma dict_get_set_same k (v : V) (d : dict) :
  dict_get eqb k (dict_set eqb k v d) = Some v.
Proof.
  induction d as [| [k' v'] d IH]; cbn.
  - destruct (eqb_spec k k); [reflexivity | congruence].
  - destruct (eqb_spec k k') as [-> | Hne]; cbn.
    + destruct (eqb_spec k' k'); [reflexivity | congruence].
    + destruct (eqb_spec k k'); [congruence | exact IH].
Qed.

Lemma dict_get_set_other k k' (v : V) (d : dict) :
  k' <> k -> dict_get eqb k' (dict_set eqb k v d) = dict_get eqb k' d.
Proof.
  intros Hne. induction d as [| [k0 v0] d IH]; cbn.
  - destruct (eqb_spec k' k); [congruence | reflexivity].
  - destruct (eqb_spec k k0) as [-> | Hk]; cbn.
    + destruct (eqb_spec k' k0); [congruence | reflexivity].
    + destruct (eqb_spec k' k0); [reflexivity | exact IH].
Qed.
End DictFacts.

Lemma grade_key_eqb_spec a b : reflect (a = b) (grade_key_eqb a b).
Proof.
  destruct a as [x |], b as [y |]; cbn; try (constructor; congruence).
  destruct (Z.eqb_spec x y); constructor; congruence.
Qed.

(** ** Scoring the tables for one student *)

Lemma uniform_0_2_snd g : snd (uniform_0_2 g) = snd (next_raw g).
Proof. unfold uniform_0_2. now destruct (next_raw g). Qed.

Lemma uniform_0_2_range g : 0 <= fst (uniform_0_2 g) < 2 * 2 ^ 52.
Proof.
  unfold uniform_0_2. destruct (next_raw g) as [x g']. cbn [fst].
  change (2 * 2 ^ 52) with (2 ^ 53). apply Z.mod_pos_bound. reflexivity.
Qed.

Lemma score_tables_run student ta keys : forall best s,
  (forall k, In k keys -> In k (dict_keys ta)) ->
  for_loop keys (score_table student ta) best s
  = (Ok (pick best (table_scores student ta keys (rand s))),
     mkState (db s) (after_draws (List.length keys) (rand s)) (flashed s)).
Proof.
  induction keys as [| k ks IH]; intros best s Hkeys; cbn [for_loop].
  - destruct s. reflexivity.
  - destruct (dict_get_In Z.eqb Z.eqb_spec k ta) as [cur Hcur];
      [apply Hkeys; now left |].
    assert (Hstep :
      score_table student ta k best s
      = (Ok (if float_lt (int_add_float (collisions student cur)
                            (fst (uniform_0_2 (rand s)))) (snd best)
             then (Some k, int_add_float (collisions student cur)
                             (fst (uniform_0_2 (rand s))))
             else best),
         mkState (db s) (snd (uniform_0_2 (rand s))) (flashed s))).
    { unfold score_table, dict_getitem. rewrite Hcur.
      rewrite (bind_run _ _ s cur s) by reflexivity.
      rewrite (bind_run _ _ _ _ _ (with_random_run _ s)).
      destruct (float_lt _ _); reflexivity. }
    rewrite (bind_run _ _ _ _ _ Hstep), IH by (intros; apply Hkeys; now right).
    cbn [table_scores pick fold_left after_draws List.length rand db flashed fst snd].
    unfold current_at. rewrite Hcur, uniform_0_2_snd. reflexivity.
Qed.

Lemma pick_spec scs : forall best,
  let r := pick best scs in
  (forall x, In x scs -> float_lt (snd x) (snd r) = false) /\
  float_lt (snd best) (snd r) = false /\
  (r = best \/ exists x, In x scs /\ r = (Some (fst x), snd x)).
Proof.
  induction scs as [| x scs IH]; intros best; cbn zeta.
  - cbn. split; [tauto |]. split; [apply float_lt_irrefl | now left].
  - unfold pick. cbn [fold_left]. fold (pick (if float_lt (snd x) (snd best)
                                              then (Some (fst x), snd x) else best) scs).
    destruct (float_lt (snd x) (snd best)) eqn:Elt.
    + destruct (IH (Some (fst x), snd x)) as (Ha & Hb & Hc). cbn [snd] in Hb.
      split; [| split].
      * intros y [<- | Hy]; [exact Hb | apply Ha, Hy].
      * eapply float_lt_pushes_up; eassumption.
      * right. destruct Hc as [-> | (y & Hy & ->)]; [exists x | exists y]; cbn; auto.
    + destruct (IH best) as (Ha & Hb & Hc).
      split; [| split].
      * intros y [<- | Hy]; [eapply float_ge_trans; eassumption | apply Ha, Hy].
      * exact Hb.
      * destruct Hc as [-> | (y & Hy & ->)]; [now left | right; exists y; cbn; auto].
Qed.

(** With a table to score, the loop ends on one of the tables. *)
Lemma pick_from_scratch student ta k ks g :
  exists t sc,
    pick (None, Inf) (table_scores student ta (k :: ks) g) = (Some t, sc) /\
    In (t, sc) (table_scores student ta (k :: ks) g) /\
    forall x, In x (table_scores student ta (k :: ks) g) ->
              float_lt (snd x) sc = false.
Proof.
  destruct (pick_spec (table_scores student ta (k :: ks) g) (None, Inf))
    as (Ha & _ & Hc).
  destruct Hc as [E | ([t sc] & Hx & E)].
  - exfalso. specialize (Ha _ (or_introl eq_refl)). rewrite E in Ha.
    cbn in Ha. discriminate.
  - exists t, sc. cbn [fst snd] in E. rewrite E in Ha. cbn [snd] in Ha. auto.
Qed.

Lemma table_scores_keys student ta keys : forall g,
  map fst (table_scores student ta keys g) = keys.
Proof.
  induction keys as [| k ks IH]; intros g; cbn; [reflexivity |]. now rewrite IH.
Qed.

(** Each score is the weighted count of collisions with the students already
    at the table, plus a jitter in [0, 2) (a numerator below 2 * 2^52). *)
Lemma table_scores_shape student (ta : assignments) : forall g,
  NoDup (dict_keys ta) ->
  Forall2 (fun entry sc =>
             fst sc = fst entry /\
             exists jitter, 0 <= jitter < 2 * 2 ^ 52 /\
               snd sc = int_add_float (collisions student (snd entry)) jitter)
          ta (table_scores student ta (dict_keys ta) g).
Proof.
  intros g Hnd.
  assert (Hgen : forall (d : assignments) g,
            (forall e, In e d -> dict_get Z.eqb (fst e) ta = Some (snd e)) ->
            Forall2 (fun entry sc =>
                       fst sc = fst entry /\
                       exists jitter, 0 <= jitter < 2 * 2 ^ 52 /\
                         snd sc = int_add_float (collisions student (snd entry)) jitter)
                    d (table_scores student ta (dict_keys d) g)).
  { induction d as [| [k cur] d IH]; intros g0 Hd; cbn; constructor.
    - cbn. split; [reflexivity |].
      pose proof (Hd (k, cur) (or_introl eq_refl)) as Hk. cbn [fst snd] in Hk.
      unfold current_at. rewrite Hk.
      eexists. split; [apply uniform_0_2_range | reflexivity].
    - apply IH. intros e He. apply Hd. now right. }
  apply Hgen. clear Hgen g.
  induction ta as [| [k cur] ta IH]; intros e He; [destruct He |].
  cbn in Hnd. inversion Hnd as [| ? ? Hk Hnd']; subst.
  cbn [dict_get]. destruct He as [<- | He].
  - cbn. now rewrite Z.eqb_refl.
  - destruct (Z.eqb_spec (fst e) k) as [E | _]; [| apply IH; assumption].
    exfalso. apply Hk. rewrite <- E. apply (in_map fst), He.
Qed.

(** ** Seating a student *)

Lemma grows_refl a : grows a a.
Proof. intros k. exists []. now rewrite app_nil_r. Qed.

Lemma grows_trans a b c : grows a b -> grows b c -> grows a c.
Proof.
  intros Hab Hbc k. destruct (Hab k) as [e1 H1], (Hbc k) as [e2 H2].
  exists (e1 ++ e2). now rewrite H2, H1, app_assoc.
Qed.

Lemma set_mem_In i s : set_mem i s = true <-> In i s.
Proof.
  unfold set_mem. rewrite existsb_exists. split.
  - intros (x & Hx & E). apply Z.eqb_eq in E. now subst.
  - intros H. exists i. split; [exact H | apply Z.eqb_refl].
Qed.

Lemma set_add_In i j s : In i (set_add j s) <-> i = j \/ In i s.
Proof.
  unfold set_add. destruct (set_mem j s) eqn:E.
  - apply set_mem_In in E. split; [auto |]. intros [-> | H]; assumption.
  - rewrite in_app_iff. cbn. intuition.
Qed.

Lemma set_add_new j s : ~ In j s -> set_add j s = s ++ [j].
Proof.
  intros H. unfold set_add. destruct (set_mem j s) eqn:E; [| reflexivity].
  apply set_mem_In in E. contradiction.
Qed.

Lemma assign_to_run t student (l : locals) s :
  In t (dict_keys (fst l)) ->
  assign_to t student l s = (Ok (seat t student l), s).
Proof.
  intros Hin. destruct (dict_get_In Z.eqb Z.eqb_spec t (fst l) Hin) as [cur Hcur].
  unfold assign_to, seat, current_at, dict_getitem. rewrite Hcur. reflexivity.
Qed.

Lemma seat_keys t student (l : locals) :
  In t (dict_keys (fst l)) -> dict_keys (fst (seat t student l)) = dict_keys (fst l).
Proof. intros H. cbn. now apply dict_set_keys; [apply Z.eqb_spec |]. Qed.

Lemma seat_current t student (l : locals) k :
  In t (dict_keys (fst l)) ->
  current_at (fst (seat t student l)) k
  = if k =? t then current_at (fst l) t ++ [student] else current_at (fst l) k.
Proof.
  intros _. unfold seat, current_at. cbn [fst].
  destruct (Z.eqb_spec k t) as [-> | Hne].
  - now rewrite (dict_get_set_same Z.eqb Z.eqb_spec).
  - now rewrite (dict_get_set_other Z.eqb Z.eqb_spec) by exact Hne.
Qed.

Lemma seat_grows t student (l : locals) :
  In t (dict_keys (fst l)) -> grows (fst l) (fst (seat t student l)).
Proof.
  intros Hin k. rewrite seat_current by exact Hin.
  destruct (Z.eqb_spec k t) as [-> | _]; [exists [student] | exists []];
    [reflexivity | now rewrite app_nil_r].
Qed.

Lemma dict_set_placed t (cur : list Student.t) student (ta : assignments) :
  dict_get Z.eqb t ta = Some cur ->
  Permutation (placed (dict_set Z.eqb t (cur ++ [student]) ta)) (student :: placed ta).
Proof.
  unfold placed. induction ta as [| [k c] ta IH]; cbn [dict_get dict_set];
    [discriminate |].
  destruct (Z.eqb_spec t k) as [-> | Hne]; intros H.
  - inversion H; subst c. cbn [map List.concat snd]. rewrite <- app_assoc. cbn [app].
    apply Permutation_sym, Permutation_middle.
  - cbn [map List.concat snd]. specialize (IH H).
    eapply perm_trans; [apply Permutation_app_head, IH |].
    apply Permutation_sym, Permutation_middle.
Qed.

Lemma seat_placed t student (l : locals) :
  In t (dict_keys (fst l)) ->
  Permutation (placed (fst (seat t student l))) (student :: placed (fst l)).
Proof.
  intros Hin. destruct (dict_get_In Z.eqb Z.eqb_spec t (fst l) Hin) as [cur Hcur].
  unfold seat, current_at. rewrite Hcur. cbn [fst]. now apply dict_set_placed.
Qed.

Lemma current_at_placed (ta : assignments) k st :
  In st (current_at ta k) -> In st (placed ta).
Proof.
  unfold current_at, placed. destruct (dict_get Z.eqb k ta) as [cur |] eqn:E;
    [| intros []].
  intros Hin. apply dict_get_Some_In in E; [| apply Z.eqb_spec].
  apply in_concat. exists cur. split; [| exact Hin].
  apply (in_map snd) in E. exact E.
Qed.

Lemma seat_coherent universe t student (l : locals) :
  In t (dict_keys (fst l)) -> In student universe ->
  ~ In (Student.id student) (snd l) ->
  coherent universe l -> coherent universe (seat t student l).
Proof.
  intros Ht Hu Hnew (Hperm & Hnd & Hsub).
  pose proof (seat_placed t student l Ht) as Hp.
  split; [| split].
  - cbn [snd seat]. rewrite set_add_new by exact Hnew.
    eapply perm_trans; [apply Permutation_map, Hp |]. cbn [map].
    eapply perm_trans; [apply perm_skip, Hperm |].
    apply Permutation_cons_append.
  - cbn [snd seat]. rewrite set_add_new by exact Hnew.
    apply (Permutation_NoDup (l := Student.id student :: snd l));
      [apply Permutation_cons_append |]. now constructor.
  - intros st Hst. apply (Permutation_in _ Hp) in Hst.
    destruct Hst as [<- | Hst]; [exact Hu | apply Hsub, Hst].
Qed.

(** ** The moments of placement *)

Lemma place_student_run student (l : locals) s k ks :
  dict_keys (fst l) = k :: ks ->
  exists t,
    lowest (table_scores student (fst l) (dict_keys (fst l)) (rand s)) t /\
    In t (dict_keys (fst l)) /\
    place_student student l s
    = (Ok (if t =? 0 then l else seat t student l),
       mkState (db s) (after_draws (List.length (dict_keys (fst l))) (rand s))
               (flashed s)).
Proof.
  intros Hkeys. unfold place_student.
  rewrite (bind_run _ _ _ _ _
             (score_tables_run student (fst l) (dict_keys (fst l)) (None, Inf) s
                (fun k H => H))).
  rewrite Hkeys.
  destruct (pick_from_scratch student (fst l) k ks (rand s))
    as (t & sc & Hpick & Hin & Hmin).
  rewrite Hpick. cbn [fst].
  assert (Ht : In t (k :: ks)).
  { rewrite <- (table_scores_keys student (fst l) (k :: ks) (rand s)).
    apply (in_map fst) in Hin. exact Hin. }
  exists t. split; [exists sc; auto |]. split; [exact Ht |].
  destruct (t =? 0); [reflexivity |].
  apply assign_to_run. rewrite Hkeys. exact Ht.
Qed.

Lemma moment_ok_grows keys a b m :
  grows a b -> moment_ok keys a m -> moment_ok keys b m.
Proof.
  intros Hg (t & Hl & Hks & Hk & Hp & Hin & Hgm). exists t.
  split; [exact Hl |]. split; [exact Hks |]. split; [exact Hk |].
  split; [exact Hp |]. split; [| eapply grows_trans; eassumption].
  intros Ht. destruct (Hg t) as [ext ->]. apply in_or_app. left. auto.
Qed.

Lemma place_group_run universe gs : forall (l : locals) s k ks,
  dict_keys (fst l) = k :: ks ->
  coherent universe l ->
  NoDup (map Student.id gs) ->
  (forall st, In st gs -> In st universe /\ ~ In (Student.id st) (snd l)) ->
  exists (l' : locals) s',
    place_group gs l s = (Ok l', s') /\
    db s' = db s /\ flashed s' = flashed s /\
    dict_keys (fst l') = dict_keys (fst l) /\
    coherent universe l' /\
    grows (fst l) (fst l') /\
    (forall i, In i (snd l') -> In i (snd l) \/ In i (map Student.id gs)) /\
    (forall i, In i (snd l) -> In i (snd l')) /\
    (~ In 0 (k :: ks) -> forall st, In st gs -> In (Student.id st) (snd l')) /\
    map student_of (group_moments gs l s) = gs /\
    Forall (moment_ok (k :: ks) (fst l')) (group_moments gs l s).
Proof.
  induction gs as [| st gs IH]; intros l s k ks Hkeys Hco Hnd Hnew.
  - exists l, s. cbn [place_group group_moments map].
    split; [reflexivity |]. split; [reflexivity |]. split; [reflexivity |].
    split; [reflexivity |]. split; [exact Hco |]. split; [apply grows_refl |].
    split; [intros i Hi; now left |]. split; [auto |].
    split; [intros _ st [] |]. split; [reflexivity | constructor].
  - cbn [place_group group_moments]. rewrite Hkeys.
    destruct (place_student_run st l s k ks Hkeys) as (t & Hlow & Ht & Hrun).
    rewrite (bind_run _ _ _ _ _ Hrun), Hrun.
    set (l1 := if t =? 0 then l else seat t st l) in *.
    set (s1 := mkState _ _ _) in *.
    destruct (Hnew st (or_introl eq_refl)) as [Hu Hfresh].
    inversion Hnd as [| ? ? Hhd Hnd']; subst.
    assert (Hkeys1 : dict_keys (fst l1) = k :: ks).
    { subst l1. destruct (t =? 0); [exact Hkeys |].
      now rewrite seat_keys by exact Ht. }
    assert (Hco1 : coherent universe l1).
    { subst l1. destruct (t =? 0); [exact Hco |]. now apply seat_coherent. }
    assert (Hg1 : grows (fst l) (fst l1)).
    { subst l1. destruct (t =? 0); [apply grows_refl | now apply seat_grows]. }
    assert (Hs1 : forall i, In i (snd l1) <->
                            In i (snd l) \/ (t <> 0 /\ i = Student.id st)).
    { intros i. subst l1. destruct (Z.eqb_spec t 0) as [E | E].
      - intuition.
      - cbn [snd seat]. rewrite set_add_In. intuition. }
    destruct (IH l1 s1 k ks Hkeys1 Hco1 Hnd') as
      (l' & s' & Hrun' & Hdb & Hfl & Hk' & Hco' & Hg' & Hsub & Hmono & Hall & Hms & Hok).
    { intros st' Hst'. destruct (Hnew st' (or_intror Hst')) as [Hu' Hf'].
      split; [exact Hu' |]. rewrite Hs1. intros [H | [_ E]]; [contradiction |].
      apply Hhd. rewrite <- E. now apply in_map. }
    exists l', s'. rewrite Hrun'.
    split; [reflexivity |]. split; [exact Hdb |]. split; [exact Hfl |].
    split; [congruence |]. split; [exact Hco' |].
    split; [eapply grows_trans; eassumption |].
    split.
    { intros i Hi. apply Hsub in Hi. cbn [map In].
      rewrite Hs1 in Hi. intuition. }
    split.
    { intros i Hi. apply Hmono, Hs1. now left. }
    split.
    { intros H0 st' [<- | Hst'].
      - apply Hmono, Hs1. right. split; [| reflexivity].
        intros E. apply H0. now rewrite <- E, <- Hkeys.
      - now apply Hall. }
    split.
    { cbn [map]. now rewrite Hms. }
    constructor; [| exact Hok].
    exists t. cbn [student_of locals_of state_of fst snd moment_scores].
    unfold moment_scores. cbn [student_of locals_of state_of fst snd].
    split; [exact Hlow |]. split; [exact Hkeys |].
    split; [now rewrite <- Hkeys |].
    split; [now rewrite Hrun |].
    split; [| eapply grows_trans; eassumption].
    intros Hne. destruct (Hg' t) as [ext ->]. apply in_or_app. left.
    subst l1. destruct (Z.eqb_spec t 0) as [E | _]; [contradiction |].
    rewrite seat_current by exact Ht. rewrite Z.eqb_refl.
    apply in_or_app. right. now left.
Qed.

Lemma NoDup_app_disjoint {A} (l1 l2 : list A) :
  NoDup (l1 ++ l2) -> forall a, In a l1 -> ~ In a l2.
Proof.
  induction l1 as [| x l1 IH]; cbn; [tauto |].
  intros Hnd a [<- | Ha] H2.
  - inversion Hnd as [| ? ? Hx _]; subst. apply Hx, in_or_app. now right.
  - inversion Hnd; subst. eapply IH; eassumption.
Qed.

Lemma place_grades_run universe by_grade gks : forall (l : locals) s k ks,
  dict_keys (fst l) = k :: ks ->
  coherent universe l ->
  NoDup (map Student.id (flat_map (fun g => by_grade_getitem g by_grade) gks)) ->
  (forall st, In st (flat_map (fun g => by_grade_getitem g by_grade) gks) ->
              In st universe /\ ~ In (Student.id st) (snd l)) ->
  exists (l' : locals) s',
    for_loop gks (place_grade by_grade) l s = (Ok l', s') /\
    db s' = db s /\ flashed s' = flashed s /\
    dict_keys (fst l') = dict_keys (fst l) /\
    coherent universe l' /\
    grows (fst l) (fst l') /\
    (forall i, In i (snd l') ->
               In i (snd l) \/
               In i (map Student.id
                       (flat_map (fun g => by_grade_getitem g by_grade) gks))) /\
    (forall i, In i (snd l) -> In i (snd l')) /\
    (~ In 0 (k :: ks) ->
     forall st, In st (flat_map (fun g => by_grade_getitem g by_grade) gks) ->
                In (Student.id st) (snd l')) /\
    Permutation (map student_of (grade_moments by_grade gks l s))
                (flat_map (fun g => by_grade_getitem g by_grade) gks) /\
    Forall (moment_ok (k :: ks) (fst l')) (grade_moments by_grade gks l s).
Proof.
  induction gks as [| g gks IH]; intros l s k ks Hkeys Hco Hnd Hnew.
  - exists l, s. cbn [for_loop grade_moments flat_map map].
    split; [reflexivity |]. split; [reflexivity |]. split; [reflexivity |].
    split; [reflexivity |]. split; [exact Hco |]. split; [apply grows_refl |].
    split; [intros i Hi; now left |]. split; [auto |].
    split; [intros _ st [] |]. split; [reflexivity | constructor].
  - cbn [flat_map] in Hnd, Hnew. rewrite map_app in Hnd.
    set (group := by_grade_getitem g by_grade) in *.
    assert (Hkeep : filter (fun st => negb (set_mem (Student.id st) (snd l))) group
                    = group).
    { apply filter_all, Forall_forall. intros st Hst.
      destruct (Hnew st) as [_ Hf]; [apply in_or_app; now left |].
      destruct (set_mem _ _) eqn:E; [| reflexivity].
      apply set_mem_In in E. contradiction. }
    cbn [for_loop grade_moments]. fold group. rewrite Hkeep. cbv zeta.
    set (gs := fst (shuffle group (rand s))).
    set (s1 := mkState (db s) (snd (shuffle group (rand s))) (flashed s)).
    assert (Hpg : place_grade by_grade g l s = place_group gs l s1).
    { unfold place_grade. fold group. rewrite Hkeep.
      unfold bind. rewrite with_random_run. reflexivity. }
    pose proof (shuffle_Permutation group (rand s)) as Hsh. fold gs in Hsh.
    destruct (place_group_run universe gs l s1 k ks Hkeys Hco) as
      (l1 & s2 & Hrun & Hdb & Hfl & Hk1 & Hco1 & Hg1 & Hsub1 & Hmono1 & Hall1 & Hms1 & Hok1).
    { apply (Permutation_NoDup (l := map Student.id group));
        [apply Permutation_map, Permutation_sym, Hsh |].
      eapply NoDup_app_remove_r, Hnd. }
    { intros st Hst. apply Hnew, in_or_app. left.
      eapply Permutation_in; eassumption. }
    rewrite Hrun, (bind_run _ _ _ _ _ (eq_trans Hpg Hrun)).
    destruct (IH l1 s2 k ks) as
      (l' & s' & Hrun' & Hdb' & Hfl' & Hk' & Hco' & Hg' & Hsub & Hmono & Hall & Hms & Hok).
    { congruence. }
    { exact Hco1. }
    { eapply NoDup_app_remove_l, Hnd. }
    { intros st Hst. destruct (Hnew st) as [Hu Hf]; [apply in_or_app; now right |].
      split; [exact Hu |]. intros Hi. apply Hsub1 in Hi.
      destruct Hi as [Hi | Hi]; [contradiction |].
      apply (NoDup_app_disjoint _ _ Hnd (Student.id st)).
      - eapply Permutation_in; [apply Permutation_map, Hsh | exact Hi].
      - now apply in_map. }
    exists l', s'. rewrite Hrun'.
    split; [reflexivity |]. split; [now rewrite Hdb', Hdb |].
    split; [now rewrite Hfl', Hfl |].
    split; [congruence |]. split; [exact Hco' |].
    split; [eapply grows_trans; eassumption |].
    split.
    { intros i Hi. apply Hsub in Hi. cbn [flat_map]. rewrite map_app, in_app_iff.
      destruct Hi as [Hi | Hi]; [| auto].
      apply Hsub1 in Hi. destruct Hi as [Hi | Hi]; [auto |].
      right. left. eapply Permutation_in; [apply Permutation_map, Hsh | exact Hi]. }
    split; [auto |].
    split.
    { intros H0 st Hst. cbn [flat_map] in Hst. apply in_app_or in Hst.
      destruct Hst as [Hst | Hst]; [| now apply Hall].
      apply Hmono, (Hall1 H0).
      eapply Permutation_in; [apply Permutation_sym, Hsh | exact Hst]. }
    split.
    { cbn [flat_map]. rewrite map_app, Hms1.
      apply Permutation_app; [exact Hsh | exact Hms]. }
    apply Forall_app. split; [| exact Hok].
    eapply Forall_impl; [| exact Hok1]. intros m. now apply moment_ok_grows.
Qed.

(** ** Grouping by grade *)

Section ListDict.
Context {K A : Type} (eqb : K -> K -> bool).
Hypothesis eqb_spec : forall a b, reflect (a = b) (eqb a b).

Lemma dict_set_new k (v : list A) (d : dict) :
  dict_get eqb k d = None -> dict_set eqb k v d = d ++ [(k, v)].
Proof.
  induction d as [| [k' v'] d IH]; cbn; [reflexivity |].
  destruct (eqb_spec k k'); [discriminate |]. intros H. now rewrite IH.
Qed.

Lemma dict_get_None_keys k (d : dict (V:=list A)) :
  dict_get eqb k d = None -> ~ In k (dict_keys d).
Proof.
  intros H Hin. destruct (dict_get_In eqb eqb_spec k d Hin) as [v Hv]. congruence.
Qed.

Lemma dict_set_flat k (cur : list A) x (d : dict) :
  dict_get eqb k d = Some cur ->
  Permutation (flat_map snd (dict_set eqb k (cur ++ [x]) d)) (x :: flat_map snd d).
Proof.
  induction d as [| [k' c] d IH]; cbn [dict_get dict_set]; [discriminate |].
  destruct (eqb_spec k k') as [-> | Hne]; intros H.
  - inversion H; subst c. cbn [flat_map snd]. rewrite <- app_assoc. cbn [app].
    apply Permutation_sym, Permutation_middle.
  - cbn [flat_map snd]. specialize (IH H).
    eapply perm_trans; [apply Permutation_app_head, IH |].
    apply Permutation_sym, Permutation_middle.
Qed.

(** Looking every key up gives back the lists of the dict, in order. *)
Lemma dict_lookup_all (d : dict (V:=list A)) :
  NoDup (dict_keys d) ->
  flat_map (fun k => match dict_get eqb k d with Some l => l | None => [] end)
           (dict_keys d)
  = flat_map snd d.
Proof.
  induction d as [| [k v] d IH]; cbn [dict_keys map fst flat_map snd dict_get];
    [reflexivity |].
  intros Hnd. inversion Hnd as [| ? ? Hk Hnd']; subst.
  destruct (eqb_spec k k); [| congruence]. f_equal.
  rewrite <- (IH Hnd'). rewrite !flat_map_concat_map. f_equal.
  apply map_ext_in. intros k' Hk'.
  destruct (eqb_spec k' k) as [-> | _]; [contradiction | reflexivity].
Qed.
End ListDict.

Lemma by_grade_append_keeps st (d : dict (K:=grade_key) (V:=list Student.t)) acc :
  NoDup (dict_keys d) /\ Permutation (flat_map snd d) acc ->
  NoDup (dict_keys (by_grade_append st d)) /\
  Permutation (flat_map snd (by_grade_append st d)) (acc ++ [st]).
Proof.
  intros [Hnd Hp]. unfold by_grade_append.
  destruct (dict_get grade_key_eqb (grade_key_of st) d) as [cur |] eqn:E.
  - split.
    + rewrite dict_set_keys; [exact Hnd | apply grade_key_eqb_spec |].
      eapply dict_get_Some_key; [apply grade_key_eqb_spec | exact E].
    + eapply perm_trans;
        [apply (dict_set_flat _ grade_key_eqb_spec _ _ _ _ E) |].
      eapply perm_trans; [apply perm_skip, Hp |]. apply Permutation_cons_append.
  - rewrite (dict_set_new _ grade_key_eqb_spec _ _ _ E). split.
    + unfold dict_keys. rewrite map_app. cbn [map fst].
      apply NoDup_app; [exact Hnd | repeat constructor; intros [] |].
      intros k Hk [<- | []].
      exact (dict_get_None_keys _ grade_key_eqb_spec _ _ E Hk).
    + rewrite flat_map_app. cbn [flat_map snd app]. now apply Permutation_app.
Qed.

Lemma by_grade_groups students :
  let by_grade := fold_left (fun d s => by_grade_append s d) students [] in
  NoDup (dict_keys by_grade) /\
  Permutation (flat_map (fun g => by_grade_getitem g by_grade) (dict_keys by_grade))
              students.
Proof.
  assert (H : forall l d acc,
             NoDup (dict_keys d) /\ Permutation (flat_map snd d) acc ->
             NoDup (dict_keys (fold_left (fun d s => by_grade_append s d) l d)) /\
             Permutation
               (flat_map snd (fold_left (fun d s => by_grade_append s d) l d))
               (acc ++ l)).
  { induction l as [| st l IH]; intros d acc Hd; cbn [fold_left].
    - now rewrite app_nil_r.
    - replace (acc ++ st :: l) with ((acc ++ [st]) ++ l)
        by (now rewrite <- app_assoc).
      apply IH, by_grade_append_keeps, Hd. }
  cbn zeta. destruct (H students [] []) as [Hnd Hp]; [split; constructor |].
  split; [exact Hnd |].
  unfold by_grade_getitem.
  rewrite (dict_lookup_all grade_key_eqb grade_key_eqb_spec _ Hnd). exact Hp.
Qed.

(** ** The fallback loop *)

Lemma place_remaining_run universe table_list xs : forall (l : locals) s,
  table_list <> [] ->
  dict_keys (fst l) = table_list ->
  coherent universe l ->
  NoDup (map (fun x => Student.id (snd x)) xs) ->
  (forall x, In x xs -> In (snd x) universe /\ ~ In (Student.id (snd x)) (snd l)) ->
  exists (l' : locals),
    for_loop xs (place_remaining table_list) l s = (Ok l', s) /\
    dict_keys (fst l') = table_list /\
    coherent universe l' /\
    grows (fst l) (fst l') /\
    (forall i, In i (snd l) -> In i (snd l')) /\
    (forall x, In x xs -> In (Student.id (snd x)) (snd l')).
Proof.
  intros l s Hne. revert l s.
  induction xs as [| [idx st] xs IH]; intros l s Hkeys Hco Hnd Hnew.
  - exists l. cbn [for_loop].
    split; [reflexivity |]. split; [exact Hkeys |]. split; [exact Hco |].
    split; [apply grows_refl |]. split; [auto | intros x []].
  - assert (Hpos : 0 < len table_list).
    { unfold len. destruct table_list; [congruence | cbn [List.length]; lia]. }
    destruct (py_getitem_total table_list (idx mod len table_list)) as [t Ht];
      [apply Z.mod_pos_bound, Hpos |].
    pose proof (py_getitem_In _ _ _ Ht) as Hin. rewrite <- Hkeys in Hin.
    destruct (Hnew _ (or_introl eq_refl)) as [Hu Hfresh]. cbn [snd] in Hu, Hfresh.
    cbn [map snd] in Hnd. apply NoDup_cons_iff in Hnd. destruct Hnd as [Hhd Hnd'].
    assert (Hstep : place_remaining table_list (idx, st) l s
                    = (Ok (seat t st l), s)).
    { unfold place_remaining, py_mod.
      destruct (Z.eqb_spec (len table_list) 0) as [E | _]; [lia |].
      rewrite (bind_run _ _ s (idx mod len table_list) s) by reflexivity.
      rewrite (bind_run _ _ s t s) by (unfold lift; now rewrite Ht).
      now apply assign_to_run. }
    cbn [for_loop]. rewrite (bind_run _ _ _ _ _ Hstep).
    destruct (IH (seat t st l) s) as (l' & Hrun & Hk' & Hco' & Hg' & Hmono & Hall).
    { now rewrite seat_keys. }
    { now apply seat_coherent. }
    { exact Hnd'. }
    { intros x Hx. destruct (Hnew x (or_intror Hx)) as [Hu' Hf'].
      split; [exact Hu' |]. cbn [snd seat]. rewrite set_add_In.
      intros [E | H]; [| contradiction].
      apply Hhd. rewrite <- E. now apply (in_map (fun x => Student.id (snd x))). }
    exists l'. split; [exact Hrun |]. split; [exact Hk' |]. split; [exact Hco' |].
    split; [eapply grows_trans; [apply seat_grows; exact Hin | exact Hg'] |].
    split.
    { intros i Hi. apply Hmono. cbn [snd seat]. apply set_add_In. now right. }
    intros x [<- | Hx]; [| now apply Hall].
    apply Hmono. cbn [snd seat]. apply set_add_In. now left.
Qed.

Lemma enumerate_snd {A} (l : list A) : map snd (enumerate l) = l.
Proof.
  unfold enumerate, len.
  assert (H : forall (l : list A) lo,
             map snd (combine (py_range lo (lo + Z.of_nat (List.length l))) l) = l).
  { induction l0 as [| a l0 IH]; intros lo; cbn [List.length].
    - now rewrite py_range_nil by lia.
    - rewrite py_range_cons by lia. cbn [combine map snd]. f_equal.
      replace (lo + Z.of_nat (S (List.length l0)))
        with (lo + 1 + Z.of_nat (List.length l0)) by lia.
      apply IH. }
  apply (H l 0).
Qed.

(** ** Writing the assignments back *)

Lemma set_students_same s : set_students (students (db s)) s = s.
Proof. destruct s as [[st tb tm wk dl] g fl]. reflexivity. Qed.

Lemma write_table_run k cur : forall s,
  for_loop cur
    (fun student (_ : unit) =>
       modify_db (Student_set_table_number (Student.id student) (Some k))) tt s
  = (Ok tt,
     set_students
       (map (fun r => if existsb (fun st => Student.id st =? Student.id r) cur
                      then Student.with_table_number (Some k) r else r)
            (students (db s))) s).
Proof.
  induction cur as [| st cur IH]; intros s; cbn [for_loop].
  - cbn [existsb]. rewrite map_id. now rewrite set_students_same.
  - rewrite (bind_run _ _ s tt
               (mkState (Student_set_table_number (Student.id st) (Some k) (db s))
                        (rand s) (flashed s))) by reflexivity.
    rewrite IH. unfold set_students, Student_set_table_number, with_students.
    cbn [db rand flashed students tables terms weekly_duty_assignments daily_duties].
    rewrite map_map. do 3 f_equal. apply map_ext. intros r. cbn [existsb].
    destruct (Z.eqb_spec (Student.id r) (Student.id st)) as [E | E].
    + cbn [Student.with_table_number Student.id]. rewrite E, Z.eqb_refl. cbn [orb].
      destruct (existsb _ cur); reflexivity.
    + destruct (Z.eqb_spec (Student.id st) (Student.id r)); [congruence |].
      reflexivity.
Qed.

Lemma write_assignments_run ta : forall s,
  write_assignments ta s
  = (Ok tt, set_students (map (written ta) (students (db s))) s).
Proof.
  unfold write_assignments.
  induction ta as [| [k cur] ta IH]; intros s; cbn [for_loop].
  - unfold written. cbn [owner]. rewrite map_id. now rewrite set_students_same.
  - cbn [fst snd]. rewrite (bind_run _ _ _ _ _ (write_table_run k cur s)).
    rewrite IH. unfold set_students, with_students.
    cbn [db rand flashed students tables terms weekly_duty_assignments daily_duties].
    rewrite map_map. do 3 f_equal. apply map_ext. intros r.
    unfold written. cbn [owner].
    destruct (existsb _ cur) eqn:E; cbn [Student.with_table_number Student.id];
      destruct (owner ta (Student.id r)); reflexivity.
Qed.

(** ** Recounting *)

Lemma recount_tables_run tabs studs : forall s,
  exists tbs,
    recount_tables tabs studs s
    = (Ok tt, mkState (with_tables tbs (db s)) (rand s) (flashed s)).
Proof.
  unfold recount_tables.
  induction tabs as [| tb tabs IH]; intros s; cbn [for_loop].
  - exists (tables (db s)). destruct s as [[st t tm wk dl] g fl]. reflexivity.
  - rewrite (bind_run _ _ s tt
               (mkState
                  (Table_set_current_count (Table.id tb)
                     (count_if
                        (fun st => option_Z_eqb (current_table_number (db s) st)
                                                (Some (Table.table_number tb)))
                        studs) (db s)) (rand s) (flashed s))) by reflexivity.
    match goal with |- context [for_loop tabs ?b tt ?s1] =>
      destruct (IH s1) as [tbs Htbs] end.
    exists tbs. rewrite Htbs. reflexivity.
Qed.

(** ** The empty [table_assignments] *)

Lemma dict_set_keys_In k k' (v : list Student.t) (d : assignments) :
  In k' (dict_keys (dict_set Z.eqb k v d)) <-> k' = k \/ In k' (dict_keys d).
Proof.
  induction d as [| [k0 v0] d IH]; cbn [dict_set dict_keys map fst In].
  - intuition.
  - destruct (Z.eqb_spec k k0) as [-> | Hne]; cbn [map fst In].
    + intuition.
    + fold (dict_keys (dict_set Z.eqb k v d)). fold (dict_keys d).
      rewrite IH. intuition.
Qed.

Lemma dict_set_keys_NoDup k (v : list Student.t) (d : assignments) :
  NoDup (dict_keys d) -> NoDup (dict_keys (dict_set Z.eqb k v d)).
Proof.
  induction d as [| [k0 v0] d IH]; cbn [dict_set dict_keys map fst]; intros Hnd.
  - repeat constructor. intros [].
  - destruct (Z.eqb_spec k k0) as [-> | Hne]; cbn [map fst]; [exact Hnd |].
    inversion Hnd as [| ? ? Hk Hnd']; subst. constructor.
    + fold (dict_keys (dict_set Z.eqb k v d)). rewrite dict_set_keys_In.
      intros [E | H]; [congruence | contradiction].
    + apply IH, Hnd'.
Qed.

Lemma dict_set_empty_placed k (d : assignments) :
  placed d = [] -> placed (dict_set Z.eqb k [] d) = [].
Proof.
  unfold placed. induction d as [| [k0 v0] d IH]; cbn [dict_set map snd List.concat];
    [reflexivity |].
  intros H. apply app_eq_nil in H. destruct H as [-> H].
  destruct (Z.eqb_spec k k0); cbn [map snd List.concat app]; [exact H | auto].
Qed.

Lemma empty_assignments_facts tabs :
  NoDup (dict_keys (empty_assignments tabs)) /\
  placed (empty_assignments tabs) = [] /\
  forall k, In k (dict_keys (empty_assignments tabs)) <->
            In k (map Table.table_number tabs).
Proof.
  unfold empty_assignments.
  assert (H : forall l (d : assignments),
             NoDup (dict_keys d) -> placed d = [] ->
             let d' := fold_left
                         (fun d table => dict_set Z.eqb (Table.table_number table) [] d)
                         l d in
             NoDup (dict_keys d') /\ placed d' = [] /\
             forall k, In k (dict_keys d') <->
                       In k (dict_keys d) \/ In k (map Table.table_number l)).
  { induction l as [| tb l IH]; intros d Hnd Hp; cbn [fold_left map In].
    - cbn zeta. intuition.
    - destruct (IH (dict_set Z.eqb (Table.table_number tb) [] d)) as (H1 & H2 & H3);
        [now apply dict_set_keys_NoDup | now apply dict_set_empty_placed |].
      cbn zeta. split; [exact H1 |]. split; [exact H2 |].
      intros k. rewrite H3, dict_set_keys_In. intuition. }
  destruct (H tabs []) as (H1 & H2 & H3); [constructor | reflexivity |].
  split; [exact H1 |]. split; [exact H2 |].
  intros k. rewrite H3. cbn. intuition.
Qed.

(** ** A whole distribution run *)

Lemma NoDup_map_filter {A B} (f : A -> B) p l :
  NoDup (map f l) -> NoDup (map f (filter p l)).
Proof.
  induction l as [| a l IH]; cbn [map filter]; intros Hnd; [constructor |].
  inversion Hnd as [| ? ? Ha Hnd']; subst.
  destruct (p a); cbn [map]; [| auto]. constructor; [| auto].
  intros Hin. apply Ha. apply in_map_iff in Hin. destruct Hin as (x & E & Hx).
  apply filter_In in Hx. rewrite <- E. apply in_map. tauto.
Qed.

Lemma distribute_run s st0 rest :
  Student_query_unassigned (db s) = st0 :: rest ->
  tables (db s) <> [] ->
  NoDup (map Student.id (students (db s))) ->
  exists (lf : locals) s',
    distribute_students_to_tables_smart s = (Ok true, s') /\
    students (db s') = map (written (fst lf)) (students (db s)) /\
    terms (db s') = terms (db s) /\
    weekly_duty_assignments (db s') = weekly_duty_assignments (db s) /\
    daily_duties (db s') = daily_duties (db s) /\
    coherent (Student_query_unassigned (db s)) lf /\
    (forall st, In st (Student_query_unassigned (db s)) ->
                In (Student.id st) (snd lf)) /\
    NoDup (dict_keys (fst lf)) /\
    (forall k, In k (dict_keys (fst lf)) <->
               In k (map Table.table_number (tables (db s)))) /\
    Permutation (map student_of (distribution_moments s))
                (Student_query_unassigned (db s)) /\
    Forall (moment_ok (dict_keys (fst lf)) (fst lf)) (distribution_moments s).
Proof.
  intros HU Htabs Hpk.
  set (U := Student_query_unassigned (db s)) in *.
  assert (HUnd : NoDup (map Student.id U)) by (apply NoDup_map_filter, Hpk).
  pose proof (order_by_table_number_Permutation (tables (db s))) as Hord.
  fold (Table_query_ordered (db s)) in Hord.
  set (tabs := Table_query_ordered (db s)) in *.
  destruct (empty_assignments_facts tabs) as (Hk0nd & Hp0 & Hk0).
  assert (Hk0' : forall k, In k (dict_keys (empty_assignments tabs)) <->
                           In k (map Table.table_number (tables (db s)))).
  { intros k. rewrite Hk0. split; apply Permutation_in;
      [| apply Permutation_sym]; apply Permutation_map, Hord. }
  destruct (dict_keys (empty_assignments tabs)) as [| k ks] eqn:Ekeys.
  { exfalso. destruct (tables (db s)) as [| tb tbs] eqn:Et; [congruence |].
    apply (proj2 (Hk0' (Table.table_number tb))). now left. }
  pose proof (shuffle_Permutation U (rand s)) as Hsh.
  set (studs := fst (shuffle U (rand s))) in *.
  set (g1 := snd (shuffle U (rand s))).
  set (by_grade := fold_left (fun d st => by_grade_append st d) studs []).
  destruct (by_grade_groups studs) as [Hgnd Hgp]. fold by_grade in Hgnd, Hgp.
  pose proof (shuffle_Permutation (dict_keys by_grade) g1) as Hshk.
  set (gks := fst (shuffle (dict_keys by_grade) g1)) in *.
  set (g2 := snd (shuffle (dict_keys by_grade) g1)).
  assert (Hall : Permutation (flat_map (fun g => by_grade_getitem g by_grade) gks) U).
  { eapply perm_trans; [apply Permutation_flat_map, Hshk |].
    eapply perm_trans; [exact Hgp | exact Hsh]. }
  set (l0 := (empty_assignments tabs, []) : locals).
  set (s0 := mkState (db s) g2 (flashed s)).
  destruct (place_grades_run U by_grade gks l0 s0 k ks Ekeys) as
    (l1 & s1 & Hrun1 & Hdb1 & Hfl1 & Hk1 & Hco1 & Hg1 & Hsub1 & Hmono1 & Hall1 & Hms1 & Hok1).
  { split; [| split]; cbn [fst snd l0].
    - rewrite Hp0. constructor.
    - constructor.
    - rewrite Hp0. intros st []. }
  { apply (Permutation_NoDup (l := map Student.id U));
      [apply Permutation_map, Permutation_sym, Hall | exact HUnd]. }
  { intros st Hst. split; [apply (Permutation_in _ Hall), Hst | intros []]. }
  cbn [fst l0] in Hk1. rewrite Ekeys in Hk1.
  set (rem := filter (fun st => negb (set_mem (Student.id st) (snd l1))) studs).
  pose proof (shuffle_Permutation rem (rand s1)) as Hshr.
  set (rems := fst (shuffle rem (rand s1))) in *.
  set (s2 := mkState (db s1) (snd (shuffle rem (rand s1))) (flashed s1)).
  assert (Hrem_in : forall st, In st rems ->
                               In st U /\ ~ In (Student.id st) (snd l1)).
  { intros st Hst. apply (Permutation_in _ Hshr) in Hst.
    apply filter_In in Hst. destruct Hst as [Hst Hm]. split.
    - apply (Permutation_in _ Hsh), Hst.
    - intros Hi. apply set_mem_In in Hi. rewrite Hi in Hm. discriminate. }
  destruct (place_remaining_run U (k :: ks) (enumerate rems) l1 s2) as
    (l2 & Hrun2 & Hk2 & Hco2 & Hg2 & Hmono2 & Hall2).
  { discriminate. }
  { exact Hk1. }
  { exact Hco1. }
  { rewrite <- (map_map snd Student.id), enumerate_snd.
    apply (Permutation_NoDup (l := map Student.id rem));
      [apply Permutation_map, Permutation_sym, Hshr |].
    apply NoDup_map_filter.
    apply (Permutation_NoDup (l := map Student.id U));
      [apply Permutation_map, Permutation_sym, Hsh | exact HUnd]. }
  { intros x Hx. apply Hrem_in. rewrite <- (enumerate_snd rems).
    now apply in_map. }
  destruct (recount_tables_run tabs studs
              (set_students (map (written (fst l2)) (students (db s2))) s2))
    as [tbs Hrc].
  exists l2. eexists. split.
  { unfold distribute_students_to_tables_smart.
    rewrite (bind_run _ _ s (db s) s) by reflexivity.
    fold U tabs.
    assert (E : match tabs with
                | [] =>
                    flash "No tables available. Please create tables first."
                      "error" ;;; ret false
                | _ :: _ =>
                    match U with
                    | [] => flash "No unassigned students to distribute." "info" ;;;
                            ret true
                    | _ :: _ => distribute_some (db s) U tabs
                    end
                end = distribute_some (db s) U tabs).
    { destruct tabs as [| tb0 tabs0] eqn:Etabs.
      - exfalso. apply Htabs. now apply Permutation_nil in Hord.
      - now rewrite HU. }
    rewrite E. unfold distribute_some.
    rewrite (bind_run _ _ _ _ _ (with_random_run _ s)).
    fold studs g1 by_grade.
    rewrite (bind_run _ _ _ _ _
               (with_random_run (shuffle (dict_keys by_grade))
                  (mkState (db s) g1 (flashed s)))).
    cbn [db rand flashed]. fold gks g2 s0.
    erewrite bind_run by exact Hrun1.
    rewrite (bind_run _ _ _ _ _ (with_random_run _ s1)).
    fold rem rems s2. rewrite Hk1.
    erewrite bind_run by exact Hrun2.
    rewrite (bind_run _ _ _ _ _ (write_assignments_run (fst l2) s2)).
    erewrite bind_run by exact Hrc.
    unfold try_except, commit.
    reflexivity. }
  cbn [db students terms weekly_duty_assignments daily_duties with_tables
       set_students with_students s2 rand flashed].
  rewrite Hdb1. cbn [db s0].
  split; [reflexivity |]. split; [reflexivity |]. split; [reflexivity |].
  split; [reflexivity |]. split; [exact Hco2 |].
  assert (Hevery : forall st, In st U -> In (Student.id st) (snd l2)).
  { intros st Hst.
    destruct (set_mem (Student.id st) (snd l1)) eqn:Em.
    - apply Hmono2, set_mem_In, Em.
    - assert (Hr : In st rems).
      { apply (Permutation_in _ (Permutation_sym Hshr)). apply filter_In.
        split; [| now rewrite Em].
        apply (Permutation_in _ (Permutation_sym Hsh)), Hst. }
      rewrite <- (enumerate_snd rems) in Hr. apply in_map_iff in Hr.
      destruct Hr as (x & <- & Hx). now apply Hall2. }
  split; [exact Hevery |].
  rewrite Hk2.
  split; [exact Hk0nd |].
  split; [exact Hk0' |].
  assert (Hmoments : distribution_moments s = grade_moments by_grade gks l0 s0)
    by reflexivity.
  rewrite Hmoments.
  split; [eapply perm_trans; eassumption |].
  eapply Forall_impl; [| exact Hok1]. intros m. now apply moment_ok_grows.
Qed.

(** ** The table a student is written to *)

Lemma owner_Some (ta : assignments) i k :
  owner ta i = Some k ->
  In k (dict_keys ta) /\ exists st, In st (placed ta) /\ Student.id st = i.
Proof.
  unfold placed. induction ta as [| [k0 cur] ta IH]; cbn [owner]; [discriminate |].
  destruct (owner ta i) as [k' |] eqn:E.
  - intros H. inversion H; subst k'. destruct (IH eq_refl) as (Hk & st & Hst & Hid).
    split; [now right |]. exists st. split; [| exact Hid].
    cbn [map snd List.concat]. apply in_or_app. now right.
  - destruct (existsb _ cur) eqn:Ex; [| discriminate].
    intros H. inversion H; subst k0. split; [now left |].
    apply existsb_exists in Ex. destruct Ex as (st & Hst & Hid).
    apply Z.eqb_eq in Hid. exists st. split; [| exact Hid].
    cbn [map snd List.concat]. apply in_or_app. now left.
Qed.

Lemma owner_placed (ta : assignments) st :
  In st (placed ta) -> exists k, owner ta (Student.id st) = Some k.
Proof.
  unfold placed. induction ta as [| [k0 cur] ta IH]; cbn [map snd List.concat owner];
    [intros [] |].
  intros Hin. apply in_app_or in Hin.
  destruct (owner ta (Student.id st)) as [k' |] eqn:E; [eauto |].
  destruct Hin as [Hin | Hin]; [| destruct (IH Hin); discriminate].
  assert (Ex : existsb (fun x => Student.id x =? Student.id st) cur = true).
  { apply existsb_exists. exists st. split; [exact Hin | apply Z.eqb_refl]. }
  rewrite Ex. eauto.
Qed.

Lemma owner_current (ta : assignments) t st :
  NoDup (map Student.id (placed ta)) ->
  In st (current_at ta t) ->
  owner ta (Student.id st) = Some t.
Proof.
  unfold placed, current_at.
  induction ta as [| [k0 cur] ta IH];
    cbn [map snd List.concat owner dict_get]; [intros _ [] |].
  rewrite map_app. intros Hnd.
  destruct (Z.eqb_spec t k0) as [-> | Hne]; intros Hin.
  - destruct (owner ta (Student.id st)) as [k' |] eqn:E.
    + exfalso. apply owner_Some in E. destruct E as (_ & st' & Hst' & Hid).
      apply (NoDup_app_disjoint _ _ Hnd (Student.id st)); [now apply in_map |].
      rewrite <- Hid. now apply in_map.
    + assert (Ex : existsb (fun x => Student.id x =? Student.id st) cur = true).
      { apply existsb_exists. exists st. split; [exact Hin | apply Z.eqb_refl]. }
      now rewrite Ex.
  - rewrite IH; [reflexivity | eapply NoDup_app_remove_l, Hnd | exact Hin].
Qed.

Lemma written_id ta r : Student.id (written ta r) = Student.id r.
Proof. unfold written. now destruct (owner ta (Student.id r)). Qed.

Lemma NoDup_map_eq {A B} (f : A -> B) l a b :
  NoDup (map f l) -> In a l -> In b l -> f a = f b -> a = b.
Proof.
  induction l as [| x l IH]; cbn [map In]; [tauto |].
  intros Hnd Ha Hb E. inversion Hnd as [| ? ? Hx Hnd']; subst.
  destruct Ha as [<- | Ha], Hb as [<- | Hb]; auto.
  - exfalso. apply Hx. rewrite E. now apply in_map.
  - exfalso. apply Hx. rewrite <- E. now apply in_map.
Qed.

Lemma Forall2_map_r {A B} (R : A -> B -> Prop) (f : A -> B) l :
  (forall x, In x l -> R x (f x)) -> Forall2 R l (map f l).
Proof.
  induction l as [| x l IH]; cbn [map]; intros H; constructor.
  - apply H. now left.
  - apply IH. intros y Hy. apply H. now right.
Qed.

Lemma unassigned_In d st :
  In st (Student_query_unassigned d) <->
  In st (students d) /\ Student.table_number st = None.
Proof.
  unfold Student_query_unassigned. rewrite filter_In.
  destruct (Student.table_number st); cbn; intuition congruence.
Qed.

Lemma find_written ta i l :
  find (fun s => Student.id s =? i) (map (written ta) l)
  = option_map (written ta) (find (fun s => Student.id s =? i) l).
Proof.
  induction l as [| r l IH]; cbn [map find]; [reflexivity |].
  rewrite written_id. destruct (Student.id r =? i); [reflexivity | exact IH].
Qed.

(** ** Distribution *)

Lemma Table_query_ordered_nil d : Table_query_ordered d = [] <-> tables d = [].
Proof.
  pose proof (order_by_table_number_Permutation (tables d)) as P.
  unfold Table_query_ordered. split; intros E.
  - rewrite E in P. now apply Permutation_nil in P.
  - now rewrite E.
Qed.

Lemma distribute_without_tables s :
  tables (db s) = [] ->
  distribute_students_to_tables_smart s
  = (Ok false,
     mkState (db s) (rand s) (flashed s ++ [(no_tables_message, "error")])).
Proof.
  intros E. unfold distribute_students_to_tables_smart.
  rewrite (bind_run _ _ s (db s) s) by reflexivity.
  apply Table_query_ordered_nil in E. rewrite E. reflexivity.
Qed.

Lemma distribute_without_students s :
  tables (db s) <> [] -> Student_query_unassigned (db s) = [] ->
  distribute_students_to_tables_smart s
  = (Ok true,
     mkState (db s) (rand s) (flashed s ++ [(nothing_to_do_message, "info")])).
Proof.
  intros Hne E. unfold distribute_students_to_tables_smart.
  rewrite (bind_run _ _ s (db s) s) by reflexivity.
  destruct (Table_query_ordered (db s)) eqn:Et.
  - apply Table_query_ordered_nil in Et. contradiction.
  - rewrite E. reflexivity.
Qed.

(** C6: with no table the distributor reports failure
    (an 'error' flash, result False) and changes no row; with a table and no
    unassigned student it reports success (an 'info' flash, result True) and
    changes no row.  The test for tables comes first. *)
Theorem distribute_guards :
  forall s : State,
    (tables (db s) = [] ->
     distribute_students_to_tables_smart s
     = (Ok false,
        mkState (db s) (rand s) (flashed s ++ [(no_tables_message, "error")]))) /\
    (tables (db s) <> [] -> Student_query_unassigned (db s) = [] ->
     distribute_students_to_tables_smart s
     = (Ok true,
        mkState (db s) (rand s) (flashed s ++ [(nothing_to_do_message, "info")]))).
Proof.
  intros s. split.
  - apply distribute_without_tables.
  - apply distribute_without_students.
Qed.

(** Where both guards could apply, the first one does: with no table and
    no unassigned student the distributor reports the failure. *)
Lemma distribute_nothing_at_all_fails :
  Student_query_unassigned (db empty_state) = [] /\
  fst (distribute_students_to_tables_smart empty_state) = Ok false.
Proof. split; reflexivity. Qed.

Lemma distribute_guards_cases :
  fst (distribute_students_to_tables_smart empty_state) = Ok false /\
  fst (distribute_students_to_tables_smart seated_state) = Ok true /\
  db (snd (distribute_students_to_tables_smart seated_state)) = db seated_state.
Proof.
  destruct (distribute_guards empty_state) as [H1 _].
  destruct (distribute_guards seated_state) as [_ H2].
  rewrite (H1 eq_refl), (H2 ltac:(discriminate) eq_refl).
  repeat split.
Defined.

(** C7: in a run with at least one table, every student that was
    unassigned ends with the number of an existing table (none stays
    unassigned), and the students that had a table keep their row. *)
Theorem distribute_assigns_every_student :
  forall s : State,
    tables (db s) <> [] ->
    NoDup (map Student.id (students (db s))) ->
    exists s',
      distribute_students_to_tables_smart s = (Ok true, s') /\
      Forall2
        (fun before after =>
           Student.id after = Student.id before /\
           (Student.table_number before = None ->
            exists tb, In tb (tables (db s)) /\
                       Student.table_number after = Some (Table.table_number tb)) /\
           (Student.table_number before <> None -> after = before))
        (students (db s)) (students (db s')).
Proof.
  intros s Htabs Hpk.
  destruct (Student_query_unassigned (db s)) as [| st0 rest] eqn:HU.
  - rewrite (distribute_without_students s Htabs HU).
    eexists. split; [reflexivity |]. cbn [db].
    rewrite <- (map_id (students (db s))) at 2. apply Forall2_map_r.
    intros r Hr. split; [reflexivity |]. split; [| reflexivity].
    intros Hn. exfalso.
    assert (Hin : In r (Student_query_unassigned (db s)))
      by (apply unassigned_In; auto).
    rewrite HU in Hin. destruct Hin.
  - destruct (distribute_run s st0 rest HU Htabs Hpk) as
      (lf & s' & Hrun & Hst & _ & _ & _ & Hco & Hevery & _ & Hkeys & _).
    exists s'. split; [exact Hrun |]. rewrite Hst. apply Forall2_map_r.
    destruct Hco as (Hperm & _ & Hsub).
    intros r Hr. split; [apply written_id |]. split.
    + intros Hn.
      assert (Hin : In r (Student_query_unassigned (db s)))
        by (apply unassigned_In; auto).
      apply Hevery in Hin.
      apply (Permutation_in _ (Permutation_sym Hperm)) in Hin.
      apply in_map_iff in Hin. destruct Hin as (st & Hid & Hst').
      destruct (owner_placed _ _ Hst') as [k Hk]. rewrite Hid in Hk.
      pose proof (owner_Some _ _ _ Hk) as [Hkin _].
      apply Hkeys, in_map_iff in Hkin. destruct Hkin as (tb & Htb & Hin').
      exists tb. split; [exact Hin' |]. unfold written. rewrite Hk, Htb. reflexivity.
    + intros Hn. unfold written.
      destruct (owner (fst lf) (Student.id r)) as [k |] eqn:Hk; [| reflexivity].
      exfalso. apply owner_Some in Hk. destruct Hk as (_ & st & Hst' & Hid).
      apply Hsub, unassigned_In in Hst'. destruct Hst' as [Hin Hnone].
      assert (E : st = r) by (eapply NoDup_map_eq; eassumption).
      subst st. contradiction.
Qed.

(** ** The score of the specification *)

Lemma option_Z_eqb_spec a b : reflect (a = b) (option_Z_eqb a b).
Proof.
  destruct a as [x |], b as [y |]; cbn; try (constructor; congruence).
  destruct (Z.eqb_spec x y); constructor; congruence.
Qed.

Lemma option_string_eqb_spec a b : reflect (a = b) (option_string_eqb a b).
Proof.
  destruct a as [x |], b as [y |]; cbn; try (constructor; congruence).
  destruct (String.eqb_spec x y); constructor; congruence.
Qed.

Lemma count_if_count_occ {A} (eqb : A -> A -> bool)
    (dec : forall a b : A, {a = b} + {a <> b})
    (f : Student.t -> A) (x : A) (members : list Student.t) :
  (forall a b, reflect (a = b) (eqb a b)) ->
  count_if (fun m => eqb (f m) x) members
  = Z.of_nat (count_occ dec (map f members) x).
Proof.
  intros Hspec. unfold count_if, len.
  induction members as [| m members IH]; [reflexivity |].
  cbn [filter map count_occ].
  destruct (Hspec (f m) x) as [E | E], (dec (f m) x) as [E' | E'];
    try contradiction; [| exact IH].
  cbn [List.length]. rewrite !Nat2Z.inj_succ. now rewrite IH.
Qed.

(** The integer the code computes is the score of the specification over
    the list it is given. *)
Lemma collisions_weighted student members :
  collisions student members = weighted_collisions student members.
Proof.
  unfold collisions, weighted_collisions. cbv zeta.
  rewrite (count_if_count_occ option_Z_eqb option_Z_eq_dec Student.grade
             _ members option_Z_eqb_spec).
  rewrite (count_if_count_occ option_string_eqb option_string_eq_dec Student.gender
             _ members option_string_eqb_spec).
  rewrite (count_if_count_occ option_string_eqb option_string_eq_dec Student.country
             _ members option_string_eqb_spec).
  lia.
Qed.

Lemma dict_entry_current (ta : assignments) entry :
  NoDup (dict_keys ta) -> In entry ta -> current_at ta (fst entry) = snd entry.
Proof.
  unfold current_at, dict_keys.
  induction ta as [| [k cur] ta IH]; intros Hnd He; [destruct He |].
  cbn [map fst] in Hnd. inversion Hnd as [| ? ? Hk Hnd']; subst.
  cbn [dict_get]. destruct He as [<- | He].
  - cbn [fst snd]. now rewrite Z.eqb_refl.
  - destruct (Z.eqb_spec (fst entry) k) as [E | _]; [| now apply IH].
    exfalso. apply Hk. rewrite <- E. apply (in_map fst), He.
Qed.

(** C8: in a run over tables none of which is numbered 0 (the table form
    refuses 0), every student that was unassigned is placed at exactly one
    moment; at that moment every table is scored, a table's score being the
    float sum of 3 x (members counted there of the same grade)
    + 2 x (same gender) + 2 x (same country) and a jitter in [0, 2); the
    members counted at a table are students that were unassigned when the
    run began and were placed there earlier in the run, never a student
    seated before it; the student is appended to a table whose score no
    table's score is below, and that table is the student's table_number at
    the end of the run. *)
Theorem placement_minimises_score :
  forall s : State,
    tables (db s) <> [] ->
    ~ In 0 (map Table.table_number (tables (db s))) ->
    NoDup (map Student.id (students (db s))) ->
    exists s',
      distribute_students_to_tables_smart s = (Ok true, s') /\
      Permutation (map student_of (distribution_moments s))
                  (Student_query_unassigned (db s)) /\
      Forall
        (fun m =>
           (forall k, In k (dict_keys (fst (locals_of m))) <->
                      In k (map Table.table_number (tables (db s)))) /\
           Forall2
             (fun entry sc =>
                fst sc = fst entry /\
                exists jitter,
                  0 <= jitter < 2 * 2 ^ 52 /\
                  snd sc = int_add_float
                             (weighted_collisions (student_of m) (snd entry)) jitter)
             (fst (locals_of m)) (moment_scores m) /\
           Forall
             (fun entry =>
                forall member,
                  In member (snd entry) ->
                  In member (Student_query_unassigned (db s)) /\
                  current_table_number (db s') member = Some (fst entry))
             (fst (locals_of m)) /\
           exists t,
             lowest (moment_scores m) t /\
             fst (place_student (student_of m) (locals_of m) (state_of m))
             = Ok (seat t (student_of m) (locals_of m)) /\
             current_table_number (db s') (student_of m) = Some t)
        (distribution_moments s).
Proof.
  intros s Htabs Hzero Hpk.
  destruct (Student_query_unassigned (db s)) as [| st0 rest] eqn:HU.
  - rewrite (distribute_without_students s Htabs HU).
    eexists. split; [reflexivity |].
    assert (E : distribution_moments s = []).
    { unfold distribution_moments. rewrite HU. reflexivity. }
    rewrite E. split; constructor.
  - destruct (distribute_run s st0 rest HU Htabs Hpk) as
      (lf & s' & Hrun & Hst & _ & _ & _ & Hco & _ & Hknd & Hkeys & Hperm & Hok).
    exists s'. split; [exact Hrun |]. rewrite <- HU in *.
    split; [exact Hperm |].
    destruct Hco as (Hp & Hnd & Hsub).
    assert (Hpnd : NoDup (map Student.id (placed (fst lf)))).
    { eapply Permutation_NoDup; [apply Permutation_sym, Hp | exact Hnd]. }
    assert (Hends : forall st t,
              In st (Student_query_unassigned (db s)) ->
              In st (current_at (fst lf) t) ->
              current_table_number (db s') st = Some t).
    { intros st t HinU Hcur.
      pose proof (owner_current _ _ _ Hpnd Hcur) as Hown.
      assert (Hin : In st (students (db s))) by (now apply unassigned_In in HinU).
      unfold current_table_number, Student_query_get. rewrite Hst, find_written.
      destruct (find _ (students (db s))) as [r |] eqn:Ef.
      + apply find_some in Ef. destruct Ef as [_ Eid]. apply Z.eqb_eq in Eid.
        cbn [option_map]. unfold written. rewrite Eid, Hown. reflexivity.
      + exfalso. apply (find_none _ _ Ef) in Hin. rewrite Z.eqb_refl in Hin.
        discriminate. }
    rewrite Forall_forall in Hok. apply Forall_forall. intros m Hm.
    destruct (Hok m Hm) as (t & Hlow & Hks & Ht & Hplace & Hfinal & Hgrows).
    split; [intros k; rewrite Hks; apply Hkeys |].
    assert (Hmnd : NoDup (dict_keys (fst (locals_of m)))) by (now rewrite Hks).
    split.
    { unfold moment_scores.
      eapply Forall2_impl; [| apply table_scores_shape; exact Hmnd].
      intros entry sc (Hfst & jitter & Hj & Hsc). split; [exact Hfst |].
      exists jitter. split; [exact Hj |]. now rewrite <- collisions_weighted. }
    split.
    { apply Forall_forall. intros entry He member Hmem.
      assert (Hcur : In member (current_at (fst lf) (fst entry))).
      { destruct (Hgrows (fst entry)) as [ext ->]. apply in_or_app. left.
        now rewrite (dict_entry_current _ _ Hmnd He). }
      assert (HinU : In member (Student_query_unassigned (db s)))
        by (apply Hsub; eapply current_at_placed; exact Hcur).
      split; [exact HinU | now apply Hends]. }
    assert (Hne : t <> 0).
    { intros ->. apply Hzero, Hkeys, Ht. }
    exists t. split; [exact Hlow |]. split.
    { rewrite Hplace. destruct (Z.eqb_spec t 0); [contradiction | reflexivity]. }
    apply Hends; [| exact (Hfinal Hne)].
    eapply Permutation_in; [exact Hperm | now apply in_map].
Qed.

(** C8, where the claim as worded fails: table 1 already has a member
    sharing the newcomer's grade, gender and country, so its score by the
    formula is at least 7 and table 2's is below 2; yet the run scores both
    tables over empty lists (the one moment of the run counts no member) and
    seats the newcomer at table 1. *)
Lemma placement_ignores_seated_members :
  let s' := snd (distribute_students_to_tables_smart preseated_state) in
  fst (distribute_students_to_tables_smart preseated_state) = Ok true /\
  Student_query_by_table 1 (db preseated_state) = [seated_before] /\
  Student_query_by_table 2 (db preseated_state) = [] /\
  weighted_collisions newcomer (Student_query_by_table 1 (db preseated_state)) = 7 /\
  weighted_collisions newcomer (Student_query_by_table 2 (db preseated_state)) = 0 /\
  float_lt (int_add_float 0 (2 * 2 ^ 52 - 1)) (int_add_float 7 0) = true /\
  map (fun m => (student_of m, fst (locals_of m)))
      (distribution_moments preseated_state)
  = [(newcomer, [(1, []); (2, [])])] /\
  current_table_number (db s') newcomer = Some 1.
Proof.
  cbv zeta.
  split; [vm_compute; reflexivity |]. split; [vm_compute; reflexivity |].
  split; [vm_compute; reflexivity |]. split; [vm_compute; reflexivity |].
  split; [vm_compute; reflexivity |]. split; [vm_compute; reflexivity |].
  split; vm_compute; reflexivity.
Qed.

(** C1, where the code breaks it: a distribution run that adds a student to
    a table that already has one ends with two students at table 1 and
    [current_count] = 1, whatever the random draws: the recount only looks at
    the students that were unassigned. *)
Theorem distribution_recount_misses_seated_students :
  forall (g : rng) (fl : list (string * string)),
    let s' := snd (distribute_students_to_tables_smart (mkState mixed_db g fl)) in
    fst (distribute_students_to_tables_smart (mkState mixed_db g fl)) = Ok true /\
    map Student.table_number (students (db s')) = [Some 1; Some 1] /\
    len (Student_query_by_table 1 (db s')) = 2 /\
    map Table.current_count (tables (db s')) = [1].
Proof.
  intros g fl. destruct g as [| x g]; vm_compute; repeat split.
Qed.

Lemma intake_has_tables : tables (db intake_state) <> [].
Proof. discriminate. Qed.

Lemma intake_no_table_zero :
  ~ In 0 (map Table.table_number (tables (db intake_state))).
Proof. cbn. intros [H | [H | []]]; discriminate. Qed.

Lemma intake_primary_key : NoDup (map Student.id (students (db intake_state))).
Proof.
  cbn. repeat (constructor; [cbn; intuition discriminate |]). constructor.
Qed.

Lemma distribute_assigns_every_student_intake :
  exists s',
    distribute_students_to_tables_smart intake_state = (Ok true, s') /\
    List.length (students (db s')) = 3%nat.
Proof.
  destruct (distribute_assigns_every_student intake_state
              intake_has_tables intake_primary_key) as (s' & Hrun & Hall).
  exists s'. split; [exact Hrun |].
  apply Forall2_length in Hall. rewrite <- Hall. reflexivity.
Defined.

Lemma placement_minimises_score_intake :
  exists s',
    distribute_students_to_tables_smart intake_state = (Ok true, s') /\
    List.length (distribution_moments intake_state) = 3%nat.
Proof.
  destruct (placement_minimises_score intake_state intake_has_tables
              intake_no_table_zero intake_primary_key) as (s' & Hrun & Hperm & _).
  exists s'. split; [exact Hrun |].
  apply Permutation_length in Hperm. rewrite length_map in Hperm.
  rewrite Hperm. reflexivity.
Defined.

(** ** More on the roster generator *)

(** X1: when full-term generation reports a failure, nothing was written:
    the state is the one it started from, and the failure is either a missing
    term or an empty table list.  In particular a failed call never deletes
    the schedule the term already has. *)
Theorem generation_failure_changes_nothing :
  forall (tid : Z) (s s' : State) (msg : string),
    create_duty_schedule_for_term tid s = (Ok (false, msg), s') ->
    s' = s /\
    ((Term_query_get tid (db s) = None /\ msg = "Term not found") \/
     (tables (db s) = [] /\ msg = "No tables available")).
Proof.
  intros tid s s' msg H. unfold create_duty_schedule_for_term in H.
  apply bind_Ok in H. destruct H as (d0 & s0 & Hd & H). run_inv Hd.
  destruct (Term_query_get tid (db s)) as [term |] eqn:Et.
  - destruct (Table_query_ordered (db s)) as [| tb tbs] eqn:Etb.
    + run_inv H. inversion H; subst. split; [reflexivity |]. right.
      split; [now apply Table_query_ordered_nil | reflexivity].
    + exfalso.
      apply bind_Ok in H. destruct H as (u & s1 & _ & H).
      apply bind_Ok in H. destruct H as (c & s2 & _ & H).
      unfold try_except, commit in H.
      cbn in H. inversion H.
  - run_inv H. inversion H; subst. split; [reflexivity |]. now left.
Qed.

Lemma generation_failure_no_term :
  create_duty_schedule_for_term 7 scenario = (Ok (false, "Term not found"), scenario) /\
  Term_query_get 7 (db scenario) = None.
Proof.
  assert (H : create_duty_schedule_for_term 7 scenario
              = (Ok (false, "Term not found"), scenario)) by reflexivity.
  split; [exact H |].
  destruct (generation_failure_changes_nothing 7 scenario scenario _ H)
    as [_ [[E _] | [E _]]]; [exact E | discriminate E].
Defined.

(** X2: whatever full-term generation answers, it leaves the students, the
    tables, the terms and the weekly rows of every other term as they were,
    and it deletes no DailyDuty row: the daily table afterwards is the one
    before with rows appended. *)
Theorem generation_frame :
  forall (tid : Z) (s s' : State) (r : bool * string),
    create_duty_schedule_for_term tid s = (Ok r, s') ->
    students (db s') = students (db s) /\
    tables (db s') = tables (db s) /\
    terms (db s') = terms (db s) /\
    filter (fun w => negb (of_term tid w)) (weekly_duty_assignments (db s'))
    = filter (fun w => negb (of_term tid w)) (weekly_duty_assignments (db s)) /\
    exists rows, daily_duties (db s') = daily_duties (db s) ++ rows.
Proof.
  intros tid s s' r H. unfold create_duty_schedule_for_term in H.
  apply bind_Ok in H. destruct H as (d0 & s0 & Hd & H). run_inv Hd.
  assert (Hsame : s' = s ->
            students (db s') = students (db s) /\
            tables (db s') = tables (db s) /\
            terms (db s') = terms (db s) /\
            filter (fun w => negb (of_term tid w)) (weekly_duty_assignments (db s'))
            = filter (fun w => negb (of_term tid w)) (weekly_duty_assignments (db s)) /\
            exists rows, daily_duties (db s') = daily_duties (db s) ++ rows).
  { intros ->. repeat split. exists []. now rewrite app_nil_r. }
  destruct (Term_query_get tid (db s)) as [term |] eqn:Et;
    [| run_inv H; now apply Hsame].
  destruct (Table_query_ordered (db s)) as [| tb tbs] eqn:Etb;
    [run_inv H; now apply Hsame |].
  clear Hsame.
  apply bind_Ok in H. destruct H as (u & s1 & Hdel & H). run_inv Hdel.
  apply bind_Ok in H. destruct H as (c & s2 & Hloop & H).
  apply create_weeks_Ok in Hloop. destruct Hloop as (was & rows & g & Hw & ->).
  unfold try_except, commit in H. cbn in H. inversion H; subst; clear H.
  cbn [db students tables terms weekly_duty_assignments daily_duties
       add_week with_daily with_weekly Weekly_delete_by_term].
  split; [reflexivity |]. split; [reflexivity |]. split; [reflexivity |].
  split; [| eauto].
  destruct (weeks_written_numbers _ _ _ _ _ _ _ _ Hw) as [_ Hterm].
  rewrite filter_app. rewrite (filter_none _ was).
  - rewrite app_nil_r. apply filter_all, Forall_forall. intros x Hx.
    apply filter_In in Hx. tauto.
  - eapply Forall_impl; [| exact Hterm]. cbn beta. now intros x ->.
Qed.

Lemma generation_frame_scenario :
  students (db scenario_generated) = students (db scenario) /\
  exists rows, daily_duties (db scenario_generated) = daily_duties (db scenario) ++ rows.
Proof.
  destruct (generation_frame 1 scenario scenario_generated
              (true, created_message 2))
    as (H1 & _ & _ & _ & H2).
  - vm_compute. reflexivity.
  - split; assumption.
Defined.

(** X3: regenerating a week that exists, whose table has a member and whose
    seven dates are dates, succeeds, and afterwards the week has exactly
    fourteen DailyDuty rows, whatever number it had before (none, fourteen, or
    the leftovers of an earlier schedule): one per date and shift of its
    window, both slots holding members of its table. *)
Theorem regenerate_week_leaves_fourteen :
  forall (weekly_assignment_id : Z) (s : State) (wa : WeeklyDutyAssignment.t),
    Weekly_query_get weekly_assignment_id (db s) = Some wa ->
    Student_query_by_table (WeeklyDutyAssignment.table_number wa) (db s) <> [] ->
    date_min <= WeeklyDutyAssignment.start_date wa ->
    WeeklyDutyAssignment.start_date wa + 6 <= date_max ->
    exists s',
      regenerate_week weekly_assignment_id s
      = (Ok (mkResponse true "Week regenerated successfully" 200), s') /\
      let duties :=
        filter (fun x => DailyDuty.weekly_assignment_id x =? weekly_assignment_id)
               (daily_duties (db s')) in
      List.length duties = 14%nat /\
      map duty_key duties = week_slots (WeeklyDutyAssignment.start_date wa) /\
      Forall (duty_from weekly_assignment_id
                (Student_query_by_table (WeeklyDutyAssignment.table_number wa) (db s)))
             duties.
Proof.
  intros wid s wa Hget Hts Hmin Hmax.
  assert (Hid : WeeklyDutyAssignment.id wa = wid).
  { apply find_some in Hget. destruct Hget as [_ E]. now apply Z.eqb_eq in E. }
  set (ts := Student_query_by_table (WeeklyDutyAssignment.table_number wa) (db s)) in *.
  destruct (regenerate_duties_run wid wa ts s Hts) as
    [(rows & g & Hrun & Hkeys & Hrows) | (e & s1 & Hrun)].
  - eexists. split.
    + unfold regenerate_week.
      rewrite (bind_run _ _ s (db s) s) by reflexivity. unfold try_except.
      rewrite Hget. fold ts. destruct ts as [| m ms] eqn:Ets; [congruence |].
      rewrite Hrun. reflexivity.
    + cbn [db daily_duties with_daily].
      assert (Hmine : Forall (fun x => (DailyDuty.weekly_assignment_id x =? wid) = true)
                             rows).
      { eapply Forall_impl; [| exact Hrows]. intros x [Hx _].
        rewrite Hx, Hid. apply Z.eqb_refl. }
      rewrite filter_app, (filter_all _ rows Hmine), filter_none.
      * cbn [app]. split; [now rewrite <- (length_map duty_key), Hkeys |].
        split; [exact Hkeys |]. now rewrite <- Hid.
      * apply Forall_forall. intros x Hx. apply filter_In in Hx.
        destruct Hx as [_ Hx]. now destruct (_ =? _).
  - exfalso. unfold regenerate_duties in Hrun.
    set (s0 := mkState (Daily_delete_by_weekly wid (db s)) (rand s) (flashed s)) in *.
    rewrite (bind_run _ _ s tt s0) in Hrun by reflexivity.
    rewrite (bind_run _ _ _ _ _ (with_random_run _ s0)) in Hrun.
    set (s2 := mkState _ _ _) in Hrun.
    destruct (extend_pool_total 28 (fst (shuffle ts (rand s0))) ts s2 Hts)
      as (pool & Hp & Hlen); [unfold len; lia |].
    rewrite (bind_run _ _ _ _ _ Hp) in Hrun.
    destruct (assign_week_duties_total (WeeklyDutyAssignment.id wa)
                (WeeklyDutyAssignment.start_date wa) pool s2)
      as (idx & s3 & Ha); [lia | exact Hmin | exact Hmax |].
    rewrite (bind_run _ _ _ _ _ Ha) in Hrun. cbn in Hrun. discriminate.
Qed.

Lemma regenerate_week_leaves_fourteen_scenario :
  exists s',
    regenerate_week 1 scenario_regenerated
    = (Ok (mkResponse true "Week regenerated successfully" 200), s') /\
    List.length (filter (fun x => DailyDuty.weekly_assignment_id x =? 1)
                        (daily_duties (db s'))) = 14%nat.
Proof.
  destruct (regenerate_week_leaves_fourteen 1 scenario_regenerated
              (WeeklyDutyAssignment.mk 1 1 1 1 738886 738892))
    as (s' & Hrun & Hlen & _).
  - vm_compute. reflexivity.
  - vm_compute. discriminate.
  - vm_compute. discriminate.
  - vm_compute. discriminate.
  - exists s'. split; [exact Hrun | exact Hlen].
Defined.

(** X4: for a term of zero or fewer weeks (the term form refuses 0 but takes
    a negative number) generation reports success, deletes the weekly rows the
    term had and writes nothing. *)
Theorem generation_of_no_weeks :
  forall (tid : Z) (s : State) (term : Term.t),
    Term_query_get tid (db s) = Some term ->
    tables (db s) <> [] ->
    Term.weeks term <= 0 ->
    create_duty_schedule_for_term tid s
    = (Ok (true, created_message (Term.weeks term)),
       mkState (Weekly_delete_by_term tid (db s)) (rand s) (flashed s)).
Proof.
  intros tid s term Hterm Htabs Hw. unfold create_duty_schedule_for_term.
  rewrite (bind_run _ _ s (db s) s) by reflexivity. rewrite Hterm.
  destruct (Table_query_ordered (db s)) as [| tb tbs] eqn:Etb;
    [apply Table_query_ordered_nil in Etb; contradiction |].
  rewrite py_range_nil by lia. reflexivity.
Qed.

Lemma generation_of_no_weeks_example :
  fst (create_duty_schedule_for_term 1
         (mkState (mkDB [] [Table.mk 1 1 3 0] [Term.mk 1 "Back" 738886 738865 (-3) true]
                        [WeeklyDutyAssignment.mk 4 1 1 1 738886 738892] []) [] []))
  = Ok (true, "Successfully created duty schedule for -3 weeks").
Proof.
  rewrite (generation_of_no_weeks 1 _ (Term.mk 1 "Back" 738886 738865 (-3) true)).
  - reflexivity.
  - reflexivity.
  - discriminate.
  - cbn. lia.
Defined.

(** ** The cached counts *)

Lemma Table_query_first_unique n d tb0 :
  NoDup (map Table.id (tables d)) ->
  Table_query_first n d = Some tb0 ->
  forall tb, In tb (tables d) ->
    (Table.id tb =? Table.id tb0) = (Table.table_number tb =? n) \/
    (In tb (tables d) /\ Table.table_number tb = n /\ tb <> tb0).
Proof.
  intros Hnd Hf tb Hin. apply find_some in Hf. destruct Hf as [Hin0 Hn0].
  apply Z.eqb_eq in Hn0.
  destruct (Z.eqb_spec (Table.id tb) (Table.id tb0)) as [E | E].
  - assert (tb = tb0) by (eapply NoDup_map_eq; eassumption). subst.
    left. symmetry. now apply Z.eqb_eq.
  - destruct (Z.eqb_spec (Table.table_number tb) n) as [En | En]; [| now left].
    right. repeat split; auto. congruence.
Qed.

Lemma refresh_count_run n s :
  NoDup (map Table.id (tables (db s))) ->
  NoDup (map Table.table_number (tables (db s))) ->
  refresh_count n s
  = (Ok tt, mkState (recount_number n (db s)) (rand s) (flashed s)).
Proof.
  intros Hid Hnum. unfold refresh_count.
  rewrite (bind_run _ _ s (db s) s) by reflexivity.
  destruct (Table_query_first n (db s)) as [tb0 |] eqn:Ef.
  - unfold modify_db, recount_number, Table_set_current_count. do 3 f_equal.
    apply map_ext_in. intros tb Hin.
    destruct (Table_query_first_unique n (db s) tb0 Hid Ef tb Hin)
      as [-> | (_ & En & Hne)]; [reflexivity |].
    exfalso. apply Hne. apply find_some in Ef. destruct Ef as [Hin0 Hn0].
    apply Z.eqb_eq in Hn0.
    eapply NoDup_map_eq; [exact Hnum | assumption | assumption | congruence].
  - assert (Hmap :
      map (fun tb => if Table.table_number tb =? n
                     then Table.with_current_count
                            (len (Student_query_by_table n (db s))) tb
                     else tb) (tables (db s)) = tables (db s)).
    { rewrite <- (map_id (tables (db s))) at 2. apply map_ext_in. intros x Hx.
      destruct (Z.eqb_spec (Table.table_number x) n) as [E | _]; [| reflexivity].
      exfalso. apply (find_none _ _ Ef) in Hx. cbn in Hx.
      rewrite E, Z.eqb_refl in Hx. discriminate. }
    unfold ret, recount_number. rewrite Hmap.
    destruct s as [[st tbs tm wk dl] g fl]. reflexivity.
Qed.

Lemma ok_on_all S d :
  ok_on S d -> (forall tb, In tb (tables d) -> S (Table.table_number tb)) ->
  counts_ok d.
Proof.
  unfold ok_on, counts_ok. rewrite !Forall_forall. intros H HS tb Hin. auto.
Qed.

Lemma counts_ok_on S d : counts_ok d -> ok_on S d.
Proof.
  unfold ok_on, counts_ok. rewrite !Forall_forall. intros H tb Hin _. auto.
Qed.

Lemma recount_number_on S n d :
  ok_on S d -> ok_on (fun k => S k \/ k = n) (recount_number n d).
Proof.
  unfold ok_on, recount_number. cbn [tables with_tables].
  rewrite !Forall_forall. intros H tb' Hin'. apply in_map_iff in Hin'.
  destruct Hin' as (tb & <- & Hin).
  destruct (Z.eqb_spec (Table.table_number tb) n) as [E | E].
  - intros _. unfold count_ok. cbn. now rewrite E.
  - intros [HS | En]; [| contradiction]. apply (H tb Hin HS).
Qed.

Lemma recount_number_keys n d : keys_ok d -> keys_ok (recount_number n d).
Proof.
  unfold keys_ok, recount_number. cbn [students tables with_tables].
  intros (H1 & H2 & H3). rewrite !map_map.
  assert (E1 : forall tb : Table.t,
             Table.id (if Table.table_number tb =? n
                       then Table.with_current_count
                              (len (Student_query_by_table n d)) tb else tb)
             = Table.id tb) by (intros tb; now destruct (_ =? _)).
  assert (E2 : forall tb : Table.t,
             Table.table_number
               (if Table.table_number tb =? n
                then Table.with_current_count
                       (len (Student_query_by_table n d)) tb else tb)
             = Table.table_number tb) by (intros tb; now destruct (_ =? _)).
  rewrite (map_ext _ _ E1), (map_ext _ _ E2). auto.
Qed.

Lemma recount_number_numbers n d :
  map Table.table_number (tables (recount_number n d))
  = map Table.table_number (tables d).
Proof.
  unfold recount_number. cbn [tables with_tables]. rewrite map_map.
  apply map_ext. intros tb. now destruct (_ =? _).
Qed.

Lemma Student_set_table_number_keys i tn d :
  keys_ok d -> keys_ok (Student_set_table_number i tn d).
Proof.
  unfold keys_ok, Student_set_table_number. cbn [students tables with_students].
  intros (H1 & H2 & H3). rewrite map_map.
  rewrite (map_ext _ Student.id); [auto |].
  intros s. now destruct (_ =? _).
Qed.

(** Moving one student leaves the counts right on every table other than the
    one left and the one joined. *)
Lemma Student_set_table_number_on sid tn d st :
  NoDup (map Student.id (students d)) ->
  Student_query_get sid d = Some st ->
  counts_ok d ->
  ok_on (fun k => Some k <> Student.table_number st /\ Some k <> tn)
        (Student_set_table_number sid tn d).
Proof.
  intros Hnd Hget Hok. unfold ok_on, counts_ok in *.
  cbn [tables Student_set_table_number with_students].
  rewrite Forall_forall in *. intros tb Hin [Hold Hnew].
  unfold count_ok in *. rewrite (Hok tb Hin).
  unfold Student_query_by_table, Student_set_table_number.
  cbn [students with_students].
  apply find_some in Hget. destruct Hget as [Hst Hid]. apply Z.eqb_eq in Hid.
  assert (Hfilter : forall (l : list Student.t),
            (forall s, In s l -> Student.id s = sid -> s = st) ->
            filter (fun s => option_Z_eqb (Student.table_number s)
                                          (Some (Table.table_number tb)))
                   (map (fun s => if Student.id s =? sid
                                  then Student.with_table_number tn s else s) l)
            = map (fun s => if Student.id s =? sid
                            then Student.with_table_number tn s else s)
                  (filter (fun s => option_Z_eqb (Student.table_number s)
                                                 (Some (Table.table_number tb))) l)).
  { induction l as [| s l IH]; intros Hl; cbn [map filter]; [reflexivity |].
    rewrite IH by (intros; apply Hl; [now right | assumption]).
    destruct (Z.eqb_spec (Student.id s) sid) as [E | E].
    - assert (s = st) by (apply Hl; [now left | exact E]). subst s.
      cbn [Student.with_table_number Student.table_number].
      assert (E1 : option_Z_eqb tn (Some (Table.table_number tb)) = false).
      { destruct tn as [k |]; cbn; [| reflexivity].
        apply Z.eqb_neq. intros ->. now apply Hnew. }
      assert (E2 : option_Z_eqb (Student.table_number st)
                                (Some (Table.table_number tb)) = false).
      { destruct (Student.table_number st) as [k |]; cbn; [| reflexivity].
        apply Z.eqb_neq. intros ->. now apply Hold. }
      now rewrite E1, E2.
    - destruct (option_Z_eqb _ _); cbn [map]; [| reflexivity].
      destruct (Z.eqb_spec (Student.id s) sid); [contradiction | reflexivity]. }
  rewrite Hfilter.
  - unfold len. now rewrite length_map.
  - intros s Hs E. eapply NoDup_map_eq; [exact Hnd | exact Hs | exact Hst | congruence].
Qed.

Lemma refresh_if_run tn s :
  keys_ok (db s) ->
  (if truthy tn then
     match tn with
     | Some n => refresh_count n
     | None => ret tt
     end
   else ret tt) s
  = (Ok tt, mkState (refreshed tn (db s)) (rand s) (flashed s)).
Proof.
  intros (_ & Hid & Hnum). unfold refreshed.
  destruct (truthy tn); [| destruct s; reflexivity].
  destruct tn as [n |]; [| destruct s; reflexivity].
  now apply refresh_count_run.
Qed.

Lemma refreshed_keys tn d : keys_ok d -> keys_ok (refreshed tn d).
Proof.
  intros H. unfold refreshed. destruct (truthy tn); [| exact H].
  destruct tn; [now apply recount_number_keys | exact H].
Qed.

Lemma refreshed_numbers tn d :
  map Table.table_number (tables (refreshed tn d)) = map Table.table_number (tables d).
Proof.
  unfold refreshed. destruct (truthy tn); [| reflexivity].
  destruct tn; [apply recount_number_numbers | reflexivity].
Qed.

Lemma refreshed_students tn d : students (refreshed tn d) = students d.
Proof.
  unfold refreshed. destruct (truthy tn); [| reflexivity].
  destruct tn; reflexivity.
Qed.

Lemma refreshed_on S tn d :
  ok_on S d ->
  ok_on (fun k => S k \/ (k <> 0 /\ tn = Some k)) (refreshed tn d).
Proof.
  intros H. unfold refreshed, truthy. destruct tn as [n |].
  - destruct (Z.eqb_spec n 0) as [E | E]; cbn [negb].
    + unfold ok_on in *. eapply Forall_impl; [| exact H]. cbn beta.
      intros tb Htb [HS | [Hk E']]; [auto |]. inversion E'. congruence.
    + apply recount_number_on with (n := n) in H.
      unfold ok_on in *. eapply Forall_impl; [| exact H]. cbn beta.
      intros tb Htb [HS | [Hk E']]; [auto |]. inversion E'. auto.
  - unfold ok_on in *. eapply Forall_impl; [| exact H]. cbn beta.
    intros tb Htb [HS | [_ E']]; [auto | discriminate].
Qed.

Lemma reassigned_ok sid tn d st :
  keys_ok d ->
  ~ In 0 (map Table.table_number (tables d)) ->
  counts_ok d ->
  Student_query_get sid d = Some st ->
  counts_ok (reassigned sid (Student.table_number st) tn d) /\
  keys_ok (reassigned sid (Student.table_number st) tn d) /\
  map Table.table_number (tables (reassigned sid (Student.table_number st) tn d))
  = map Table.table_number (tables d).
Proof.
  intros Hkeys Hzero Hok Hget. unfold reassigned.
  split; [| split].
  - pose proof (Student_set_table_number_on sid tn d st (proj1 Hkeys) Hget Hok) as H.
    apply (refreshed_on _ (Student.table_number st)) in H.
    apply (refreshed_on _ tn) in H.
    eapply ok_on_all; [exact H |]. cbn beta.
    intros tb Hin.
    assert (Hnz : Table.table_number tb <> 0).
    { intros E. apply Hzero.
      assert (Hn : In (Table.table_number tb)
                      (map Table.table_number
                         (tables (refreshed tn
                            (refreshed (Student.table_number st)
                               (Student_set_table_number sid tn d))))))
        by (now apply in_map).
      rewrite !refreshed_numbers in Hn. cbn [tables Student_set_table_number
                                              with_students] in Hn.
      now rewrite <- E. }
    destruct (option_Z_eqb tn (Some (Table.table_number tb))) eqn:E1.
    { right. split; [exact Hnz |]. destruct tn as [k |]; [| discriminate].
      cbn in E1. apply Z.eqb_eq in E1. now subst. }
    left.
    destruct (option_Z_eqb (Student.table_number st) (Some (Table.table_number tb)))
      eqn:E2.
    { right. split; [exact Hnz |].
      destruct (Student.table_number st) as [k |]; [| discriminate].
      cbn in E2. apply Z.eqb_eq in E2. now subst. }
    left. split.
    + intros E. rewrite <- E in E2. cbn in E2. rewrite Z.eqb_refl in E2. discriminate.
    + intros E. rewrite <- E in E1. cbn in E1. rewrite Z.eqb_refl in E1. discriminate.
  - now apply refreshed_keys, refreshed_keys, Student_set_table_number_keys.
  - now rewrite !refreshed_numbers.
Qed.

Lemma sqlite_int_run {A} (n : Z) (k : M A) s :
  (lift (sqlite_int n) ;;; k) s
  = if int64 n then k s else (Raise too_large, s).
Proof. unfold bind, lift, sqlite_int. now destruct (int64 n). Qed.

Lemma try_sqlite_run {A} (n : Z) (body : M A) (handler : exn -> M A) s :
  try_except (lift (sqlite_int n) ;;; body) handler s
  = if int64 n then try_except body handler s else handler too_large s.
Proof. unfold try_except. rewrite sqlite_int_run. now destruct (int64 n). Qed.

(** What [change_student_table] does to the state, case by case. *)
Lemma change_student_table_run sid new s :
  keys_ok (db s) ->
  change_student_table sid new s =
  if int64 sid then
    match Student_query_get sid (db s) with
    | None => (Ok (Abort 404), s)
    | Some st =>
        if option_Z_eqb new (Some 0) then
          (Ok (Redirect "students"),
           mkState (reassigned (Student.id st) (Student.table_number st) None (db s))
                   (rand s) (flashed s ++ [moved_message st new]))
        else
          match new with
          | Some n =>
              if int64 n then
                match Table_query_first n (db s) with
                | Some _ =>
                    (Ok (Redirect "students"),
                     mkState (reassigned (Student.id st) (Student.table_number st)
                                (Some n) (db s))
                             (rand s) (flashed s ++ [moved_message st new]))
                | None =>
                    (Ok (Redirect "students"),
                     mkState (db s) (rand s)
                       (flashed s
                        ++ [(("Table " ++ str_of_int n ++ " does not exist")%string,
                             "error")]))
                end
              else (Raise too_large, s)
          | None =>
              (Ok (Redirect "students"),
               mkState (db s) (rand s)
                 (flashed s ++ [("Table None does not exist", "error")]))
          end
    end
  else (Raise too_large, s).
Proof.
  intros Hkeys. unfold change_student_table.
  rewrite (bind_run _ _ s (db s) s) by reflexivity.
  rewrite sqlite_int_run. destruct (int64 sid); [| reflexivity].
  destruct (Student_query_get sid (db s)) as [st |]; [| reflexivity].
  assert (Hfinish : forall tn m c,
    truthy new = truthy tn ->
    (truthy tn = true -> new = tn) ->
    forall s1, s1 = mkState (Student_set_table_number (Student.id st) tn (db s))
                            (rand s) (flashed s) ->
    (try_except
       (commit ;;;
        (if truthy (Student.table_number st) then
           match Student.table_number st with
           | Some n => refresh_count n
           | None => ret tt
           end
         else ret tt) ;;;
        (if truthy new then
           match new with
           | Some n => refresh_count n
           | None => ret tt
           end
         else ret tt) ;;;
        commit ;;;
        flash m c)
       (fun e =>
          rollback (db s) ;;;
          flash ("Error changing table: " ++ exn_str e)%string "error") ;;;
     ret (Redirect "students")) s1
    = (Ok (Redirect "students"),
       mkState (reassigned (Student.id st) (Student.table_number st) tn (db s))
               (rand s) (flashed s ++ [(m, c)]))).
  { intros tn m c Ht Hnew s1 ->.
    assert (Hk1 : keys_ok (Student_set_table_number (Student.id st) tn (db s)))
      by now apply Student_set_table_number_keys.
    rewrite (bind_run _ _ _ tt
               (mkState (reassigned (Student.id st) (Student.table_number st) tn (db s))
                        (rand s) (flashed s ++ [(m, c)])));
      [reflexivity |].
    unfold try_except, commit.
    rewrite (bind_run (ret tt) _ _ tt _ eq_refl).
    rewrite (bind_run _ _ _ _ _
               (refresh_if_run (Student.table_number st)
                  (mkState (Student_set_table_number (Student.id st) tn (db s))
                           (rand s) (flashed s)) Hk1)).
    assert (Hk2 : keys_ok (refreshed (Student.table_number st)
                             (Student_set_table_number (Student.id st) tn (db s))))
      by now apply refreshed_keys.
    rewrite (bind_run _ _ _ _ _
               (refresh_if_run new
                  (mkState (refreshed (Student.table_number st)
                              (Student_set_table_number (Student.id st) tn (db s)))
                           (rand s) (flashed s)) Hk2)).
    cbn [db rand flashed]. unfold reassigned.
    assert (E : refreshed new
                  (refreshed (Student.table_number st)
                     (Student_set_table_number (Student.id st) tn (db s)))
                = refreshed tn
                    (refreshed (Student.table_number st)
                       (Student_set_table_number (Student.id st) tn (db s)))).
    { unfold refreshed at 1 3. rewrite Ht. destruct (truthy tn) eqn:Et; [| reflexivity].
      now rewrite (Hnew eq_refl). }
    rewrite E. reflexivity. }
  destruct (option_Z_eqb new (Some 0)) eqn:E0.
  - destruct new as [n |]; [| discriminate]. cbn in E0. apply Z.eqb_eq in E0. subst n.
    rewrite (bind_run (modify_db _) _ s tt _ eq_refl).
    exact (Hfinish None _ _ eq_refl ltac:(discriminate) _ eq_refl).
  - destruct new as [n |]; [| reflexivity].
    rewrite sqlite_int_run. destruct (int64 n); [| reflexivity].
    destruct (Table_query_first n (db s)); [| reflexivity].
    rewrite (bind_run (modify_db _) _ s tt _ eq_refl).
    unfold moved_message. cbn [option_Z_eqb] in *. rewrite E0.
    exact (Hfinish (Some n) _ _ eq_refl (fun _ => eq_refl) _ eq_refl).
Qed.

Lemma Student_query_get_id sid d st :
  Student_query_get sid d = Some st -> In st (students d) /\ Student.id st = sid.
Proof.
  intros H. apply find_some in H. destruct H as [Hin E]. apply Z.eqb_eq in E. auto.
Qed.

(** X5: a manual reassignment keeps the cached counts right.  When every
    table's current_count equals the number of its students (ids and table
    numbers unique, no table numbered 0, which the table forms refuse), the
    same holds after [change_student_table], whatever the request: unknown
    student, unknown table, 0 to unassign, or a real move.  A request whose
    ints SQLite can bind is answered; one with an int it cannot bind (a
    student id or a table number outside 64 bits) ends in OverflowError with
    nothing written. *)
Theorem change_student_table_keeps_counts :
  forall (student_id : Z) (new_table_number : option Z) (s : State),
    keys_ok (db s) ->
    ~ In 0 (map Table.table_number (tables (db s))) ->
    counts_ok (db s) ->
    exists r s',
      change_student_table student_id new_table_number s = (r, s') /\
      counts_ok (db s') /\
      keys_ok (db s') /\
      map Table.table_number (tables (db s')) = map Table.table_number (tables (db s)) /\
      ((exists h, r = Ok h) \/ (r = Raise too_large /\ s' = s)) /\
      (int64 student_id = true ->
       (forall n, new_table_number = Some n -> int64 n = true) ->
       exists h, r = Ok h).
Proof.
  intros sid new s Hkeys Hzero Hok.
  rewrite (change_student_table_run sid new s Hkeys).
  assert (Hraise : exists (r : result http) s',
            (@Raise http too_large, s) = (r, s') /\
            counts_ok (db s') /\ keys_ok (db s') /\
            map Table.table_number (tables (db s'))
            = map Table.table_number (tables (db s)) /\
            ((exists h, r = Ok h) \/ (r = Raise too_large /\ s' = s))).
  { eexists _, _. split; [reflexivity |]. auto 6. }
  assert (Hsame : forall (h : http) fl, exists (r : result http) s',
            (Ok h, mkState (db s) (rand s) fl) = (r, s') /\
            counts_ok (db s') /\ keys_ok (db s') /\
            map Table.table_number (tables (db s'))
            = map Table.table_number (tables (db s)) /\
            ((exists h, r = Ok h) \/ (r = Raise too_large /\ s' = s)) /\
            (int64 sid = true ->
             (forall n, new = Some n -> int64 n = true) -> exists h, r = Ok h)).
  { intros h fl. eexists _, _. split; [reflexivity |]. cbn [db].
    repeat (split; [assumption || reflexivity |]). split; eauto. }
  destruct (int64 sid) eqn:Esid.
  2:{ destruct Hraise as (r & s' & E & H1 & H2 & H3 & H4).
      exists r, s'. repeat (split; [assumption |]). intros; discriminate. }
  destruct (Student_query_get sid (db s)) as [st |] eqn:Hget.
  2:{ destruct s as [d g fl]. apply (Hsame (Abort 404) fl). }
  destruct (Student_query_get_id _ _ _ Hget) as [_ Hid]. rewrite Hid.
  destruct (option_Z_eqb new (Some 0)).
  { eexists _, _. split; [reflexivity |]. cbn [db].
    destruct (reassigned_ok sid None (db s) st Hkeys Hzero Hok Hget) as (H1 & H2 & H3).
    repeat (split; [assumption |]). split; eauto. }
  destruct new as [n |]; [| apply Hsame].
  destruct (int64 n) eqn:En.
  2:{ destruct Hraise as (r & s' & E & H1 & H2 & H3 & H4).
      exists r, s'. repeat (split; [assumption |]).
      intros _ Hn. specialize (Hn n eq_refl). congruence. }
  destruct (Table_query_first n (db s)); [| apply Hsame].
  eexists _, _. split; [reflexivity |]. cbn [db].
  destruct (reassigned_ok sid (Some n) (db s) st Hkeys Hzero Hok Hget) as (H1 & H2 & H3).
  repeat (split; [assumption |]). split; eauto.
Qed.

Lemma seated_keys_ok : keys_ok (db seated_state).
Proof.
  unfold keys_ok. cbn.
  repeat split; (apply NoDup_cons; [intros [] | apply NoDup_nil]).
Qed.

Lemma seated_counts_ok : counts_ok (db seated_state).
Proof.
  apply Forall_cons; [vm_compute; reflexivity | apply Forall_nil].
Qed.

Lemma change_student_table_keeps_counts_seated :
  exists r s',
    change_student_table 1 (Some 0) seated_state = (r, s') /\
    counts_ok (db s') /\
    exists h, r = Ok h.
Proof.
  destruct (change_student_table_keeps_counts 1 (Some 0) seated_state seated_keys_ok)
    as (r & s' & Hrun & Hok & _ & _ & _ & Hans).
  - cbn. intros [H | []]. discriminate.
  - exact seated_counts_ok.
  - exists r, s'. split; [exact Hrun |]. split; [exact Hok |].
    apply Hans; [reflexivity |]. intros n E. inversion E. reflexivity.
Defined.

Lemma refreshed_frame tn d :
  map table_identity (tables (refreshed tn d)) = map table_identity (tables d) /\
  schedule_of (refreshed tn d) = schedule_of d.
Proof.
  unfold refreshed. destruct (truthy tn); [| split; reflexivity].
  destruct tn as [n |]; [| split; reflexivity].
  split; [| reflexivity].
  unfold recount_number. cbn [tables with_tables]. rewrite map_map.
  apply map_ext. intros tb. now destruct (_ =? _).
Qed.

Lemma reassigned_frame sid old tn d :
  students (reassigned sid old tn d)
  = map (fun x => if Student.id x =? sid then Student.with_table_number tn x else x)
        (students d) /\
  map table_identity (tables (reassigned sid old tn d)) = map table_identity (tables d) /\
  schedule_of (reassigned sid old tn d) = schedule_of d.
Proof.
  unfold reassigned.
  destruct (refreshed_frame tn (refreshed old (Student_set_table_number sid tn d)))
    as [Ht1 Hs1].
  destruct (refreshed_frame old (Student_set_table_number sid tn d)) as [Ht2 Hs2].
  rewrite !refreshed_students, Ht1, Ht2, Hs1, Hs2. repeat split.
Qed.

(** X6: what a manual reassignment of an existing student changes.  When
    the posted number is 0, missing or an int SQLite can bind, the request is
    answered and the student's table_number becomes NULL when 0 is posted, the
    posted number when a table has it, and stays as it is when no table has it
    (or no number was posted); no other student row changes; tables keep their
    ids, numbers and capacities; terms, weekly and daily rows are untouched.
    A posted number other than 0 that does not fit 64 bits ends the request in
    OverflowError at the lookup of the table, with nothing written. *)
Theorem change_student_table_effect :
  forall (student_id : Z) (new_table_number : option Z) (s : State) (st : Student.t),
    keys_ok (db s) ->
    int64 student_id = true ->
    Student_query_get student_id (db s) = Some st ->
    ((forall n, new_table_number = Some n -> n = 0 \/ int64 n = true) ->
     exists s',
       change_student_table student_id new_table_number s
       = (Ok (Redirect "students"), s') /\
       students (db s')
       = map (fun x => if Student.id x =? student_id
                       then Student.with_table_number
                              (requested_table new_table_number (db s) st) x
                       else x)
             (students (db s)) /\
       map table_identity (tables (db s')) = map table_identity (tables (db s)) /\
       schedule_of (db s') = schedule_of (db s)) /\
    (forall n, new_table_number = Some n -> n <> 0 -> int64 n = false ->
               change_student_table student_id new_table_number s
               = (Raise too_large, s)).
Proof.
  intros sid new s st Hkeys Hsid Hget.
  rewrite (change_student_table_run sid new s Hkeys), Hsid, Hget.
  destruct (Student_query_get_id _ _ _ Hget) as [Hin Hid].
  split.
  2:{ intros n -> Hn En. cbn [option_Z_eqb].
      destruct (Z.eqb_spec n 0) as [| _]; [contradiction |]. now rewrite En. }
  intros Hfits.
  assert (Hsame :
    students (db s)
    = map (fun x => if Student.id x =? sid
                    then Student.with_table_number (Student.table_number st) x
                    else x) (students (db s))).
  { rewrite <- (map_id (students (db s))) at 1. apply map_ext_in. intros x Hx.
    destruct (Z.eqb_spec (Student.id x) sid) as [E | _]; [| reflexivity].
    assert (x = st).
    { destruct Hkeys as [Hnd _]. revert Hnd Hx Hin E Hid. clear.
      induction (students (db s)) as [| y l IH]; [intros _ [] |].
      cbn [map]. intros Hnd Hx Hin E Hid. apply NoDup_cons_iff in Hnd.
      destruct Hnd as [Hy Hnd].
      destruct Hx as [-> | Hx], Hin as [<- | Hin]; auto.
      - exfalso. apply Hy. apply in_map_iff. exists st. split; [congruence | exact Hin].
      - exfalso. apply Hy. apply in_map_iff. exists x. split; [congruence | exact Hx]. }
    subst x. now destruct st. }
  unfold requested_table. rewrite Hid.
  destruct (option_Z_eqb new (Some 0)) eqn:E0.
  { eexists. split; [reflexivity |]. cbn [db]. apply reassigned_frame. }
  destruct new as [n |].
  2:{ eexists. split; [reflexivity |]. cbn [db].
      split; [exact Hsame | split; reflexivity]. }
  assert (En : int64 n = true).
  { destruct (Hfits n eq_refl) as [-> | H]; [| exact H]. discriminate E0. }
  rewrite En.
  destruct (Table_query_first n (db s)).
  2:{ eexists. split; [reflexivity |]. cbn [db].
      split; [exact Hsame | split; reflexivity]. }
  eexists. split; [reflexivity |]. cbn [db]. apply reassigned_frame.
Qed.

Lemma change_student_table_effect_seated :
  (exists s',
     change_student_table 1 (Some 9) seated_state = (Ok (Redirect "students"), s') /\
     map Student.table_number (students (db s')) = [Some 1]) /\
  change_student_table 1 (Some (2 ^ 63)) seated_state = (Raise too_large, seated_state).
Proof.
  destruct (change_student_table_effect 1 (Some 9) seated_state
              (Student.mk 1 "S001" "An" (Some 9) (Some "F") (Some "VN") (Some 1))
              seated_keys_ok eq_refl eq_refl) as [Hin _].
  destruct (change_student_table_effect 1 (Some (2 ^ 63)) seated_state
              (Student.mk 1 "S001" "An" (Some 9) (Some "F") (Some "VN") (Some 1))
              seated_keys_ok eq_refl eq_refl) as [_ Hout].
  split.
  - destruct Hin as (s' & Hrun & Hst & _).
    + intros n E. inversion E. right. reflexivity.
    + exists s'. split; [exact Hrun |]. rewrite Hst. reflexivity.
  - apply (Hout (2 ^ 63)); [reflexivity | discriminate | reflexivity].
Defined.

(** ** Computations that leave the rows alone *)

Lemma keeps_db_ret {A} (a : A) : keeps_db (ret a).
Proof. intros s x s' H. run_inv H. auto. Qed.

Lemma keeps_db_lift {A} (r : result A) : keeps_db (lift r).
Proof. intros s x s' H. run_inv H. auto. Qed.

Lemma keeps_db_with_random {A} (f : rng -> A * rng) : keeps_db (with_random f).
Proof. intros s x s' H. run_inv H. auto. Qed.

Lemma keeps_db_bind {A B} (m : M A) (f : A -> M B) :
  keeps_db m -> (forall a, keeps_db (f a)) -> keeps_db (bind m f).
Proof.
  intros Hm Hf s b s' H. apply bind_Ok in H. destruct H as (a & s1 & H1 & H2).
  apply Hm in H1. apply Hf in H2. destruct H1 as [E1 E2], H2 as [E3 E4].
  split; congruence.
Qed.

Lemma keeps_db_for_loop {A L} (xs : list A) (body : A -> L -> M L) :
  (forall x l, keeps_db (body x l)) -> forall l, keeps_db (for_loop xs body l).
Proof.
  intros Hb. induction xs as [| x xs IH]; intros l; cbn [for_loop].
  - apply keeps_db_ret.
  - apply keeps_db_bind; [apply Hb | exact IH].
Qed.

Lemma keeps_db_assign_to t st l : keeps_db (assign_to t st l).
Proof.
  unfold assign_to. apply keeps_db_bind; [apply keeps_db_lift |].
  intros a. apply keeps_db_ret.
Qed.

Lemma keeps_db_place_student st l : keeps_db (place_student st l).
Proof.
  unfold place_student. apply keeps_db_bind.
  - apply keeps_db_for_loop. intros t best. unfold score_table.
    apply keeps_db_bind; [apply keeps_db_lift |]. intros cur.
    apply keeps_db_bind; [apply keeps_db_with_random |]. intros j.
    destruct (float_lt _ _); apply keeps_db_ret.
  - intros best. destruct (fst best) as [t |]; [| apply keeps_db_ret].
    destruct (t =? 0); [apply keeps_db_ret | apply keeps_db_assign_to].
Qed.

Lemma keeps_db_place_group sts : forall l, keeps_db (place_group sts l).
Proof.
  induction sts as [| st sts IH]; intros l; cbn [place_group];
    [apply keeps_db_ret |].
  destruct (dict_keys (fst l)); [apply keeps_db_ret |].
  apply keeps_db_bind; [apply keeps_db_place_student | exact IH].
Qed.

Lemma keeps_db_place_grade by_grade g l : keeps_db (place_grade by_grade g l).
Proof.
  unfold place_grade. apply keeps_db_bind; [apply keeps_db_with_random |].
  intros sts. apply keeps_db_place_group.
Qed.

Lemma keeps_db_place_remaining table_list x l :
  keeps_db (place_remaining table_list x l).
Proof.
  unfold place_remaining. destruct x as [idx st].
  apply keeps_db_bind; [apply keeps_db_lift |]. intros i.
  apply keeps_db_bind; [apply keeps_db_lift |]. intros t.
  apply keeps_db_assign_to.
Qed.

(** ** The recount, exactly *)

Lemma seated_among_students studs d d' n :
  students d' = students d -> seated_among studs d' n = seated_among studs d n.
Proof.
  intros E. unfold seated_among, current_table_number, Student_query_get.
  now rewrite E.
Qed.

Lemma count_if_Permutation {A} (p : A -> bool) l l' :
  Permutation l l' -> count_if p l = count_if p l'.
Proof.
  unfold count_if, len. intros P. f_equal.
  induction P as [| x l l' P IH | x y l | l l' l'' P1 IH1 P2 IH2]; cbn [filter].
  - reflexivity.
  - destruct (p x); cbn [List.length]; congruence.
  - destruct (p x), (p y); reflexivity.
  - congruence.
Qed.

Lemma recount_tables_exact tabs studs : forall s,
  recount_tables tabs studs s
  = (Ok tt, mkState (recount_fold tabs studs (db s)) (rand s) (flashed s)).
Proof.
  unfold recount_tables, recount_fold.
  induction tabs as [| tb tabs IH]; intros s; cbn [for_loop fold_left].
  - destruct s. reflexivity.
  - rewrite (bind_run _ _ s tt
               (mkState
                  (Table_set_current_count (Table.id tb)
                     (seated_among studs (db s) (Table.table_number tb)) (db s))
                  (rand s) (flashed s))) by reflexivity.
    now rewrite IH.
Qed.

Lemma recount_fold_spec tabs studs : forall d,
  NoDup (map Table.id tabs) ->
  students (recount_fold tabs studs d) = students d /\
  schedule_of (recount_fold tabs studs d) = schedule_of d /\
  tables (recount_fold tabs studs d)
  = map (fun tb =>
           match find (fun t => Table.id t =? Table.id tb) tabs with
           | Some t =>
               Table.with_current_count
                 (seated_among studs d (Table.table_number t)) tb
           | None => tb
           end) (tables d).
Proof.
  unfold recount_fold.
  induction tabs as [| t tabs IH]; intros d Hnd; cbn [fold_left find].
  - split; [reflexivity |]. split; [reflexivity |]. now rewrite map_id.
  - cbn [map] in Hnd. apply NoDup_cons_iff in Hnd. destruct Hnd as [Ht Hnd].
    set (d1 := Table_set_current_count (Table.id t)
                 (seated_among studs d (Table.table_number t)) d).
    destruct (IH d1 Hnd) as (Hs & Hsch & Htb).
    split; [now rewrite Hs |]. split; [now rewrite Hsch |].
    rewrite Htb. unfold d1 at 2. unfold Table_set_current_count.
    cbn [tables with_tables]. rewrite map_map. apply map_ext. intros tb.
    destruct (Z.eqb_spec (Table.id tb) (Table.id t)) as [E | E].
    + cbn [Table.with_current_count Table.id]. rewrite <- E, Z.eqb_refl.
      destruct (find _ tabs) as [t' |] eqn:F; [| reflexivity].
      exfalso. apply find_some in F. destruct F as [Hin F].
      apply Z.eqb_eq in F. apply Ht. rewrite <- E, <- F. now apply in_map.
    + destruct (Z.eqb_spec (Table.id t) (Table.id tb)) as [E' | _];
        [congruence |].
      destruct (find _ tabs) as [t' |]; [| reflexivity].
      now rewrite (seated_among_students studs d d1).
Qed.

Lemma find_by_id (l : list Table.t) tb :
  NoDup (map Table.id l) -> In tb l ->
  find (fun t => Table.id t =? Table.id tb) l = Some tb.
Proof.
  intros Hnd Hin.
  destruct (find _ l) as [t |] eqn:F.
  - apply find_some in F. destruct F as [Ht F]. apply Z.eqb_eq in F.
    f_equal. eapply NoDup_map_eq; eassumption.
  - exfalso. apply (find_none _ _ F) in Hin. now rewrite Z.eqb_refl in Hin.
Qed.

(** Every table recounted over the very tables of [d]. *)
Lemma recount_fold_all tabs studs d :
  Permutation tabs (tables d) ->
  NoDup (map Table.id (tables d)) ->
  tables (recount_fold tabs studs d)
  = map (fun tb => Table.with_current_count
                     (seated_among studs d (Table.table_number tb)) tb)
        (tables d).
Proof.
  intros P Hnd.
  assert (Hnd' : NoDup (map Table.id tabs)).
  { apply (Permutation_NoDup (l := map Table.id (tables d)));
      [apply Permutation_map, Permutation_sym, P | exact Hnd]. }
  destruct (recount_fold_spec tabs studs d Hnd') as (_ & _ & ->).
  apply map_ext_in. intros tb Hin.
  rewrite (find_by_id tabs tb Hnd'); [reflexivity |].
  apply (Permutation_in _ (Permutation_sym P)), Hin.
Qed.

(** The counts a run that places someone leaves: each table's is the number
    of the run's students whose row now names it. *)
Lemma distribute_tables s b s' :
  distribute_students_to_tables_smart s = (Ok b, s') ->
  Student_query_unassigned (db s) <> [] ->
  tables (db s) <> [] ->
  NoDup (map Table.id (tables (db s))) ->
  tables (db s')
  = map (fun tb =>
           Table.with_current_count
             (seated_among (Student_query_unassigned (db s)) (db s')
                (Table.table_number tb)) tb)
        (tables (db s)).
Proof.
  intros H HU Htabs Hnd. unfold distribute_students_to_tables_smart in H.
  apply bind_Ok in H. destruct H as (d0 & s0 & Hd & H). run_inv Hd.
  pose proof (order_by_table_number_Permutation (tables (db s))) as Hord.
  fold (Table_query_ordered (db s)) in Hord.
  destruct (Table_query_ordered (db s)) as [| tb0 tabs0] eqn:Etabs.
  { exfalso. apply Htabs. now apply Permutation_nil in Hord. }
  destruct (Student_query_unassigned (db s)) as [| st0 rest] eqn:EU;
    [congruence |].
  rewrite <- Etabs, <- EU in *. clear HU Htabs.
  set (U := Student_query_unassigned (db s)) in *.
  set (tabs := Table_query_ordered (db s)) in *.
  unfold distribute_some in H.
  apply bind_Ok in H. destruct H as (studs & sa & Hsh & H).
  rewrite with_random_run in Hsh. inversion Hsh; subst studs sa; clear Hsh.
  apply bind_Ok in H. destruct H as (gks & sb & Hshk & H).
  rewrite with_random_run in Hshk. inversion Hshk; subst gks sb; clear Hshk.
  apply bind_Ok in H. destruct H as (l1 & s1 & Hg & H).
  apply keeps_db_for_loop in Hg; [| intros; apply keeps_db_place_grade].
  cbn [db flashed] in Hg. destruct Hg as [Hdb1 Hfl1].
  apply bind_Ok in H. destruct H as (rems & s2 & Hshr & H).
  rewrite with_random_run in Hshr. inversion Hshr; subst rems s2; clear Hshr.
  apply bind_Ok in H. destruct H as (l2 & s3 & Hr & H).
  apply keeps_db_for_loop in Hr; [| intros; apply keeps_db_place_remaining].
  cbn [db flashed] in Hr. destruct Hr as [Hdb3 Hfl3].
  apply bind_Ok in H. destruct H as (u & s4 & Hw & H).
  rewrite write_assignments_run in Hw. inversion Hw; subst u s4; clear Hw.
  apply bind_Ok in H. destruct H as (u & s5 & Hrc & H).
  rewrite recount_tables_exact in Hrc. inversion Hrc; subst u s5; clear Hrc.
  unfold try_except, commit in H. cbn in H. inversion H; subst b s'; clear H.
  cbn [db set_students rand flashed].
  rewrite Hdb3, Hdb1.
  set (d4 := with_students _ (db s)).
  set (studs := fst (shuffle U (rand s))).
  rewrite (recount_fold_all tabs studs d4); [| exact Hord | exact Hnd].
  cbn [tables d4 with_students]. apply map_ext. intros tb. f_equal.
  rewrite (seated_among_students U d4 (recount_fold tabs studs d4)).
  - unfold seated_among. apply count_if_Permutation, shuffle_Permutation.
  - apply recount_fold_spec.
    apply (Permutation_NoDup (l := map Table.id (tables (db s))));
      [apply Permutation_map, Permutation_sym, Hord | exact Hnd].
Qed.

(** ** Counting the newcomers *)

Lemma find_student_by_id (l : list Student.t) r :
  NoDup (map Student.id l) -> In r l ->
  find (fun x => Student.id x =? Student.id r) l = Some r.
Proof.
  intros Hnd Hin.
  destruct (find _ l) as [x |] eqn:F.
  - apply find_some in F. destruct F as [Hx F]. apply Z.eqb_eq in F.
    f_equal. eapply NoDup_map_eq; eassumption.
  - exfalso. apply (find_none _ _ F) in Hin. now rewrite Z.eqb_refl in Hin.
Qed.

Lemma current_written ta d d' r :
  students d' = map (written ta) (students d) ->
  NoDup (map Student.id (students d)) ->
  In r (students d) ->
  current_table_number d' r = Student.table_number (written ta r).
Proof.
  intros E Hnd Hin. unfold current_table_number, Student_query_get.
  rewrite E, find_written, (find_student_by_id _ _ Hnd Hin). reflexivity.
Qed.

Lemma count_if_ext_in {A} (p q : A -> bool) l :
  (forall x, In x l -> p x = q x) -> count_if p l = count_if q l.
Proof.
  intros H. unfold count_if. f_equal. induction l as [| x l IH]; [reflexivity |].
  cbn [filter]. rewrite (H x (or_introl eq_refl)), IH; [reflexivity |].
  intros y Hy. apply H. now right.
Qed.

(** When the writes only touch students that had no table, a table has
    afterwards the students it had and the newcomers. *)
Lemma newcomers_count (f : Student.t -> Student.t) n : forall l,
  (forall r, In r l -> Student.table_number r <> None -> f r = r) ->
  count_if (fun r => option_Z_eqb (Student.table_number (f r)) (Some n))
           (filter (fun r => option_Z_eqb (Student.table_number r) None) l)
  = len (filter (fun r => option_Z_eqb (Student.table_number r) (Some n)) (map f l))
    - len (filter (fun r => option_Z_eqb (Student.table_number r) (Some n)) l).
Proof.
  unfold count_if, len.
  induction l as [| r l IH]; intros Hf; [reflexivity |].
  assert (IH' := IH (fun x Hx => Hf x (or_intror Hx))). clear IH.
  cbn [map filter].
  destruct (Student.table_number r) as [m |] eqn:Er.
  - rewrite (Hf r (or_introl eq_refl)) by congruence. rewrite Er.
    cbn [option_Z_eqb]. destruct (m =? n); cbn [List.length]; lia.
  - cbn [option_Z_eqb filter].
    destruct (option_Z_eqb (Student.table_number (f r)) (Some n));
      cbn [List.length]; lia.
Qed.

(** A run that places someone: where the students end, and what the tables
    then count. *)
Lemma distribute_outcome s :
  Student_query_unassigned (db s) <> [] ->
  tables (db s) <> [] ->
  keys_ok (db s) ->
  exists s',
    distribute_students_to_tables_smart s = (Ok true, s') /\
    Forall2
      (fun before after =>
         after = Student.with_table_number (Student.table_number after) before /\
         (Student.table_number before = None ->
          exists tb, In tb (tables (db s)) /\
                     Student.table_number after = Some (Table.table_number tb)) /\
         (Student.table_number before <> None -> after = before))
      (students (db s)) (students (db s')) /\
    tables (db s')
    = map (fun tb =>
             Table.with_current_count
               (len (Student_query_by_table (Table.table_number tb) (db s'))
                - len (Student_query_by_table (Table.table_number tb) (db s))) tb)
          (tables (db s)) /\
    schedule_of (db s') = schedule_of (db s).
Proof.
  intros HU Htabs (Hpk & Hids & _).
  destruct (Student_query_unassigned (db s)) as [| st0 rest] eqn:EU; [congruence |].
  destruct (distribute_run s st0 rest EU Htabs Hpk) as
    (lf & s' & Hrun & Hst & Hterms & Hweekly & Hdaily & Hco & Hevery & _ & Hkeys & _).
  destruct Hco as (Hperm & _ & Hsub).
  assert (Hkeep : forall r, In r (students (db s)) ->
                            Student.table_number r <> None ->
                            written (fst lf) r = r).
  { intros r Hr Hn. unfold written.
    destruct (owner (fst lf) (Student.id r)) as [k |] eqn:Hk; [| reflexivity].
    exfalso. apply owner_Some in Hk. destruct Hk as (_ & st & Hst' & Hid).
    apply Hsub, unassigned_In in Hst'. destruct Hst' as [Hin Hnone].
    assert (E : st = r) by (eapply NoDup_map_eq; eassumption).
    subst st. contradiction. }
  exists s'. split; [exact Hrun |]. split; [| split].
  - rewrite Hst. apply Forall2_map_r.
    intros r Hr. split; [| split; [| now apply Hkeep]].
    { unfold written. destruct (owner (fst lf) (Student.id r)); now destruct r. }
    intros Hn.
    assert (Hin : In r (Student_query_unassigned (db s)))
      by (apply unassigned_In; auto).
    apply Hevery in Hin.
    apply (Permutation_in _ (Permutation_sym Hperm)) in Hin.
    apply in_map_iff in Hin. destruct Hin as (st & Hid & Hst').
    destruct (owner_placed _ _ Hst') as [k Hk]. rewrite Hid in Hk.
    pose proof (owner_Some _ _ _ Hk) as [Hkin _].
    apply Hkeys, in_map_iff in Hkin. destruct Hkin as (tb & Htb & Hin').
    exists tb. split; [exact Hin' |]. unfold written. rewrite Hk, Htb. reflexivity.
  - rewrite (distribute_tables s true s' Hrun); [| congruence | exact Htabs | exact Hids].
    apply map_ext. intros tb. f_equal.
    unfold seated_among, Student_query_by_table. rewrite Hst.
    rewrite <- (newcomers_count (written (fst lf)) (Table.table_number tb)
                  (students (db s)) Hkeep).
    apply count_if_ext_in. intros r Hr. apply unassigned_In in Hr. destruct Hr as [Hr _].
    now rewrite (current_written (fst lf) (db s) (db s') r Hst Hpk Hr).
  - unfold schedule_of. now rewrite Hterms, Hweekly, Hdaily.
Qed.

(** X7: what the recount of a distribution run records.  When the run has
    someone to place, every table's current_count afterwards is the number
    of students the run added to it: the students of the table after the run
    less those it had before.  Ids, numbers and capacities stay. *)
Theorem distribution_counts_only_newcomers :
  forall s : State,
    keys_ok (db s) ->
    Student_query_unassigned (db s) <> [] ->
    tables (db s) <> [] ->
    exists s',
      distribute_students_to_tables_smart s = (Ok true, s') /\
      tables (db s')
      = map (fun tb =>
               Table.with_current_count
                 (len (Student_query_by_table (Table.table_number tb) (db s'))
                  - len (Student_query_by_table (Table.table_number tb) (db s))) tb)
            (tables (db s)).
Proof.
  intros s Hkeys HU Htabs.
  destruct (distribute_outcome s HU Htabs Hkeys) as (s' & Hrun & _ & Htb & _).
  exists s'. split; assumption.
Qed.

Lemma mixed_keys_ok : keys_ok mixed_db.
Proof.
  unfold keys_ok. cbn. split; [| split].
  - apply NoDup_cons; [intros [H | []]; discriminate |].
    apply NoDup_cons; [intros [] | apply NoDup_nil].
  - apply NoDup_cons; [intros [] | apply NoDup_nil].
  - apply NoDup_cons; [intros [] | apply NoDup_nil].
Qed.

Lemma distribution_counts_only_newcomers_mixed :
  exists s',
    distribute_students_to_tables_smart (mkState mixed_db [] []) = (Ok true, s') /\
    tables (db s')
    = map (fun tb =>
             Table.with_current_count
               (len (Student_query_by_table (Table.table_number tb) (db s'))
                - len (Student_query_by_table (Table.table_number tb) mixed_db)) tb)
          (tables mixed_db).
Proof.
  apply (distribution_counts_only_newcomers (mkState mixed_db [] [])).
  - exact mixed_keys_ok.
  - cbn. discriminate.
  - cbn. discriminate.
Defined.

(** ** Clearing and redistributing *)

Lemma move_students_run l tn : forall s,
  move_students l tn s
  = (Ok tt,
     set_students
       (map (fun r => if existsb (fun x => Student.id r =? Student.id x) l
                      then Student.with_table_number tn r else r)
            (students (db s))) s).
Proof.
  unfold move_students.
  induction l as [| x l IH]; intros s; cbn [for_loop existsb].
  - rewrite map_id. now rewrite set_students_same.
  - rewrite (bind_run _ _ s tt
               (mkState (Student_set_table_number (Student.id x) tn (db s))
                        (rand s) (flashed s))) by reflexivity.
    rewrite IH. unfold set_students, with_students, Student_set_table_number.
    cbn [db rand flashed students tables terms weekly_duty_assignments daily_duties
         with_students].
    rewrite map_map. do 3 f_equal. apply map_ext. intros r.
    destruct (Student.id r =? Student.id x); cbn [orb Student.with_table_number Student.id];
      [| reflexivity].
    now destruct (existsb _ l).
Qed.

Lemma existsb_self (l : list Student.t) r :
  In r l -> existsb (fun x => Student.id r =? Student.id x) l = true.
Proof.
  intros H. apply existsb_exists. exists r. split; [exact H | apply Z.eqb_refl].
Qed.

Lemma clear_counts_run l : forall s,
  for_loop l
    (fun table (_ : unit) => modify_db (Table_set_current_count (Table.id table) 0))
    tt s
  = (Ok tt,
     mkState
       (with_tables
          (map (fun tb => if existsb (fun x => Table.id tb =? Table.id x) l
                          then Table.with_current_count 0 tb else tb)
               (tables (db s))) (db s))
       (rand s) (flashed s)).
Proof.
  induction l as [| x l IH]; intros s; cbn [for_loop existsb].
  - rewrite map_id. destruct s as [[st tb tm wk dl] g fl]. reflexivity.
  - rewrite (bind_run _ _ s tt
               (mkState (Table_set_current_count (Table.id x) 0 (db s))
                        (rand s) (flashed s))) by reflexivity.
    rewrite IH. unfold with_tables, Table_set_current_count.
    cbn [db rand flashed students tables terms weekly_duty_assignments daily_duties
         with_tables].
    rewrite map_map. do 3 f_equal. apply map_ext. intros r.
    destruct (Table.id r =? Table.id x); cbn [orb Table.with_current_count Table.id];
      [| reflexivity].
    now destruct (existsb _ l).
Qed.

Lemma redistribute_run s :
  tables (db s) <> [] ->
  redistribute s
  = let (r, s') :=
      distribute_students_to_tables_smart
        (mkState (cleared (db s)) (rand s) (flashed s)) in
    (match r with
     | Ok _ => Ok (Redirect "tables")
     | Raise e => Raise e
     | Diverge => Diverge
     end, s').
Proof.
  intros Htabs. unfold redistribute.
  rewrite (bind_run _ _ s (db s) s) by reflexivity.
  assert (E : (len (tables (db s)) =? 0) = false).
  { unfold len. destruct (tables (db s)); [congruence |].
    cbn [List.length]. apply Z.eqb_neq. lia. }
  rewrite E.
  rewrite (bind_run _ _ _ _ _ (move_students_run _ _ s)).
  rewrite (bind_run _ _ _ _ _ (clear_counts_run _ _)).
  unfold try_except, commit.
  match goal with |- bind _ _ ?s1 = _ =>
    rewrite (bind_run _ _ s1 true s1) by reflexivity;
    assert (Es : s1 = mkState (cleared (db s)) (rand s) (flashed s))
  end.
  { unfold cleared, set_students, with_students, with_tables.
    cbn [db rand flashed students tables terms weekly_duty_assignments daily_duties].
    do 2 f_equal.
    - apply map_ext_in. intros r Hr. now rewrite (existsb_self _ _ Hr).
    - apply map_ext_in. intros tb Htb.
      assert (Ex : existsb (fun x => Table.id tb =? Table.id x) (tables (db s)) = true).
      { apply existsb_exists. exists tb. split; [exact Htb | apply Z.eqb_refl]. }
      now rewrite Ex. }
  rewrite Es. unfold bind.
  destruct (distribute_students_to_tables_smart _) as [[b | e |] s']; reflexivity.
Qed.

Lemma cleared_keys d : keys_ok d -> keys_ok (cleared d).
Proof.
  unfold keys_ok, cleared. cbn [students tables]. rewrite !map_map. cbn. auto.
Qed.

Lemma cleared_unassigned d :
  Student_query_unassigned (cleared d) = students (cleared d).
Proof.
  unfold Student_query_unassigned, cleared. cbn [students].
  induction (students d) as [| r l IH]; [reflexivity |].
  cbn [map filter Student.with_table_number Student.table_number option_Z_eqb].
  now rewrite IH.
Qed.

Lemma cleared_nobody_seated d n : Student_query_by_table n (cleared d) = [].
Proof.
  unfold Student_query_by_table, cleared. cbn [students].
  induction (students d) as [| r l IH]; [reflexivity |].
  cbn [map filter Student.with_table_number Student.table_number option_Z_eqb].
  exact IH.
Qed.

(** X8: a redistribution puts the cached counts right.  With at least one
    table (ids and numbers unique), [redistribute] succeeds, gives every
    student the number of an existing table and nothing else new, and leaves
    every table's current_count equal to the number of its students; tables
    keep their ids, numbers and capacities, and the schedule is untouched. *)
Theorem redistribute_seats_everyone_and_recounts :
  forall s : State,
    keys_ok (db s) ->
    tables (db s) <> [] ->
    exists s',
      redistribute s = (Ok (Redirect "tables"), s') /\
      Forall2
        (fun before after =>
           exists tb, In tb (tables (db s)) /\
                      after = Student.with_table_number
                                (Some (Table.table_number tb)) before)
        (students (db s)) (students (db s')) /\
      counts_ok (db s') /\
      map table_identity (tables (db s')) = map table_identity (tables (db s)) /\
      schedule_of (db s') = schedule_of (db s).
Proof.
  intros s Hkeys Htabs. rewrite (redistribute_run s Htabs).
  set (s1 := mkState (cleared (db s)) (rand s) (flashed s)).
  assert (Htabs1 : tables (db s1) <> []).
  { cbn. destruct (tables (db s)); [congruence | discriminate]. }
  assert (Hcounts : forall d', (forall n, len (Student_query_by_table n d')
                                           - len (Student_query_by_table n (cleared (db s)))
                                           = len (Student_query_by_table n d'))).
  { intros d' n. rewrite cleared_nobody_seated. unfold len at 2.
    cbn [List.length]. lia. }
  assert (Hident : map table_identity (tables (cleared (db s)))
                   = map table_identity (tables (db s))).
  { unfold cleared. cbn [tables]. rewrite map_map. apply map_ext. now intros []. }
  destruct (Student_query_unassigned (db s1)) as [| r0 l0] eqn:HU.
  - rewrite (distribute_without_students s1 Htabs1 HU).
    eexists. split; [reflexivity |]. cbn [db s1].
    cbn [db s1] in HU. rewrite cleared_unassigned in HU.
    split; [| split; [| split; [exact Hident | reflexivity]]].
    + unfold cleared in HU. cbn [students] in HU. apply map_eq_nil in HU.
      rewrite HU. unfold cleared. cbn [students]. rewrite HU. constructor.
    + unfold counts_ok. apply Forall_forall. intros tb Htb.
      unfold count_ok. rewrite cleared_nobody_seated.
      unfold cleared in Htb. cbn [tables] in Htb.
      apply in_map_iff in Htb. destruct Htb as (tb0 & <- & _). reflexivity.
  - assert (HU' : Student_query_unassigned (db s1) <> []) by (rewrite HU; discriminate).
    destruct (distribute_outcome s1 HU' Htabs1 (cleared_keys _ Hkeys))
      as (s' & Hrun & Hst & Htb & Hsch).
    rewrite Hrun. exists s'. split; [reflexivity |].
    cbn [db s1] in Hst, Htb, Hsch.
    split; [| split; [| split]].
    + assert (HT : forall tb, In tb (tables (cleared (db s))) ->
                              exists tb0, In tb0 (tables (db s)) /\
                                          Table.table_number tb0 = Table.table_number tb).
      { intros tb Hin. unfold cleared in Hin. cbn [tables] in Hin.
        apply in_map_iff in Hin. destruct Hin as (tb0 & <- & Hin0).
        exists tb0. split; [exact Hin0 | reflexivity]. }
      revert HT Hst. generalize (tables (cleared (db s))). intros T HT.
      unfold cleared. cbn [students].
      generalize (students (db s')).
      induction (students (db s)) as [| before l IH]; intros l' Hst;
        inversion Hst as [| ? after ? l'' (Hafter & Hseat & _) Hrest]; subst;
        constructor; [| now apply IH].
      destruct (Hseat eq_refl) as (tb & Hin & Htn).
      destruct (HT tb Hin) as (tb0 & Hin0 & E0).
      exists tb0. split; [exact Hin0 |].
      rewrite Hafter, Htn, E0. now destruct before.
    + unfold counts_ok. rewrite Htb. apply Forall_forall. intros tb Hin.
      apply in_map_iff in Hin. destruct Hin as (tb1 & <- & Hin1).
      unfold count_ok. cbn [Table.with_current_count Table.current_count
                            Table.table_number].
      apply Hcounts.
    + rewrite Htb, <- Hident, map_map. apply map_ext. now intros [].
    + exact Hsch.
Qed.

Lemma redistribute_mixed :
  exists s',
    redistribute (mkState mixed_db [] []) = (Ok (Redirect "tables"), s') /\
    counts_ok (db s').
Proof.
  destruct (redistribute_seats_everyone_and_recounts (mkState mixed_db [] []))
    as (s' & Hrun & _ & Hok & _).
  - exact mixed_keys_ok.
  - cbn. discriminate.
  - exists s'. split; assumption.
Defined.

(** ** The invariant of the seating *)

Lemma Table_query_first_None n d :
  Table_query_first n d = None <-> ~ In n (map Table.table_number (tables d)).
Proof.
  unfold Table_query_first. split.
  - intros F Hin. apply in_map_iff in Hin. destruct Hin as (tb & E & Hin).
    apply (find_none _ _ F) in Hin. cbn beta in Hin. rewrite E, Z.eqb_refl in Hin.
    discriminate.
  - intros Hn. destruct (find _ (tables d)) as [tb |] eqn:F; [| reflexivity].
    exfalso. apply find_some in F. destruct F as [Hin E]. apply Z.eqb_eq in E.
    apply Hn. rewrite <- E. now apply in_map.
Qed.

Lemma nobody_at n d :
  seats_ok d -> ~ In n (map Table.table_number (tables d)) ->
  Student_query_by_table n d = [].
Proof.
  unfold seats_ok, Student_query_by_table. intros Hs Hn.
  induction (students d) as [| r l IH]; [reflexivity |].
  inversion Hs as [| ? ? Hr Hl]; subst. cbn [filter].
  destruct (Student.table_number r) as [m |]; cbn [option_Z_eqb]; [| now apply IH].
  destruct (Z.eqb_spec m n) as [-> | _]; [contradiction | now apply IH].
Qed.

Lemma add_table_run table_number capacity s :
  add_table table_number capacity s
  = match table_number, capacity with
    | Some n, Some c =>
        if (n =? 0) || (c =? 0) then
          (Ok (Redirect "add_table"),
           mkState (db s) (rand s)
             (flashed s ++ [("Table number and capacity are required", "error")]))
        else if c <=? 0 then
          (Ok (Redirect "add_table"),
           mkState (db s) (rand s)
             (flashed s ++ [("Capacity must be greater than 0", "error")]))
        else if int64 n then
          match Table_query_first n (db s) with
          | Some _ =>
              (Ok (Redirect "add_table"),
               mkState (db s) (rand s)
                 (flashed s ++ [(("Table " ++ str_of_int n ++ " already exists")%string,
                                 "error")]))
          | None =>
              if int64 c then
                (Ok (Redirect "tables"),
                 mkState (Table_insert n c (db s)) (rand s)
                   (flashed s ++ [(("Table " ++ str_of_int n
                                    ++ " added successfully with capacity "
                                    ++ str_of_int c)%string, "success")]))
              else
                (Ok (Redirect "tables"),
                 mkState (db s) (rand s)
                   (flashed s ++ [(("Error adding table: "
                                    ++ exn_str too_large)%string, "error")]))
          end
        else (Raise too_large, s)
    | _, _ =>
        (Ok (Redirect "add_table"),
         mkState (db s) (rand s)
           (flashed s ++ [("Table number and capacity are required", "error")]))
    end.
Proof.
  unfold add_table, truthy.
  destruct table_number as [n |], capacity as [c |]; try reflexivity.
  - destruct (n =? 0); [reflexivity |]. destruct (c =? 0); [reflexivity |].
    cbn [negb orb]. destruct (c <=? 0); [reflexivity |].
    rewrite (bind_run _ _ s (db s) s) by reflexivity.
    rewrite sqlite_int_run. destruct (int64 n); [| reflexivity].
    destruct (Table_query_first n (db s)); [reflexivity |].
    rewrite (bind_run (modify_db _) _ s tt _ eq_refl).
    unfold bind at 1. rewrite try_sqlite_run.
    destruct (int64 c); reflexivity.
  - destruct (n =? 0); reflexivity.
Qed.

Lemma counts_ok_same_students d d' :
  students d' = students d ->
  Forall (count_ok d) (tables d') -> counts_ok d'.
Proof.
  intros E H. unfold counts_ok. eapply Forall_impl; [| exact H].
  intros tb. unfold count_ok, Student_query_by_table. now rewrite E.
Qed.

Lemma Table_insert_consistent n c d :
  consistent d -> n <> 0 -> ~ In n (map Table.table_number (tables d)) ->
  consistent (Table_insert n c d).
Proof.
  intros ((Hpk & Hids & Hnums) & Hzero & Hseats & Hcounts) Hn Hnew.
  unfold consistent, keys_ok, seats_ok, Table_insert.
  cbn [students tables with_tables]. rewrite !map_app. cbn [map Table.id Table.table_number].
  split; [split; [exact Hpk | split] | split; [| split]].
  - apply NoDup_app; [exact Hids | repeat constructor; intros [] |].
    intros i Hi [<- | []]. apply next_id_gt in Hi. lia.
  - apply NoDup_app; [exact Hnums | repeat constructor; intros [] |].
    intros k Hk [<- | []]. contradiction.
  - intros Hin. apply in_app_or in Hin. destruct Hin as [Hin | [E | []]];
      [contradiction | congruence].
  - eapply Forall_impl; [| exact Hseats]. cbn beta. intros st.
    destruct (Student.table_number st); [| trivial].
    intros Hin. apply in_or_app. now left.
  - apply (counts_ok_same_students d); [reflexivity |]. cbn [tables].
    apply Forall_app. split; [exact Hcounts |]. constructor; [| constructor].
    unfold count_ok. cbn [Table.current_count Table.table_number].
    now rewrite (nobody_at n d Hseats Hnew).
Qed.

(** X9: adding a table keeps the seating consistent.  From rows with unique
    ids and numbers, no table 0, every seat at an existing table and right
    counts, [add_table] leaves rows of the same kind whatever the form; the
    students and the schedule are untouched, and the tables are the ones
    before, or those and one new empty table with the posted number (not 0,
    not taken) and capacity (positive), both ints of 64 bits.  A form whose
    number SQLite can bind is answered (a capacity it cannot bind is reported
    as an error, the table is not added); a number it cannot bind ends the
    request in OverflowError at the lookup, with nothing written. *)
Theorem add_table_keeps_consistent :
  forall (table_number capacity : option Z) (s : State),
    consistent (db s) ->
    exists r s',
      add_table table_number capacity s = (r, s') /\
      consistent (db s') /\
      students (db s') = students (db s) /\
      schedule_of (db s') = schedule_of (db s) /\
      (tables (db s') = tables (db s) \/
       exists n c,
         table_number = Some n /\ capacity = Some c /\ n <> 0 /\ 0 < c /\
         int64 n = true /\ int64 c = true /\
         ~ In n (map Table.table_number (tables (db s))) /\
         tables (db s')
         = tables (db s) ++ [Table.mk (next_id (map Table.id (tables (db s)))) n c 0]) /\
      ((exists h, r = Ok h) \/ (r = Raise too_large /\ s' = s)) /\
      ((forall n, table_number = Some n -> int64 n = true) -> exists h, r = Ok h).
Proof.
  intros tn cap s Hc. rewrite add_table_run.
  assert (Hsame : forall (h : http) fl,
            exists r' s',
              (Ok h, mkState (db s) (rand s) fl) = (r', s') /\
              consistent (db s') /\
              students (db s') = students (db s) /\
              schedule_of (db s') = schedule_of (db s) /\
              (tables (db s') = tables (db s) \/
               exists n c,
                 tn = Some n /\ cap = Some c /\ n <> 0 /\ 0 < c /\
                 int64 n = true /\ int64 c = true /\
                 ~ In n (map Table.table_number (tables (db s))) /\
                 tables (db s')
                 = tables (db s)
                   ++ [Table.mk (next_id (map Table.id (tables (db s)))) n c 0]) /\
              ((exists h, r' = Ok h) \/ (r' = Raise too_large /\ s' = s)) /\
              ((forall n, tn = Some n -> int64 n = true) -> exists h, r' = Ok h)).
  { intros h fl. eexists _, _. split; [reflexivity |]. cbn [db].
    split; [exact Hc |]. split; [reflexivity |]. split; [reflexivity |].
    split; [now left |]. split; eauto. }
  destruct tn as [n |], cap as [c |]; try apply Hsame.
  destruct (Z.eqb_spec n 0) as [| Hn]; [apply Hsame |].
  destruct (Z.eqb_spec c 0) as [| Hc0]; [apply Hsame |]. cbn [orb].
  destruct (Z.leb_spec c 0) as [| Hpos]; [apply Hsame |].
  destruct (int64 n) eqn:En.
  2:{ eexists _, _. split; [reflexivity |].
      split; [exact Hc |]. split; [reflexivity |]. split; [reflexivity |].
      split; [now left |]. split; [now right |].
      intros H. specialize (H n eq_refl). congruence. }
  destruct (Table_query_first n (db s)) as [tb |] eqn:F; [apply Hsame |].
  destruct (int64 c) eqn:Ec; [| apply Hsame].
  apply Table_query_first_None in F.
  eexists _, _. split; [reflexivity |]. cbn [db].
  split; [now apply Table_insert_consistent |].
  split; [reflexivity |]. split; [reflexivity |].
  split; [| split; eauto].
  right. exists n, c. repeat (split; [assumption || reflexivity |]). reflexivity.
Qed.

Lemma seated_consistent : consistent (db seated_state).
Proof.
  split; [exact seated_keys_ok |]. split; [| split].
  - cbn. intros [H | []]. discriminate.
  - unfold seats_ok. cbn. constructor; [now left | constructor].
  - exact seated_counts_ok.
Qed.

Lemma add_table_keeps_consistent_seated :
  exists r s',
    add_table (Some 2) (Some 4) seated_state = (r, s') /\
    consistent (db s') /\
    exists h, r = Ok h.
Proof.
  destruct (add_table_keeps_consistent (Some 2) (Some 4) seated_state
              seated_consistent) as (r & s' & Hrun & Hc & _ & _ & _ & _ & Hans).
  exists r, s'. split; [exact Hrun |]. split; [exact Hc |].
  apply Hans. intros n E. inversion E. reflexivity.
Defined.

(** ** Moving the students of a table *)

Lemma reseat_id m tn r : Student.id (reseat m tn r) = Student.id r.
Proof. unfold reseat. now destruct (option_Z_eqb _ _). Qed.

Lemma reseat_same m r : reseat m (Some m) r = r.
Proof.
  unfold reseat. destruct r as [i sid nm g ge c [k |]]; cbn; [| reflexivity].
  destruct (Z.eqb_spec k m) as [-> | _]; reflexivity.
Qed.

Lemma move_table_run m tn s :
  NoDup (map Student.id (students (db s))) ->
  move_students (Student_query_by_table m (db s)) tn s
  = (Ok tt, set_students (map (reseat m tn) (students (db s))) s).
Proof.
  intros Hnd. rewrite move_students_run. do 2 f_equal.
  apply map_ext_in. intros r Hr. unfold reseat.
  destruct (option_Z_eqb (Student.table_number r) (Some m)) eqn:E.
  - rewrite existsb_self; [reflexivity |].
    unfold Student_query_by_table. apply filter_In. auto.
  - destruct (existsb _ _) eqn:Ex; [| reflexivity].
    exfalso. apply existsb_exists in Ex. destruct Ex as (x & Hx & Hid).
    apply Z.eqb_eq in Hid. unfold Student_query_by_table in Hx.
    apply filter_In in Hx. destruct Hx as [Hx Em].
    assert (r = x) by (eapply NoDup_map_eq; eassumption).
    subst x. congruence.
Qed.

Lemma by_table_reseat_other k m tn l :
  k <> m -> tn <> Some k ->
  filter (fun r => option_Z_eqb (Student.table_number r) (Some k)) (map (reseat m tn) l)
  = filter (fun r => option_Z_eqb (Student.table_number r) (Some k)) l.
Proof.
  intros Hk Htn. induction l as [| r l IH]; [reflexivity |].
  cbn [map filter]. rewrite IH. unfold reseat.
  destruct (Student.table_number r) as [j |] eqn:Er; cbn [option_Z_eqb].
  - destruct (Z.eqb_spec j m) as [-> | Hj].
    + cbn [Student.with_table_number Student.table_number].
      destruct (Z.eqb_spec m k) as [| _]; [congruence |].
      destruct tn as [t |]; cbn [option_Z_eqb]; [| reflexivity].
      destruct (Z.eqb_spec t k) as [| _]; [congruence | reflexivity].
    + now rewrite Er.
  - now rewrite Er.
Qed.

(** ** Deleting a table *)

Lemma delete_table_run id s :
  NoDup (map Student.id (students (db s))) ->
  delete_table id s
  = if int64 id then
      match Table_query_get id (db s) with
      | None => (Ok (Abort 404), s)
      | Some t =>
          (Ok (Redirect "tables"),
           mkState (deleted_table t (db s)) (rand s)
             (flashed s
              ++ [(("Table " ++ str_of_int (Table.table_number t)
                    ++ " deleted. Students have been unassigned.")%string, "info")]))
      end
    else (Raise too_large, s).
Proof.
  intros Hnd. unfold delete_table.
  rewrite (bind_run _ _ s (db s) s) by reflexivity.
  rewrite sqlite_int_run. destruct (int64 id); [| reflexivity].
  destruct (Table_query_get id (db s)) as [t |]; [| reflexivity].
  rewrite (bind_run _ _ _ _ _ (move_table_run _ _ s Hnd)).
  reflexivity.
Qed.

Lemma Table_query_get_In i d t :
  Table_query_get i d = Some t -> In t (tables d) /\ Table.id t = i.
Proof.
  intros H. apply find_some in H. destruct H as [Hin E]. apply Z.eqb_eq in E. auto.
Qed.

Lemma same_number_same_table d t t' :
  NoDup (map Table.table_number (tables d)) ->
  In t (tables d) -> In t' (tables d) ->
  Table.table_number t = Table.table_number t' -> t = t'.
Proof. intros. eapply NoDup_map_eq; eassumption. Qed.

Lemma deleted_table_consistent t d :
  consistent d -> In t (tables d) -> consistent (deleted_table t d).
Proof.
  intros ((Hpk & Hids & Hnums) & Hzero & Hseats & Hcounts) Hin.
  unfold deleted_table, Table_delete.
  assert (Hother : forall tb, In tb (tables d) ->
                              negb (Table.id tb =? Table.id t) = true ->
                              Table.table_number tb <> Table.table_number t).
  { intros tb Htb Hne E. apply (same_number_same_table d) in E; [| assumption ..].
    subst tb. rewrite Z.eqb_refl in Hne. discriminate. }
  split; [split; [| split] | split; [| split]];
    cbn [students tables with_tables with_students].
  - rewrite map_map. erewrite map_ext; [exact Hpk |]. intros r. apply reseat_id.
  - now apply NoDup_map_filter.
  - now apply NoDup_map_filter.
  - intros H0. apply Hzero. apply in_map_iff in H0.
    destruct H0 as (tb & E & Htb). apply filter_In in Htb.
    rewrite <- E. apply in_map. tauto.
  - unfold seats_ok in *. cbn [students tables with_tables with_students].
    apply Forall_map. eapply Forall_impl; [| exact Hseats]. cbn beta.
    intros r Hr. unfold reseat.
    destruct (Student.table_number r) as [k |] eqn:Er; cbn [option_Z_eqb];
      [| now rewrite Er].
    destruct (Z.eqb_spec k (Table.table_number t)) as [-> | Hk]; [exact I |].
    rewrite Er. apply in_map_iff in Hr. destruct Hr as (tb & E & Htb).
    apply in_map_iff. exists tb. split; [exact E |]. apply filter_In.
    split; [exact Htb |].
    destruct (Z.eqb_spec (Table.id tb) (Table.id t)) as [Ei | _]; [| reflexivity].
    exfalso. apply Hk. rewrite <- E. f_equal.
    eapply NoDup_map_eq; [exact Hids | assumption .. ].
  - unfold counts_ok. cbn [students tables with_tables with_students].
    apply Forall_forall. intros tb Htb. apply filter_In in Htb.
    destruct Htb as [Htb Hne].
    unfold counts_ok in Hcounts. rewrite Forall_forall in Hcounts.
    specialize (Hcounts tb Htb). unfold count_ok in *.
    rewrite Hcounts. unfold Student_query_by_table.
    cbn [students tables with_tables with_students].
    rewrite by_table_reseat_other; [reflexivity | now apply Hother | discriminate].
Qed.

(** X10: deleting a table keeps the seating consistent.  From consistent
    rows, [delete_table] on an id that SQLite can bind answers 404 and
    changes nothing when no table has it; on an existing table it removes
    that row only, unassigns exactly the students that sat there, leaves
    rows that are consistent again, and does not touch the schedule.  An id
    outside 64 bits ends the request in OverflowError at [get_or_404], with
    nothing written. *)
Theorem delete_table_keeps_consistent :
  forall (id : Z) (s : State),
    consistent (db s) ->
    exists r s',
      delete_table id s = (r, s') /\
      consistent (db s') /\
      schedule_of (db s') = schedule_of (db s) /\
      if int64 id then
        match Table_query_get id (db s) with
        | None => r = Ok (Abort 404) /\ s' = s
        | Some t =>
            r = Ok (Redirect "tables") /\
            tables (db s')
            = filter (fun tb => negb (Table.id tb =? id)) (tables (db s)) /\
            students (db s')
            = map (reseat (Table.table_number t) None) (students (db s))
        end
      else r = Raise too_large /\ s' = s.
Proof.
  intros id s Hc. pose proof Hc as ((Hpk & _) & _).
  rewrite (delete_table_run id s Hpk).
  destruct (int64 id); [| eexists _, _; split; [reflexivity | auto]].
  destruct (Table_query_get id (db s)) as [t |] eqn:G.
  - destruct (Table_query_get_In _ _ _ G) as [Hin Hid].
    eexists _, _. split; [reflexivity |]. cbn [db].
    split; [now apply deleted_table_consistent |].
    split; [reflexivity |]. split; [reflexivity |].
    unfold deleted_table, Table_delete. rewrite Hid. split; reflexivity.
  - eexists _, _. split; [reflexivity |]. auto.
Qed.

Lemma delete_table_keeps_consistent_seated :
  exists r s',
    delete_table 1 seated_state = (r, s') /\
    consistent (db s') /\
    r = Ok (Redirect "tables") /\
    map Student.table_number (students (db s')) = [None].
Proof.
  destruct (delete_table_keeps_consistent 1 seated_state seated_consistent)
    as (r & s' & Hrun & Hc & _ & Hwhat).
  exists r, s'. split; [exact Hrun |]. split; [exact Hc |].
  cbn in Hwhat. destruct Hwhat as (Hr & _ & Hst). split; [exact Hr |].
  rewrite Hst. reflexivity.
Defined.

(** ** Editing a table *)

Lemma with_students_same d : with_students (students d) d = d.
Proof. now destruct d. Qed.

Lemma edit_table_run id new_table_number new_capacity s :
  NoDup (map Student.id (students (db s))) ->
  edit_table id new_table_number new_capacity s
  = if int64 id then
      match Table_query_get id (db s) with
      | None => (Ok (Abort 404), s)
      | Some t =>
          let refuse (m : string) :=
            (Ok (Redirect "edit_table"),
             mkState (db s) (rand s) (flashed s ++ [(m, "error")])) in
          match new_table_number, new_capacity with
          | Some n, Some c =>
              let written :=
                if int64 c then
                  (Ok (Redirect "tables"),
                   mkState (edited t n c (db s)) (rand s)
                     (flashed s
                      ++ [(("Table " ++ str_of_int n
                            ++ " updated successfully")%string, "success")]))
                else (Raise too_large, s) in
              if (n =? 0) || (c =? 0) then
                refuse "Table number and capacity are required"
              else if c <=? 0 then refuse "Capacity must be greater than 0"
              else if n =? Table.table_number t then written
              else if int64 n then
                if is_some (Table_query_first n (db s)) then
                  refuse ("Table " ++ str_of_int n ++ " already exists")%string
                else written
              else (Raise too_large, s)
          | _, _ => refuse "Table number and capacity are required"
          end
      end
    else (Raise too_large, s).
Proof.
  intros Hnd. unfold edit_table.
  rewrite (bind_run _ _ s (db s) s) by reflexivity.
  rewrite sqlite_int_run. destruct (int64 id); [| reflexivity].
  destruct (Table_query_get id (db s)) as [t |]; [| reflexivity].
  cbv zeta. unfold truthy.
  destruct new_table_number as [n |], new_capacity as [c |]; try reflexivity.
  2:{ destruct (n =? 0); reflexivity. }
  destruct (n =? 0); [reflexivity |]. destruct (c =? 0); [reflexivity |].
  cbn [negb orb]. destruct (c <=? 0); [reflexivity |].
  assert (Hwrite : forall (move : M unit),
            move s = (Ok tt, set_students
                               (map (reseat (Table.table_number t) (Some n))
                                    (students (db s))) s) ->
            (move ;;;
             modify_db (Table_set_number_capacity (Table.id t) n c) ;;;
             leaves_request (db s) (sqlite_int c) ;;;
             d <- get_db ;;
             modify_db (Table_set_current_count (Table.id t)
                          (len (Student_query_by_table n d))) ;;;
             try_except
               (commit ;;;
                flash ("Table " ++ str_of_int n ++ " updated successfully")%string
                      "success")
               (fun e =>
                  rollback (db s) ;;;
                  flash ("Error updating table: " ++ exn_str e)%string "error") ;;;
             ret (Redirect "tables")) s
            = if int64 c then
                (Ok (Redirect "tables"),
                 mkState (edited t n c (db s)) (rand s)
                   (flashed s
                    ++ [(("Table " ++ str_of_int n ++ " updated successfully")%string,
                         "success")]))
              else (Raise too_large, s)).
  { intros move Hmove. rewrite (bind_run _ _ _ _ _ Hmove).
    rewrite (bind_run (modify_db _) _ _ tt _ eq_refl).
    unfold leaves_request, sqlite_int. destruct (int64 c).
    - reflexivity.
    - unfold bind, rollback, modify_db, lift, set_students. cbn [db rand flashed].
      now destruct s. }
  destruct (Z.eqb_spec n (Table.table_number t)) as [-> | Hne]; cbn [negb].
  - apply Hwrite. unfold ret, set_students. f_equal.
    erewrite map_ext; [| intros r; apply reseat_same]. rewrite map_id.
    rewrite with_students_same. now destruct s.
  - rewrite sqlite_int_run. destruct (int64 n); [| reflexivity].
    destruct (Table_query_first n (db s)); cbn [is_some]; [reflexivity |].
    apply Hwrite. now apply move_table_run.
Qed.

Lemma same_id_same_table d t t' :
  NoDup (map Table.id (tables d)) ->
  In t (tables d) -> In t' (tables d) -> Table.id t = Table.id t' -> t = t'.
Proof. intros. eapply NoDup_map_eq; eassumption. Qed.

(** The numbers of the tables after the row of id [i] took number [n]. *)
Lemma renumbered_NoDup (l : list Table.t) i n :
  NoDup (map Table.id l) ->
  NoDup (map Table.table_number l) ->
  ~ In n (map Table.table_number l) ->
  NoDup (map (fun tb => if Table.id tb =? i then n else Table.table_number tb) l).
Proof.
  induction l as [| x l IH]; cbn [map]; intros Hids Hnums Hn; [constructor |].
  apply NoDup_cons_iff in Hids. destruct Hids as [Hx Hids].
  apply NoDup_cons_iff in Hnums. destruct Hnums as [Hxn Hnums].
  assert (Hn' : ~ In n (map Table.table_number l)) by (intros H; apply Hn; now right).
  constructor; [| now apply IH].
  intros Hin. apply in_map_iff in Hin. destruct Hin as (y & E & Hy).
  destruct (Z.eqb_spec (Table.id x) i) as [Ex | Ex],
           (Z.eqb_spec (Table.id y) i) as [Ey | Ey].
  - apply Hx. rewrite Ex, <- Ey. now apply in_map.
  - apply Hn'. rewrite <- E. now apply in_map.
  - apply Hn. left. congruence.
  - apply Hxn. rewrite <- E. now apply in_map.
Qed.

Lemma edited_students t n c d :
  students (edited t n c d) = map (reseat (Table.table_number t) (Some n)) (students d).
Proof. reflexivity. Qed.

Lemma edited_tables t n c d :
  tables (edited t n c d)
  = map (fun tb =>
           if Table.id tb =? Table.id t
           then Table.mk (Table.id tb) n c
                  (len (Student_query_by_table n (edited t n c d)))
           else tb) (tables d).
Proof.
  unfold edited, Table_set_current_count, Table_set_number_capacity.
  cbn [tables with_tables with_students]. rewrite map_map.
  apply map_ext. intros tb.
  destruct (Table.id tb =? Table.id t) eqn:E; cbn [Table.id]; now rewrite E.
Qed.

Lemma edited_consistent t n c d :
  consistent d -> In t (tables d) -> n <> 0 ->
  (n = Table.table_number t \/ ~ In n (map Table.table_number (tables d))) ->
  consistent (edited t n c d).
Proof.
  intros ((Hpk & Hids & Hnums) & Hzero & Hseats & Hcounts) Hin Hn Hfree.
  assert (Hrow : forall tb, In tb (tables d) ->
                            (Table.id tb =? Table.id t) = true -> tb = t).
  { intros tb Htb E. apply Z.eqb_eq in E. now apply (same_id_same_table d). }
  assert (Hnumbers :
            map Table.table_number (tables (edited t n c d))
            = map (fun tb => if Table.id tb =? Table.id t then n
                             else Table.table_number tb) (tables d)).
  { rewrite edited_tables, map_map. apply map_ext. intros tb.
    now destruct (Table.id tb =? Table.id t). }
  assert (Hin_n : In n (map Table.table_number (tables (edited t n c d)))).
  { rewrite Hnumbers. apply in_map_iff. exists t. now rewrite Z.eqb_refl. }
  assert (Hkept : forall tb, In tb (tables d) ->
                             (Table.id tb =? Table.id t) = false ->
                             Table.table_number tb <> Table.table_number t /\
                             Table.table_number tb <> n).
  { intros tb Htb E.
    assert (Hm : Table.table_number tb <> Table.table_number t).
    { intros Em. apply (same_number_same_table d) in Em; [| assumption ..].
      subst tb. rewrite Z.eqb_refl in E. discriminate. }
    split; [exact Hm |]. destruct Hfree as [-> | Hfree]; [exact Hm |].
    intros <-. apply Hfree. now apply in_map. }
  split; [split; [| split] | split; [| split]].
  - rewrite edited_students, map_map.
    erewrite map_ext; [exact Hpk |]. intros r. apply reseat_id.
  - rewrite edited_tables, map_map.
    erewrite map_ext; [exact Hids |]. intros tb.
    now destruct (Table.id tb =? Table.id t).
  - rewrite Hnumbers. destruct Hfree as [-> | Hfree].
    + erewrite map_ext_in; [exact Hnums |]. intros tb Htb. cbn beta.
      destruct (Table.id tb =? Table.id t) eqn:E; [| reflexivity].
      now rewrite (Hrow tb Htb E).
    + now apply renumbered_NoDup.
  - rewrite Hnumbers. intros H0. apply in_map_iff in H0.
    destruct H0 as (tb & E & Htb).
    destruct (Table.id tb =? Table.id t); [congruence |].
    apply Hzero. rewrite <- E. now apply in_map.
  - unfold seats_ok. rewrite edited_students. apply Forall_map.
    unfold seats_ok in Hseats. eapply Forall_impl; [| exact Hseats]. cbn beta.
    intros r Hr. unfold reseat.
    destruct (Student.table_number r) as [k |] eqn:Er; cbn [option_Z_eqb];
      [| now rewrite Er].
    destruct (Z.eqb_spec k (Table.table_number t)) as [-> | Hk];
      [exact Hin_n |].
    rewrite Er, Hnumbers. apply in_map_iff in Hr. destruct Hr as (tb & E & Htb).
    apply in_map_iff. exists tb. split; [| exact Htb].
    destruct (Table.id tb =? Table.id t) eqn:Ei; [| exact E].
    exfalso. apply Hk. rewrite <- E. now rewrite (Hrow tb Htb Ei).
  - unfold counts_ok. rewrite edited_tables. apply Forall_map, Forall_forall.
    intros tb Htb. unfold count_ok.
    destruct (Table.id tb =? Table.id t) eqn:Ei;
      cbn [Table.current_count Table.table_number]; [reflexivity |].
    unfold counts_ok in Hcounts. rewrite Forall_forall in Hcounts.
    rewrite (Hcounts tb Htb). unfold Student_query_by_table.
    rewrite edited_students.
    destruct (Hkept tb Htb Ei) as [Hm Hnn].
    rewrite by_table_reseat_other; [reflexivity | exact Hm | congruence].
Qed.

(** X11: editing a table keeps the seating consistent.  From consistent
    rows, [edit_table] leaves consistent rows whatever the form; an accepted
    edit to a new number takes the students of the table along (each row
    that named the old number names the new one, no other row changes), and
    the schedule is never touched.  A form whose ints SQLite can bind is
    answered; an id, a new number or a capacity outside 64 bits ends the
    request in OverflowError (at [get_or_404], at the lookup of the number,
    at the flush before the count), with nothing committed. *)
Theorem edit_table_keeps_consistent :
  forall (id : Z) (new_table_number new_capacity : option Z) (s : State),
    consistent (db s) ->
    exists r s',
      edit_table id new_table_number new_capacity s = (r, s') /\
      consistent (db s') /\
      schedule_of (db s') = schedule_of (db s) /\
      (r = Ok (Redirect "tables") ->
       exists t n,
         Table_query_get id (db s) = Some t /\ new_table_number = Some n /\
         students (db s')
         = map (reseat (Table.table_number t) (Some n)) (students (db s)) /\
         map Table.table_number (tables (db s'))
         = map (fun tb => if Table.id tb =? id then n else Table.table_number tb)
               (tables (db s))) /\
      (r <> Ok (Redirect "tables") -> db s' = db s) /\
      ((exists h, r = Ok h) \/ (r = Raise too_large /\ s' = s)) /\
      (int64 id = true ->
       (forall n, new_table_number = Some n -> int64 n = true) ->
       (forall c, new_capacity = Some c -> int64 c = true) ->
       exists h, r = Ok h).
Proof.
  intros id tn cap s Hc. pose proof Hc as ((Hpk & _) & _).
  rewrite (edit_table_run id tn cap s Hpk).
  assert (Hraise : forall (Hout : ~ (int64 id = true /\
                                     (forall n, tn = Some n -> int64 n = true) /\
                                     (forall c, cap = Some c -> int64 c = true))),
            exists r s',
              (@Raise http too_large, s) = (r, s') /\
              consistent (db s') /\
              schedule_of (db s') = schedule_of (db s) /\
              (r = Ok (Redirect "tables") ->
               exists t n,
                 Table_query_get id (db s) = Some t /\ tn = Some n /\
                 students (db s')
                 = map (reseat (Table.table_number t) (Some n)) (students (db s)) /\
                 map Table.table_number (tables (db s'))
                 = map (fun tb => if Table.id tb =? id then n
                                  else Table.table_number tb) (tables (db s))) /\
              (r <> Ok (Redirect "tables") -> db s' = db s) /\
              ((exists h, r = Ok h) \/ (r = Raise too_large /\ s' = s)) /\
              (int64 id = true ->
               (forall n, tn = Some n -> int64 n = true) ->
               (forall c, cap = Some c -> int64 c = true) ->
               exists h, r = Ok h)).
  { intros Hout. eexists _, _. split; [reflexivity |].
    split; [exact Hc |]. split; [reflexivity |].
    split; [discriminate |]. split; [reflexivity |]. split; [now right |].
    intros H1 H2 H3. exfalso. apply Hout. auto. }
  assert (Hsame : forall (h : http) fl,
            h <> Redirect "tables" ->
            exists r s',
              (Ok h, mkState (db s) (rand s) fl) = (r, s') /\
              consistent (db s') /\
              schedule_of (db s') = schedule_of (db s) /\
              (r = Ok (Redirect "tables") ->
               exists t n,
                 Table_query_get id (db s) = Some t /\ tn = Some n /\
                 students (db s')
                 = map (reseat (Table.table_number t) (Some n)) (students (db s)) /\
                 map Table.table_number (tables (db s'))
                 = map (fun tb => if Table.id tb =? id then n
                                  else Table.table_number tb) (tables (db s))) /\
              (r <> Ok (Redirect "tables") -> db s' = db s) /\
              ((exists h, r = Ok h) \/ (r = Raise too_large /\ s' = s)) /\
              (int64 id = true ->
               (forall n, tn = Some n -> int64 n = true) ->
               (forall c, cap = Some c -> int64 c = true) ->
               exists h, r = Ok h)).
  { intros h fl Hh. eexists _, _. split; [reflexivity |]. cbn [db].
    split; [exact Hc |]. split; [reflexivity |].
    split; [intros E; inversion E; contradiction |].
    split; [reflexivity |]. split; eauto. }
  destruct (int64 id) eqn:Eid.
  2:{ apply Hraise. intros (H & _). discriminate. }
  destruct (Table_query_get id (db s)) as [t |] eqn:G.
  2:{ destruct s as [d g fl]. apply (Hsame (Abort 404) fl). discriminate. }
  destruct (Table_query_get_In _ _ _ G) as [Hin Hid]. cbv zeta.
  destruct tn as [n |], cap as [c |]; try (apply Hsame; discriminate).
  destruct (Z.eqb_spec n 0) as [| Hn]; [apply Hsame; discriminate |].
  destruct (Z.eqb_spec c 0) as [| Hc0]; [apply Hsame; discriminate |]. cbn [orb].
  destruct (Z.leb_spec c 0) as [| Hpos]; [apply Hsame; discriminate |].
  assert (Hwritten : (n = Table.table_number t \/
                      ~ In n (map Table.table_number (tables (db s)))) ->
            exists r s',
              (if int64 c then
                 (Ok (Redirect "tables"),
                  mkState (edited t n c (db s)) (rand s)
                    (flashed s
                     ++ [(("Table " ++ str_of_int n
                           ++ " updated successfully")%string, "success")]))
               else (Raise too_large, s)) = (r, s') /\
              consistent (db s') /\
              schedule_of (db s') = schedule_of (db s) /\
              (r = Ok (Redirect "tables") ->
               exists t0 n0,
                 Some t = Some t0 /\ Some n = Some n0 /\
                 students (db s')
                 = map (reseat (Table.table_number t0) (Some n0)) (students (db s)) /\
                 map Table.table_number (tables (db s'))
                 = map (fun tb => if Table.id tb =? id then n0
                                  else Table.table_number tb) (tables (db s))) /\
              (r <> Ok (Redirect "tables") -> db s' = db s) /\
              ((exists h, r = Ok h) \/ (r = Raise too_large /\ s' = s)) /\
              (true = true ->
               (forall n0, Some n = Some n0 -> int64 n0 = true) ->
               (forall c0, Some c = Some c0 -> int64 c0 = true) ->
               exists h, r = Ok h)).
  { intros Hfree. destruct (int64 c) eqn:Ec.
    - eexists _, _. split; [reflexivity |]. cbn [db].
      split; [apply edited_consistent; auto |].
      split; [reflexivity |]. split.
      + intros _. exists t, n. split; [reflexivity |]. split; [reflexivity |].
        split; [apply edited_students |].
        rewrite edited_tables, map_map, <- Hid. apply map_ext. intros tb.
        now destruct (Table.id tb =? Table.id t).
      + split; [intros Hr; now contradiction Hr |]. split; eauto.
    - eexists _, _. split; [reflexivity |].
      split; [exact Hc |]. split; [reflexivity |].
      split; [discriminate |]. split; [reflexivity |]. split; [now right |].
      intros _ _ H3. specialize (H3 c eq_refl). congruence. }
  destruct (Z.eqb_spec n (Table.table_number t)) as [En | Hne].
  { apply Hwritten. now left. }
  destruct (int64 n) eqn:En.
  2:{ apply Hraise. intros (_ & H & _). specialize (H n eq_refl). congruence. }
  destruct (Table_query_first n (db s)) eqn:F; cbn [is_some];
    [apply Hsame; discriminate |].
  apply Hwritten. right. now apply Table_query_first_None.
Qed.

Lemma edit_table_keeps_consistent_seated :
  exists r s',
    edit_table 1 (Some 5) (Some 6) seated_state = (r, s') /\
    consistent (db s') /\
    exists h, r = Ok h.
Proof.
  destruct (edit_table_keeps_consistent 1 (Some 5) (Some 6) seated_state
              seated_consistent) as (r & s' & Hrun & Hc & _ & _ & _ & _ & Hans).
  exists r, s'. split; [exact Hrun |]. split; [exact Hc |].
  apply Hans; [reflexivity | |]; intros n E; inversion E; reflexivity.
Defined.

(** ** Clearing the students *)

(** X12: [clear_students] deletes every student and nothing else: the
    tables keep the current_count they had.  So the cached counts are right
    afterwards exactly when every one of them was 0 before; unlike
    [redistribute], this route does not reset them. *)
Theorem clear_students_keeps_the_counts :
  forall s : State,
    exists s',
      clear_students s = (Ok (Redirect "students"), s') /\
      students (db s') = [] /\
      tables (db s') = tables (db s) /\
      schedule_of (db s') = schedule_of (db s) /\
      (counts_ok (db s') <->
       Forall (fun tb => Table.current_count tb = 0) (tables (db s))).
Proof.
  intros s. eexists. split; [reflexivity |]. cbn [db].
  split; [reflexivity |]. split; [reflexivity |]. split; [reflexivity |].
  unfold counts_ok, count_ok, Student_query_by_table.
  cbn [students tables with_students filter]. reflexivity.
Qed.

(** ** Manual slot edit *)

(** X13: a manual slot edit answers every request without an exception and
    writes at most one thing: on an existing duty and a slot named student1
    or student2, that slot of that duty becomes the posted student id (empty
    for null or 0), whether or not a student has that id; every other field
    and row, and every other table, is as before.  A missing duty (404) or
    another slot name (400) changes nothing.  A duty id or a student id
    outside 64 bits makes the lookup or the commit raise OverflowError: the
    handler rolls back and answers 500 with the text of the exception, and
    nothing is changed. *)
Theorem update_duty_sets_one_slot :
  forall (duty_id : Z) (slot : string) (student_id : option Z) (s : State),
    exists r s',
      update_duty duty_id slot student_id s = (Ok r, s') /\
      students (db s') = students (db s) /\
      tables (db s') = tables (db s) /\
      terms (db s') = terms (db s) /\
      weekly_duty_assignments (db s') = weekly_duty_assignments (db s) /\
      if int64 duty_id then
        match DailyDuty_query_get duty_id (db s) with
        | None => r = Refused "Duty not found" 404 /\ s' = s
        | Some _ =>
            if String.eqb slot "student1" || String.eqb slot "student2" then
              if binds (slot_value student_id) then
                (exists info, r = Updated info) /\
                daily_duties (db s')
                = map (fun x => if DailyDuty.id x =? duty_id
                                then with_slot slot (slot_value student_id) x
                                else x)
                      (daily_duties (db s))
              else r = Refused (exn_str too_large) 500 /\ s' = s
            else r = Refused "Invalid slot" 400 /\ s' = s
        end
      else r = Refused (exn_str too_large) 500 /\ s' = s.
Proof.
  intros duty_id slot sid s. unfold update_duty.
  rewrite (bind_run _ _ s (db s) s) by reflexivity.
  rewrite try_sqlite_run.
  destruct (int64 duty_id).
  2:{ eexists _, _. split; [reflexivity |]. cbn [db].
      repeat (split; [reflexivity |]). now destruct s. }
  unfold try_except.
  destruct (DailyDuty_query_get duty_id (db s)) as [duty |] eqn:G.
  - assert (Hid : DailyDuty.id duty = duty_id).
    { apply find_some in G. destruct G as [_ E]. now apply Z.eqb_eq in E. }
    rewrite Hid. cbv zeta. unfold with_slot. fold (slot_value sid).
    unfold binds.
    destruct (String.eqb slot "student1") eqn:E1.
    + destruct (slot_value sid) as [v |]; [unfold sqlite_int; destruct (int64 v) |].
      * eexists _, _. split; [reflexivity |]. cbn [db orb].
        repeat (split; [reflexivity |]). split; [eauto | reflexivity].
      * eexists _, _. split; [reflexivity |]. cbn [db orb].
        repeat (split; [reflexivity |]). now destruct s.
      * eexists _, _. split; [reflexivity |]. cbn [db orb].
        repeat (split; [reflexivity |]). split; [eauto | reflexivity].
    + destruct (String.eqb slot "student2") eqn:E2.
      * destruct (slot_value sid) as [v |]; [unfold sqlite_int; destruct (int64 v) |].
        -- eexists _, _. split; [reflexivity |]. cbn [db orb].
           repeat (split; [reflexivity |]). split; [eauto | reflexivity].
        -- eexists _, _. split; [reflexivity |]. cbn [db orb].
           repeat (split; [reflexivity |]). now destruct s.
        -- eexists _, _. split; [reflexivity |]. cbn [db orb].
           repeat (split; [reflexivity |]). split; [eauto | reflexivity].
      * eexists _, _. split; [reflexivity |]. cbn [orb].
        repeat (split; [reflexivity |]). split; reflexivity.
  - eexists _, _. split; [reflexivity |].
    repeat (split; [reflexivity |]). split; reflexivity.
Qed.

(** ** Deleting a term *)

Lemma delete_term_run id s :
  delete_term id s
  = match Term_query_get id (db s) with
    | None => (Ok (Abort 404), s)
    | Some term =>
        (Ok (Redirect "manage_terms"),
         mkState (Term_delete id (db s)) (rand s)
                 (flashed s ++ [term_deleted_message term]))
    end.
Proof.
  unfold delete_term. rewrite (bind_run _ _ s (db s) s) by reflexivity.
  destruct (Term_query_get id (db s)) as [term |] eqn:G; [| reflexivity].
  apply find_some in G. destruct G as [_ E]. apply Z.eqb_eq in E. rewrite E.
  reflexivity.
Qed.

Lemma Term_delete_refs id d : refs_ok d -> refs_ok (Term_delete id d).
Proof.
  unfold refs_ok, Term_delete. cbn [daily_duties weekly_duty_assignments].
  intros H. apply Forall_forall. intros x Hx. apply filter_In in Hx.
  destruct Hx as [Hx Hkeep]. rewrite Forall_forall in H. specialize (H x Hx).
  apply in_map_iff in H. destruct H as (w & Ew & Hw).
  apply in_map_iff. exists w. split; [exact Ew |]. apply filter_In.
  split; [exact Hw |].
  destruct (WeeklyDutyAssignment.term_id w =? id) eqn:Et; [| reflexivity].
  exfalso. apply negb_true_iff in Hkeep.
  assert (Ex : existsb (Z.eqb (DailyDuty.weekly_assignment_id x))
                 (map WeeklyDutyAssignment.id
                    (filter (fun w => WeeklyDutyAssignment.term_id w =? id)
                            (weekly_duty_assignments d))) = true).
  { apply existsb_exists. exists (WeeklyDutyAssignment.id w). split.
    - apply in_map, filter_In. auto.
    - rewrite Ew. apply Z.eqb_refl. }
  congruence.
Qed.

(** X14: deleting a term that exists removes the term, every weekly row of
    the term and every daily row of those weeks, and nothing else: students
    and tables are untouched, the other terms and the weekly rows of other
    terms stay, and a daily row stays exactly when its week is not one of
    the deleted ones.  If every daily row belonged to a weekly row before,
    the same holds afterwards. *)
Theorem delete_term_cascades :
  forall (id : Z) (s : State) (term : Term.t),
    Term_query_get id (db s) = Some term ->
    exists s',
      delete_term id s = (Ok (Redirect "manage_terms"), s') /\
      students (db s') = students (db s) /\
      tables (db s') = tables (db s) /\
      terms (db s') = filter (fun t => negb (Term.id t =? id)) (terms (db s)) /\
      Term_query_get id (db s') = None /\
      weekly_duty_assignments (db s')
      = filter (fun w => negb (of_term id w)) (weekly_duty_assignments (db s)) /\
      (forall x,
          In x (daily_duties (db s')) <->
          In x (daily_duties (db s)) /\
          forall w, In w (weekly_duty_assignments (db s)) ->
                    WeeklyDutyAssignment.term_id w = id ->
                    DailyDuty.weekly_assignment_id x <> WeeklyDutyAssignment.id w) /\
      (refs_ok (db s) -> refs_ok (db s')).
Proof.
  intros id s term G. rewrite delete_term_run, G.
  eexists. split; [reflexivity |]. cbn [db].
  split; [reflexivity |]. split; [reflexivity |]. split; [reflexivity |].
  split; [| split; [reflexivity | split; [| apply Term_delete_refs]]].
  - unfold Term_query_get, Term_delete. cbn [terms].
    destruct (find _ (filter _ (terms (db s)))) as [t |] eqn:F; [| reflexivity].
    exfalso. apply find_some in F. destruct F as [Hin E].
    apply filter_In in Hin. destruct Hin as [_ Hne]. rewrite E in Hne. discriminate.
  - intros x. unfold Term_delete. cbn [daily_duties]. rewrite filter_In.
    apply and_iff_compat_l. rewrite negb_true_iff. split.
    + intros Hex w Hw Et Eid.
      assert (Ex : existsb (Z.eqb (DailyDuty.weekly_assignment_id x))
                     (map WeeklyDutyAssignment.id
                        (filter (fun w => WeeklyDutyAssignment.term_id w =? id)
                                (weekly_duty_assignments (db s)))) = true).
      { apply existsb_exists. exists (WeeklyDutyAssignment.id w). split.
        - apply in_map, filter_In. split; [exact Hw | now apply Z.eqb_eq].
        - rewrite Eid. apply Z.eqb_refl. }
      congruence.
    + intros H. destruct (existsb _ _) eqn:Ex; [| reflexivity].
      exfalso. apply existsb_exists in Ex. destruct Ex as (i & Hi & Ei).
      apply Z.eqb_eq in Ei. apply in_map_iff in Hi. destruct Hi as (w & <- & Hw).
      apply filter_In in Hw. destruct Hw as [Hw Et]. apply Z.eqb_eq in Et.
      exact (H w Hw Et Ei).
Qed.

Lemma delete_term_cascades_scenario :
  exists s',
    delete_term 1 scenario_generated = (Ok (Redirect "manage_terms"), s') /\
    weekly_duty_assignments (db s') = [] /\
    daily_duties (db s') = [].
Proof.
  destruct (delete_term_cascades 1 scenario_generated scenario_term)
    as (s' & Hrun & _ & _ & _ & _ & Hw & Hd & _).
  - vm_compute. reflexivity.
  - exists s'. split; [exact Hrun |]. split.
    + rewrite Hw. vm_compute. reflexivity.
    + rewrite delete_term_run in Hrun. vm_compute in Hrun.
      inversion Hrun. reflexivity.
Defined.

(** ** A schedule generated and deleted again *)

Lemma existsb_eqb_In i l : existsb (Z.eqb i) l = true <-> In i l.
Proof.
  rewrite existsb_exists. split.
  - intros (j & Hj & E). apply Z.eqb_eq in E. now subst.
  - intros H. exists i. split; [exact H | apply Z.eqb_refl].
Qed.

Lemma existsb_eqb_nIn i l : existsb (Z.eqb i) l = false <-> ~ In i l.
Proof.
  rewrite <- existsb_eqb_In. destruct (existsb _ l); split; congruence.
Qed.

(** X15: generating the schedule of a term that has none yet and deleting
    the term afterwards leaves the rows that deleting the term right away
    leaves: when every daily row belongs to a weekly row, the cascade of
    [delete_term] finds every row the generation wrote, and no other. *)
Theorem generate_then_delete_term :
  forall (tid : Z) (s : State) (term : Term.t),
    Term_query_get tid (db s) = Some term ->
    tables (db s) <> [] ->
    Term_ok term ->
    Forall (fun w => of_term tid w = false) (weekly_duty_assignments (db s)) ->
    refs_ok (db s) ->
    exists s1 s2,
      create_duty_schedule_for_term tid s
      = (Ok (true, created_message (Term.weeks term)), s1) /\
      delete_term tid s1 = (Ok (Redirect "manage_terms"), s2) /\
      db s2 = Term_delete tid (db s) /\
      weekly_duty_assignments (db s2) = weekly_duty_assignments (db s) /\
      daily_duties (db s2) = daily_duties (db s).
Proof.
  intros tid s term Hterm Htabs Hok Hfresh Hrefs.
  destruct (create_duty_schedule_for_term_run tid s term Hterm Htabs Hok)
    as (was & rows & g & Hrun & Hw).
  assert (Hothers : filter (fun w => negb (of_term tid w))
                           (weekly_duty_assignments (db s))
                    = weekly_duty_assignments (db s)).
  { apply filter_all. eapply Forall_impl; [| exact Hfresh]. cbn beta.
    now intros w ->. }
  rewrite Hothers in Hrun, Hw.
  destruct (weeks_written_numbers _ _ _ _ _ _ _ _ Hw) as [_ Hmine].
  pose proof (weeks_written_ids _ _ _ _ _ _ _ _ Hw) as Hids.
  pose proof (weeks_written_owner _ _ _ _ _ _ _ _ Hw) as Hown.
  assert (Hwk : filter (fun w => negb (WeeklyDutyAssignment.term_id w =? tid))
                       (weekly_duty_assignments (db s) ++ was)
                = weekly_duty_assignments (db s)).
  { rewrite filter_app, (filter_none _ was), app_nil_r; [exact Hothers |].
    eapply Forall_impl; [| exact Hmine]. cbn beta. unfold of_term.
    now intros w ->. }
  assert (Hdoomed : filter (fun w => WeeklyDutyAssignment.term_id w =? tid)
                           (weekly_duty_assignments (db s) ++ was) = was).
  { rewrite filter_app, (filter_none _ (weekly_duty_assignments (db s))),
      (filter_all _ was); [reflexivity | exact Hmine | exact Hfresh]. }
  assert (Hnone : filter (fun w => WeeklyDutyAssignment.term_id w =? tid)
                         (weekly_duty_assignments (db s)) = []).
  { now apply filter_none. }
  assert (Hdl : filter (fun x => negb (existsb (Z.eqb (DailyDuty.weekly_assignment_id x))
                                         (map WeeklyDutyAssignment.id was)))
                       (daily_duties (db s) ++ rows)
                = daily_duties (db s)).
  { rewrite filter_app, (filter_none _ rows), app_nil_r.
    - apply filter_all. unfold refs_ok in Hrefs.
      eapply Forall_impl; [| exact Hrefs]. cbn beta. intros x Hx.
      apply negb_true_iff, existsb_eqb_nIn. intros Hin.
      apply in_map_iff in Hin. destruct Hin as (w & Ew & Hin).
      rewrite Forall_forall in Hids. specialize (Hids w Hin _ Hx). lia.
    - eapply Forall_impl; [| exact Hown]. cbn beta. intros x (w & Hin & Ex).
      apply negb_false_iff, existsb_eqb_In. rewrite Ex. now apply in_map. }
  eexists _, _. split; [exact Hrun |].
  rewrite delete_term_run. cbn [db].
  assert (Hfound : Term_query_get tid
                     (with_daily (daily_duties (db s) ++ rows)
                        (with_weekly (weekly_duty_assignments (db s) ++ was) (db s)))
                   = Some term) by exact Hterm.
  rewrite Hfound. split; [reflexivity |]. cbn [db].
  unfold Term_delete.
  cbn [students tables terms weekly_duty_assignments daily_duties with_daily with_weekly].
  rewrite Hwk, Hdoomed, Hdl, Hnone. cbn [map existsb negb].
  rewrite (filter_all (fun _ => true)) by (apply Forall_forall; reflexivity).
  unfold of_term in Hothers. rewrite Hothers.
  split; [reflexivity |]. split; reflexivity.
Qed.

Lemma generate_then_delete_term_scenario :
  exists s1 s2,
    create_duty_schedule_for_term 1 scenario = (Ok (true, created_message 2), s1) /\
    delete_term 1 s1 = (Ok (Redirect "manage_terms"), s2) /\
    daily_duties (db s2) = [].
Proof.
  destruct (generate_then_delete_term 1 scenario scenario_term)
    as (s1 & s2 & H1 & H2 & _ & _ & Hd).
  - reflexivity.
  - discriminate.
  - exact scenario_term_ok.
  - constructor.
  - constructor.
  - exists s1, s2. split; [exact H1 |]. split; [exact H2 | exact Hd].
Defined.

(** ** Adding a term *)

Lemma add_term_run name start_date_str start weeks is_active s :
  exists r fl,
    add_term name start_date_str start weeks is_active s
    = (Ok r,
       match term_accepted name start_date_str start weeks with
       | Some (name_, start_date, weeks_) =>
           mkState (with_new_term name_ start_date weeks_ is_active (db s)) (rand s)
                   (flashed s ++ [term_created_message name_])
       | None => mkState (db s) (rand s) fl
       end) /\
    (r = Redirect "manage_terms" <->
     term_accepted name start_date_str start weeks <> None).
Proof.
  unfold add_term, term_accepted.
  assert (Hno : forall (fl : list (string * string)),
            exists r fl',
              (Ok (Redirect "add_term"), mkState (db s) (rand s) fl)
              = (Ok r, mkState (db s) (rand s) fl') /\
              (r = Redirect "manage_terms" <-> @None (string * date * Z) <> None)).
  { intros fl. exists (Redirect "add_term"), fl. split; [reflexivity |].
    split; [discriminate | congruence]. }
  destruct (truthy_str name && truthy_str start_date_str && truthy weeks);
    [| apply Hno].
  destruct name as [name_ |]; [| apply Hno].
  destruct weeks as [weeks_ |]; [| destruct start; apply Hno].
  rewrite (bind_run _ _ s (db s) s) by reflexivity. cbv zeta.
  destruct start as [start_date | msg]; [| apply Hno].
  unfold try_except, timedelta_weeks. cbv zeta.
  destruct (Z.abs (7 * weeks_) <=? 999999999); cbn [andb].
  - rewrite (bind_run _ _ s (7 * weeks_) s) by reflexivity.
    unfold date_add_days. cbv zeta.
    destruct ((date_min <=? start_date + 7 * weeks_)
              && (start_date + 7 * weeks_ <=? date_max)).
    + rewrite (bind_run _ _ s (start_date + 7 * weeks_) s) by reflexivity.
      exists (Redirect "manage_terms"), []. split.
      * unfold with_new_term. destruct is_active; reflexivity.
      * split; [discriminate | reflexivity].
    + apply Hno.
  - destruct ((- 2 ^ 31 <=? 7 * weeks_) && (7 * weeks_ <? 2 ^ 31)); apply Hno.
Qed.

Lemma term_accepted_inv name start_date_str start weeks name_ start_date weeks_ :
  term_accepted name start_date_str start weeks = Some (name_, start_date, weeks_) ->
  name = Some name_ /\ start = Parsed start_date /\ weeks = Some weeks_ /\
  weeks_ <> 0 /\ date_min <= start_date + 7 * weeks_ <= date_max.
Proof.
  unfold term_accepted.
  destruct (truthy_str name && truthy_str start_date_str && truthy weeks) eqn:T;
    [| discriminate].
  destruct name as [nm |]; [| discriminate].
  destruct start as [sd | msg]; [| discriminate].
  destruct weeks as [w |]; [| discriminate].
  destruct (Z.abs (7 * w) <=? 999999999); [| discriminate]. cbn [andb].
  destruct (Z.leb_spec date_min (sd + 7 * w)); [| discriminate].
  destruct (Z.leb_spec (sd + 7 * w) date_max); [| discriminate].
  intros E. inversion E; subst. repeat (split; [reflexivity |]).
  apply andb_prop in T. destruct T as [_ T]. cbn in T.
  split; [| lia]. intros ->. discriminate.
Qed.

Lemma deactivated_none_active l :
  filter Term.is_active
    (map (fun t => Term.mk (Term.id t) (Term.name t) (Term.start_date t)
                           (Term.end_date t) (Term.weeks t) false) l) = [].
Proof. induction l as [| t l IH]; [reflexivity | exact IH]. Qed.

(** X16: adding a term keeps the terms schedulable and at most one active.
    [add_term] answers every form without an exception and touches the
    terms only.  When every stored term starts and ends on a date and the
    posted date is one, the same holds afterwards; a term added as active is
    the only active term afterwards, and a term added as inactive, or a form
    that is refused, leaves the active terms as they were. *)
Theorem add_term_keeps_terms_schedulable :
  forall (name start_date_str : option string) (start : parsed)
         (weeks : option Z) (is_active : bool) (s : State),
    Forall Term_ok (terms (db s)) ->
    (forall d, start = Parsed d -> date_min <= d <= date_max) ->
    exists r s',
      add_term name start_date_str start weeks is_active s = (Ok r, s') /\
      Forall Term_ok (terms (db s')) /\
      students (db s') = students (db s) /\
      tables (db s') = tables (db s) /\
      weekly_duty_assignments (db s') = weekly_duty_assignments (db s) /\
      daily_duties (db s') = daily_duties (db s) /\
      (r <> Redirect "manage_terms" -> db s' = db s) /\
      (r = Redirect "manage_terms" -> is_active = true ->
       exists t, active_terms (db s') = [t] /\
                 Term.id t = next_id (map Term.id (terms (db s)))) /\
      (r = Redirect "manage_terms" -> is_active = false ->
       active_terms (db s') = active_terms (db s) /\
       exists t, terms (db s') = terms (db s) ++ [t]).
Proof.
  intros name sds start weeks is_active s Hok Hdate.
  destruct (add_term_run name sds start weeks is_active s) as (r & fl & Hrun & Hr).
  exists r. eexists. split; [exact Hrun |].
  destruct (term_accepted name sds start weeks) as [[[nm sd] w] |] eqn:Ha.
  - destruct (term_accepted_inv _ _ _ _ _ _ _ Ha) as (-> & -> & -> & Hw & Hend).
    specialize (Hdate sd eq_refl).
    assert (Hr' : r = Redirect "manage_terms") by (apply Hr; discriminate).
    cbn [db]. unfold with_new_term, Term_insert, Term_deactivate_all, active_terms.
    split.
    { destruct is_active; cbn [terms with_terms]; apply Forall_app; split.
      - apply Forall_map. eapply Forall_impl; [| exact Hok]. intros t Ht. exact Ht.
      - constructor; [| constructor].
        unfold Term_ok; cbn [Term.start_date Term.weeks]; lia.
      - exact Hok.
      - constructor; [| constructor].
        unfold Term_ok; cbn [Term.start_date Term.weeks]; lia. }
    split; [now destruct is_active |]. split; [now destruct is_active |].
    split; [now destruct is_active |]. split; [now destruct is_active |].
    split; [intros Hne; contradiction |]. split.
    + intros _ ->. cbn [terms with_terms]. eexists. split.
      * rewrite filter_app, deactivated_none_active. reflexivity.
      * cbn [Term.id]. rewrite map_map. reflexivity.
    + intros _ ->. cbn [terms with_terms]. split; [| eauto].
      rewrite filter_app. cbn [filter Term.is_active]. now rewrite app_nil_r.
  - assert (Hr' : r <> Redirect "manage_terms").
    { intros E. apply Hr in E. congruence. }
    cbn [db]. split; [exact Hok |].
    repeat (split; [reflexivity |]). split; intros E; contradiction.
Qed.

Lemma add_term_keeps_terms_schedulable_scenario :
  exists r s',
    add_term (Some "Autumn") (Some "2024-09-02") (Parsed 739131) (Some 10) true scenario
    = (Ok r, s') /\
    Forall Term_ok (terms (db s')).
Proof.
  destruct (add_term_keeps_terms_schedulable (Some "Autumn") (Some "2024-09-02")
              (Parsed 739131) (Some 10) true scenario)
    as (r & s' & Hrun & Hok & _).
  - constructor; [exact scenario_term_ok | constructor].
  - intros d E. inversion E. unfold date_min, date_max. lia.
  - exists r, s'. split; assumption.
Defined.

(** X17: a term that [add_term] accepted can be scheduled.  When the posted
    date is a date and there is a table, generation for the term just added
    succeeds: the end date [add_term] computed stands for every date the
    week loop computes, so none of them overflows. *)
Theorem added_term_can_be_scheduled :
  forall (name start_date_str : option string) (start : parsed)
         (weeks : option Z) (is_active : bool) (s s1 : State),
    (forall d, start = Parsed d -> date_min <= d <= date_max) ->
    tables (db s) <> [] ->
    add_term name start_date_str start weeks is_active s
    = (Ok (Redirect "manage_terms"), s1) ->
    exists w s2,
      weeks = Some w /\
      create_duty_schedule_for_term (next_id (map Term.id (terms (db s)))) s1
      = (Ok (true, created_message w), s2).
Proof.
  intros name sds start weeks is_active s s1 Hdate Htabs Hadd.
  destruct (add_term_run name sds start weeks is_active s) as (r & fl & Hrun & Hr).
  rewrite Hrun in Hadd. inversion Hadd as [[Er Es]]. clear Hadd.
  destruct (term_accepted name sds start weeks) as [[[nm sd] w] |] eqn:Ha;
    [| exfalso; now apply (proj1 Hr)].
  destruct (term_accepted_inv _ _ _ _ _ _ _ Ha) as (-> & -> & -> & Hw & Hend).
  specialize (Hdate sd eq_refl).
  set (i := next_id (map Term.id (terms (db s)))).
  set (t := Term.mk i nm sd (sd + 7 * w) w is_active).
  assert (Hget : Term_query_get i (db s1) = Some t).
  { rewrite <- Es. cbn [db]. unfold Term_query_get, with_new_term, Term_insert.
    cbn [terms with_terms].
    assert (Hids : map Term.id (terms (if is_active then Term_deactivate_all (db s)
                                        else db s))
                   = map Term.id (terms (db s))).
    { destruct is_active; [| reflexivity]. unfold Term_deactivate_all.
      cbn [terms with_terms]. rewrite map_map. reflexivity. }
    rewrite Hids. fold i. fold t.
    assert (Hfresh : forall l, map Term.id l = map Term.id (terms (db s)) ->
                               find (fun x => Term.id x =? i) (l ++ [t]) = Some t).
    { intros l El.
      assert (Hno : forall x, In x l -> (Term.id x =? i) = false).
      { intros x Hx. apply Z.eqb_neq.
        assert (Hin : In (Term.id x) (map Term.id (terms (db s))))
          by (rewrite <- El; now apply in_map).
        apply next_id_gt in Hin. fold i in Hin. lia. }
      clear El. induction l as [| x l IH]; cbn [app find].
      - cbn [Term.id t]. now rewrite Z.eqb_refl.
      - rewrite (Hno x (or_introl eq_refl)). apply IH.
        intros y Hy. apply Hno. now right. }
    apply Hfresh, Hids. }
  assert (Htabs1 : tables (db s1) <> []).
  { rewrite <- Es. cbn [db]. unfold with_new_term, Term_insert.
    destruct is_active; exact Htabs. }
  assert (Hok : Term_ok t)
    by (unfold Term_ok, t; cbn [Term.start_date Term.weeks]; lia).
  destruct (create_duty_schedule_for_term_run i s1 t Hget Htabs1 Hok)
    as (was & rows & g & Hgen & _).
  exists w. eexists. split; [reflexivity |]. rewrite Es. exact Hgen.
Qed.

Lemma added_term_can_be_scheduled_scenario :
  exists s1 s2,
    add_term (Some "Autumn") (Some "2024-09-02") (Parsed 739131) (Some 10) true scenario
    = (Ok (Redirect "manage_terms"), s1) /\
    create_duty_schedule_for_term 2 s1 = (Ok (true, created_message 10), s2).
Proof.
  assert (Hadd : add_term (Some "Autumn") (Some "2024-09-02") (Parsed 739131) (Some 10)
                   true scenario
                 = (Ok (Redirect "manage_terms"),
                    snd (add_term (Some "Autumn") (Some "2024-09-02") (Parsed 739131)
                           (Some 10) true scenario)))
    by (vm_compute; reflexivity).
  destruct (added_term_can_be_scheduled (Some "Autumn") (Some "2024-09-02")
              (Parsed 739131) (Some 10) true scenario
              (snd (add_term (Some "Autumn") (Some "2024-09-02") (Parsed 739131)
                      (Some 10) true scenario)))
    as (w & s2 & Ew & Hgen).
  { intros d E. inversion E; subst d. unfold date_min, date_max. lia. }
  { exact scenario_has_tables. }
  { exact Hadd. }
  inversion Ew; subst w.
  eexists _, s2. split; [exact Hadd | exact Hgen].
Defined.

(** ** Who serves in a week *)

Lemma slots_of_app r1 r2 : slots_of (r1 ++ r2) = slots_of r1 ++ slots_of r2.
Proof. unfold slots_of. apply flat_map_app. Qed.

Lemma py_range_app lo mid hi :
  lo <= mid <= hi -> py_range lo hi = py_range lo mid ++ py_range mid hi.
Proof.
  intros H. remember (Z.to_nat (mid - lo)) as k eqn:Ek.
  revert lo H Ek. induction k as [| k IH]; intros lo H Ek.
  - assert (mid = lo) by lia. subst mid. now rewrite (py_range_nil lo lo) by lia.
  - rewrite (py_range_cons lo hi), (py_range_cons lo mid) by lia.
    cbn [app]. f_equal. apply IH; lia.
Qed.

Lemma assign_shift_slots wid dt pool sh idx s idx' s' :
  assign_shift wid dt pool sh idx s = (Ok idx', s') ->
  idx' = idx + 2 /\
  exists x, s' = add_daily [x] s /\
            DailyDuty.weekly_assignment_id x = wid /\
            slots_of [x] = map (pool_at pool) (py_range idx (idx + 2)).
Proof.
  unfold assign_shift. intros H.
  apply bind_Ok in H. destruct H as (i1 & s1 & H1 & H). run_inv H1.
  apply py_mod_Ok in H1. destruct H1 as [Hlen ->].
  apply bind_Ok in H. destruct H as (a & s1 & Ha & H). run_inv Ha.
  assert (Hpos : 0 < len pool) by (unfold len in *; lia).
  apply py_getitem_nth in Ha; [| apply Z.mod_pos_bound, Hpos].
  apply bind_Ok in H. destruct H as (i2 & s1 & H2 & H). run_inv H2.
  apply py_mod_Ok in H2. destruct H2 as [_ ->].
  apply bind_Ok in H. destruct H as (b & s1 & Hb & H). run_inv Hb.
  apply py_getitem_nth in Hb; [| apply Z.mod_pos_bound, Hpos].
  run_inv H. split; [lia |].
  eexists. split; [reflexivity |]. split; [reflexivity |].
  rewrite (py_range_cons idx), (py_range_cons (idx + 1)), py_range_nil by lia.
  unfold slots_of, pool_at. cbn [flat_map map app DailyDuty.student1_id
                              DailyDuty.student2_id].
  now rewrite Ha, Hb.
Qed.

Lemma assign_shifts_slots wid dt pool shs : forall idx s idx' s',
  for_loop shs (assign_shift wid dt pool) idx s = (Ok idx', s') ->
  idx' = idx + 2 * len shs /\
  exists rows, s' = add_daily rows s /\
               Forall (fun x => DailyDuty.weekly_assignment_id x = wid) rows /\
               slots_of rows = map (pool_at pool) (py_range idx idx').
Proof.
  induction shs as [| sh shs IH]; intros idx s idx' s' H; cbn [for_loop] in H.
  - run_inv H. split; [unfold len; cbn; lia |]. exists [].
    rewrite add_daily_nil, py_range_nil by lia. auto.
  - apply bind_Ok in H. destruct H as (i1 & s1 & H1 & H2).
    apply assign_shift_slots in H1. destruct H1 as (-> & x & -> & Hx & Hs).
    apply IH in H2. destruct H2 as (-> & rows & -> & Hrows & Hss).
    split; [unfold len; cbn [List.length]; lia |].
    exists (x :: rows). rewrite add_daily_app. split; [reflexivity |].
    split; [now constructor |].
    change (x :: rows) with ([x] ++ rows). rewrite slots_of_app, Hs, Hss.
    rewrite <- map_app, <- py_range_app; [reflexivity | unfold len; lia].
Qed.

Lemma assign_days_slots wid start pool ds : forall idx s idx' s',
  for_loop ds (assign_day wid start pool) idx s = (Ok idx', s') ->
  idx' = idx + 4 * len ds /\
  exists rows, s' = add_daily rows s /\
               Forall (fun x => DailyDuty.weekly_assignment_id x = wid) rows /\
               slots_of rows = map (pool_at pool) (py_range idx idx').
Proof.
  induction ds as [| k ds IH]; intros idx s idx' s' H; cbn [for_loop] in H.
  - run_inv H. split; [unfold len; cbn; lia |]. exists [].
    rewrite add_daily_nil, py_range_nil by lia. auto.
  - apply bind_Ok in H. destruct H as (i1 & s1 & H1 & H2).
    unfold assign_day in H1. apply bind_Ok in H1.
    destruct H1 as (dt & s0 & Hd & H1). run_inv Hd.
    apply assign_shifts_slots in H1. destruct H1 as (-> & r1 & -> & Hr1 & Hs1).
    apply IH in H2. destruct H2 as (-> & r2 & -> & Hr2 & Hs2).
    assert (Hsh : len shifts = 2) by reflexivity. rewrite Hsh in *.
    split; [unfold len; cbn [List.length]; lia |].
    exists (r1 ++ r2). rewrite add_daily_app. split; [reflexivity |].
    split; [apply Forall_app; auto |].
    rewrite slots_of_app, Hs1, Hs2.
    rewrite <- map_app, <- py_range_app; [reflexivity | unfold len; lia].
Qed.

Lemma nth_error_firstn_seq {A} (l : list A) : forall k,
  (k <= List.length l)%nat ->
  map (nth_error l) (seq 0 k) = map Some (firstn k l).
Proof.
  induction l as [| a l IH]; intros k Hk.
  - cbn in Hk. assert (k = O) by lia. subst. reflexivity.
  - destruct k as [| k]; [reflexivity |].
    cbn [seq map firstn nth_error]. f_equal.
    rewrite <- seq_shift, map_map. cbn [nth_error].
    apply IH. cbn in Hk. lia.
Qed.

(** The 28 slots of a week hold the first 28 entries of the pool. *)
Lemma assign_week_duties_slots wid start pool s idx' s' :
  28 <= len pool ->
  assign_week_duties wid start pool s = (Ok idx', s') ->
  exists rows, s' = add_daily rows s /\
               Forall (fun x => DailyDuty.weekly_assignment_id x = wid) rows /\
               slots_of rows = map (fun a => Some (Student.id a)) (firstn 28 pool).
Proof.
  intros Hlen H. unfold assign_week_duties in H.
  apply assign_days_slots in H. destruct H as (-> & rows & -> & Hrows & Hs).
  exists rows. split; [reflexivity |]. split; [exact Hrows |].
  rewrite Hs. change (0 + 4 * len (py_range 0 7)) with 28.
  unfold py_range. change (Z.to_nat (28 - 0)) with 28%nat.
  transitivity (map (option_map Student.id) (map (nth_error pool) (seq 0 28))).
  - rewrite !map_map. apply map_ext_in. intros i Hi. apply in_seq in Hi.
    unfold pool_at. rewrite Z.mod_small by (unfold len in *; lia).
    now replace (Z.to_nat (0 + Z.of_nat i)) with i by lia.
  - rewrite nth_error_firstn_seq by (unfold len in Hlen; lia).
    now rewrite map_map.
Qed.

(** The pool is the shuffled list and then whole copies of the table. *)
Lemma extend_pool_chunks fuel : forall pool ts s p s',
  extend_pool fuel pool ts s = (Ok p, s') ->
  exists k, p = pool ++ List.concat (repeat ts k).
Proof.
  induction fuel as [| fuel IH]; intros pool ts s p s'; cbn [extend_pool];
    destruct (len pool <? 28); intros H; try discriminate.
  - run_inv H. exists O. cbn. now rewrite app_nil_r.
  - apply IH in H. destruct H as [k ->]. exists (S k).
    cbn [repeat List.concat]. now rewrite app_assoc.
  - run_inv H. exists O. cbn. now rewrite app_nil_r.
Qed.

Lemma times_app i l1 l2 : times i (l1 ++ l2) = (times i l1 + times i l2)%nat.
Proof. unfold times. now rewrite filter_app, length_app. Qed.

Lemma times_NoDup i l :
  NoDup (map Student.id l) -> (times i l <= 1)%nat.
Proof.
  unfold times. induction l as [| x l IH]; cbn [map filter]; intros Hnd; [cbn; lia |].
  apply NoDup_cons_iff in Hnd. destruct Hnd as [Hx Hnd].
  destruct (Z.eqb_spec (Student.id x) i) as [E | _]; [| now apply IH].
  cbn [List.length]. rewrite (filter_none (fun y => Student.id y =? i) l); [cbn; lia |].
  apply Forall_forall. intros y Hy. apply Z.eqb_neq. intros Ey.
  apply Hx. rewrite E, <- Ey. now apply in_map.
Qed.

Lemma times_member m l :
  NoDup (map Student.id l) -> In m l -> times (Student.id m) l = 1%nat.
Proof.
  intros Hnd Hin. pose proof (times_NoDup (Student.id m) l Hnd) as Hle.
  assert (Hpos : (0 < times (Student.id m) l)%nat); [| lia].
  unfold times. destruct (filter _ l) as [| y ys] eqn:F; [| cbn; lia].
  exfalso. assert (Hf : In m (filter (fun x => Student.id x =? Student.id m) l)).
  { apply filter_In. split; [exact Hin | apply Z.eqb_refl]. }
  rewrite F in Hf. destruct Hf.
Qed.

Lemma times_Permutation i l l' : Permutation l l' -> times i l = times i l'.
Proof.
  intros P. unfold times.
  induction P as [| x l l' P IH | x y l | l l' l'' P1 IH1 P2 IH2]; cbn [filter].
  - reflexivity.
  - destruct (_ =? _); cbn [List.length]; congruence.
  - destruct (Student.id x =? i), (Student.id y =? i); reflexivity.
  - congruence.
Qed.

(** In the first [k] entries of copies of a table, every member is there
    as often as any other, give or take one. *)
Lemma times_in_chunks ts m : forall (chunks : list (list Student.t)) (k : nat),
  NoDup (map Student.id ts) -> In m ts ->
  Forall (fun c => Permutation c ts) chunks ->
  (k <= List.length ts * List.length chunks)%nat ->
  let c := times (Student.id m) (firstn k (List.concat chunks)) in
  (k < List.length ts * c + List.length ts)%nat /\
  (List.length ts * c < k + List.length ts)%nat.
Proof.
  intros chunks k Hnd Hin. revert k.
  assert (Hn : (0 < List.length ts)%nat) by (destruct ts; [destruct Hin | cbn; lia]).
  induction chunks as [| ch chunks IH]; intros k Hch Hk; cbv zeta.
  - cbn [List.length] in Hk. assert (k = O) by lia. subst k.
    cbn [List.concat firstn]. unfold times. cbn. lia.
  - inversion Hch as [| ? ? Hp Hrest]; subst.
    cbn [List.concat]. rewrite firstn_app, times_app.
    pose proof (Permutation_length Hp) as Hlen.
    assert (Hchnd : NoDup (map Student.id ch)).
    { apply (Permutation_NoDup (l := map Student.id ts));
        [apply Permutation_map, Permutation_sym, Hp | exact Hnd]. }
    destruct (Nat.le_gt_cases (List.length ch) k) as [Hge | Hlt].
    + rewrite firstn_all2 by exact Hge.
      rewrite (times_Permutation _ _ _ Hp), (times_member m ts Hnd Hin).
      cbn [List.length] in Hk.
      specialize (IH (k - List.length ch)%nat Hrest). cbv zeta in IH.
      destruct IH as [IH1 IH2]; [nia |]. nia.
    + replace (k - List.length ch)%nat with O by lia. cbn [firstn].
      change (times (Student.id m) []) with O. rewrite Nat.add_0_r.
      assert (Hle : (times (Student.id m) (firstn k ch) <= 1)%nat).
      { pose proof (times_NoDup (Student.id m) ch Hchnd) as H1.
        rewrite <- (firstn_skipn k ch), times_app in H1. lia. }
      destruct (times (Student.id m) (firstn k ch)) as [| [| c]] eqn:Ec; [lia | | lia].
      destruct k as [| k]; [cbn in Ec; discriminate | lia].
Qed.

Lemma slot_count_times i (l : list Student.t) :
  count_if (fun v => option_Z_eqb v (Some i))
           (map (fun a => Some (Student.id a)) l)
  = Z.of_nat (times i l).
Proof.
  unfold count_if, len, times. f_equal.
  induction l as [| a l IH]; [reflexivity |].
  cbn [map filter option_Z_eqb].
  destruct (Student.id a =? i); cbn [List.length]; now rewrite IH.
Qed.

Lemma concat_repeat_length {A} (l : list A) k :
  List.length (List.concat (repeat l k)) = (List.length l * k)%nat.
Proof.
  induction k as [| k IH]; cbn [repeat List.concat List.length]; [lia |].
  rewrite length_app, IH. lia.
Qed.

(** X18: a regenerated week is shared out evenly.  When the week exists,
    student ids are unique and the seven dates are dates, regenerating the
    week of a table with [n] students succeeds and fills the 28 slots of
    its fourteen duties so that every student of the table holds [c] of them
    with [28 - n < n * c < 28 + n]: the whole part of 28 / n or one more.  So
    with at most 28 students everyone serves, and with more than 28 nobody
    serves twice. *)
Theorem regenerate_week_is_balanced :
  forall (weekly_assignment_id : Z) (s : State) (wa : WeeklyDutyAssignment.t)
         (m : Student.t),
    Weekly_query_get weekly_assignment_id (db s) = Some wa ->
    NoDup (map Student.id (students (db s))) ->
    In m (Student_query_by_table (WeeklyDutyAssignment.table_number wa) (db s)) ->
    date_min <= WeeklyDutyAssignment.start_date wa ->
    WeeklyDutyAssignment.start_date wa + 6 <= date_max ->
    exists s',
      regenerate_week weekly_assignment_id s
      = (Ok (mkResponse true "Week regenerated successfully" 200), s') /\
      let duties :=
        filter (fun x => DailyDuty.weekly_assignment_id x =? weekly_assignment_id)
               (daily_duties (db s')) in
      let n :=
        len (Student_query_by_table (WeeklyDutyAssignment.table_number wa) (db s)) in
      let c := slot_count (Student.id m) duties in
      28 < n * c + n /\ n * c < 28 + n.
Proof.
  intros wid s wa m Hget Hpk Hm Hmin Hmax.
  assert (Hid : WeeklyDutyAssignment.id wa = wid).
  { apply find_some in Hget. destruct Hget as [_ E]. now apply Z.eqb_eq in E. }
  set (ts := Student_query_by_table (WeeklyDutyAssignment.table_number wa) (db s)) in *.
  assert (Hts : ts <> []) by (intros E; rewrite E in Hm; destruct Hm).
  assert (Htnd : NoDup (map Student.id ts)) by (apply NoDup_map_filter, Hpk).
  set (s0 := mkState (Daily_delete_by_weekly wid (db s)) (rand s) (flashed s)).
  set (s2 := mkState (db s0) (snd (shuffle ts (rand s0))) (flashed s0)).
  destruct (extend_pool_total 28 (fst (shuffle ts (rand s0))) ts s2 Hts)
    as (pool & Hp & Hlen); [unfold len; lia |].
  destruct (assign_week_duties_total (WeeklyDutyAssignment.id wa)
              (WeeklyDutyAssignment.start_date wa) pool s2)
    as (idx & s3 & Ha); [lia | exact Hmin | exact Hmax |].
  destruct (assign_week_duties_slots _ _ _ _ _ _ Hlen Ha) as (rows & -> & Hrows & Hslots).
  destruct (extend_pool_chunks _ _ _ _ _ _ Hp) as [k Hpool].
  eexists. split.
  - unfold regenerate_week.
    rewrite (bind_run _ _ s (db s) s) by reflexivity. unfold try_except.
    rewrite Hget. fold ts.
    assert (Hmatch : forall (a b : M response),
              match ts with [] => a | _ :: _ => b end = b)
      by (intros a b; destruct ts; [congruence | reflexivity]).
    rewrite Hmatch. unfold regenerate_duties.
    rewrite (bind_run _ _ s tt s0) by reflexivity.
    rewrite (bind_run _ _ _ _ _ (with_random_run _ s0)).
    change (mkState (db s0) (snd (shuffle ts (rand s0))) (flashed s0)) with s2.
    erewrite bind_run by exact Hp. erewrite bind_run by exact Ha.
    reflexivity.
  - cbv zeta. cbn [db add_daily s2 s0 daily_duties with_daily Daily_delete_by_weekly].
    assert (Hmine : Forall (fun x => (DailyDuty.weekly_assignment_id x =? wid) = true)
                           rows).
    { eapply Forall_impl; [| exact Hrows]. cbn beta. intros x ->.
      rewrite Hid. apply Z.eqb_refl. }
    rewrite filter_app, (filter_all _ rows Hmine), filter_none.
    2:{ apply Forall_forall. intros x Hx. apply filter_In in Hx.
        destruct Hx as [_ Hx]. now destruct (_ =? _). }
    cbn [app]. unfold slot_count. rewrite Hslots, slot_count_times.
    assert (Hchunks : pool = List.concat (fst (shuffle ts (rand s0)) :: repeat ts k))
      by exact Hpool.
    destruct (times_in_chunks ts m (fst (shuffle ts (rand s0)) :: repeat ts k) 28
                Htnd Hm) as [H1 H2].
    + constructor; [apply shuffle_Permutation |].
      apply Forall_forall. intros c Hc. apply repeat_spec in Hc. now subst.
    + cbn [List.length]. rewrite repeat_length.
      assert (Hl : List.length pool = (List.length ts + List.length ts * k)%nat).
      { rewrite Hpool, length_app, shuffle_length, concat_repeat_length. lia. }
      unfold len in Hlen. lia.
    + rewrite <- Hchunks in H1, H2. unfold len. lia.
Qed.

Lemma regenerate_week_is_balanced_scenario :
  exists s',
    regenerate_week 1 scenario_generated
    = (Ok (mkResponse true "Week regenerated successfully" 200), s') /\
    let c := slot_count 1 (filter (fun x => DailyDuty.weekly_assignment_id x =? 1)
                                  (daily_duties (db s'))) in
    28 < 3 * c + 3 /\ 3 * c < 28 + 3.
Proof.
  destruct (regenerate_week_is_balanced 1 scenario_generated
              (WeeklyDutyAssignment.mk 1 1 1 1 738886 738892)
              (scenario_student 1 "S001" "An" 1))
    as (s' & Hrun & Hbal).
  - vm_compute. reflexivity.
  - change (students (db scenario_generated)) with (students scenario_db).
    cbn. repeat (apply NoDup_cons; [cbn; intuition discriminate |]). apply NoDup_nil.
  - vm_compute. left. reflexivity.
  - vm_compute. discriminate.
  - vm_compute. discriminate.
  - exists s'. split; [exact Hrun |]. exact Hbal.
Defined.

(** ** Duty counts *)

Lemma one_row_changed {A} (key : A -> Z) (p : A -> bool) (g : A -> A) i : forall l,
  NoDup (map key l) ->
  Z.abs (len (filter p (map (fun x => if key x =? i then g x else x) l))
         - len (filter p l)) <= 1.
Proof.
  unfold len. induction l as [| x l IH]; intros Hnd; [cbn; lia |].
  cbn [map] in Hnd. apply NoDup_cons_iff in Hnd. destruct Hnd as [Hx Hnd].
  cbn [map filter]. destruct (Z.eqb_spec (key x) i) as [E | E].
  - assert (Hrest : map (fun y => if key y =? i then g y else y) l = l).
    { rewrite <- (map_id l) at 2. apply map_ext_in. intros y Hy.
      destruct (Z.eqb_spec (key y) i) as [Ey | _]; [| reflexivity].
      exfalso. apply Hx. rewrite E, <- Ey. now apply in_map. }
    rewrite Hrest. destruct (p (g x)), (p x); cbn [List.length]; lia.
  - specialize (IH Hnd). destruct (p x); cbn [List.length]; lia.
Qed.

(** X19: one manual slot edit moves no duty count by more than one.  When
    the daily rows have unique ids, whatever [update_duty] is asked, the
    count [get_student_duty_count] gives for any student and term afterwards
    differs from the count before by at most 1. *)
Theorem update_duty_moves_counts_by_one :
  forall (duty_id : Z) (slot : string) (student_id : option Z) (s : State)
         (student term_id : Z),
    NoDup (map DailyDuty.id (daily_duties (db s))) ->
    exists r s',
      update_duty duty_id slot student_id s = (Ok r, s') /\
      Z.abs (get_student_duty_count student term_id (db s')
             - get_student_duty_count student term_id (db s)) <= 1.
Proof.
  intros duty_id slot sid s student term_id Hnd. unfold update_duty.
  rewrite (bind_run _ _ s (db s) s) by reflexivity.
  assert (Hsame : Z.abs (get_student_duty_count student term_id (db s)
                         - get_student_duty_count student term_id (db s)) <= 1) by lia.
  rewrite try_sqlite_run.
  destruct (int64 duty_id);
    [| eexists _, _; split; [reflexivity | exact Hsame]].
  unfold try_except.
  destruct (DailyDuty_query_get duty_id (db s)) as [duty |] eqn:G;
    [| eexists _, _; split; [reflexivity | exact Hsame]].
  cbv zeta.
  destruct (String.eqb slot "student1").
  - destruct (if truthy sid then sid else None) as [v |];
      [unfold sqlite_int; destruct (int64 v) |].
    + eexists _, _. split; [reflexivity |]. cbn [db].
      unfold get_student_duty_count, count_if, DailyDuty_set_student1.
      cbn [daily_duties weekly_duty_assignments with_daily].
      now apply one_row_changed.
    + eexists _, _. split; [reflexivity | exact Hsame].
    + eexists _, _. split; [reflexivity |]. cbn [db].
      unfold get_student_duty_count, count_if, DailyDuty_set_student1.
      cbn [daily_duties weekly_duty_assignments with_daily].
      now apply one_row_changed.
  - destruct (String.eqb slot "student2").
    + destruct (if truthy sid then sid else None) as [v |];
        [unfold sqlite_int; destruct (int64 v) |].
      * eexists _, _. split; [reflexivity |]. cbn [db].
        unfold get_student_duty_count, count_if, DailyDuty_set_student2.
        cbn [daily_duties weekly_duty_assignments with_daily].
        now apply one_row_changed.
      * eexists _, _. split; [reflexivity | exact Hsame].
      * eexists _, _. split; [reflexivity |]. cbn [db].
        unfold get_student_duty_count, count_if, DailyDuty_set_student2.
        cbn [daily_duties weekly_duty_assignments with_daily].
        now apply one_row_changed.
    + eexists _, _. split; [reflexivity | exact Hsame].
Qed.

Lemma update_duty_moves_counts_by_one_scenario :
  exists r s',
    update_duty 1 "student1" (Some 4) scenario_generated = (Ok r, s') /\
    Z.abs (get_student_duty_count 4 1 (db s')
           - get_student_duty_count 4 1 (db scenario_generated)) <= 1.
Proof.
  apply (update_duty_moves_counts_by_one 1 "student1" (Some 4) scenario_generated 4 1).
  vm_compute.
  repeat (apply NoDup_cons; [cbn; intuition discriminate |]). apply NoDup_nil.
Defined.

(** ** Import *)

Lemma by_student_id_known sid d :
  Student_query_by_student_id sid d = None
  <-> existsb (String.eqb sid) (student_ids d) = false.
Proof.
  unfold Student_query_by_student_id, student_ids.
  induction (students d) as [| x l IH]; cbn [find map existsb]; [tauto |].
  rewrite (String.eqb_sym sid). destruct (String.eqb (Student.student_id x) sid);
    cbn [orb]; [split; discriminate | exact IH].
Qed.

Lemma import_row_known row n s :
  existsb (String.eqb (row_student_id row)) (student_ids (db s)) = true ->
  import_row row n s = (Ok n, s).
Proof.
  intros Hk. unfold import_row. rewrite (bind_run _ _ s (db s) s) by reflexivity.
  destruct (Student_query_by_student_id (row_student_id row) (db s)) eqn:Q;
    [reflexivity |].
  apply by_student_id_known in Q. congruence.
Qed.

Lemma import_row_new row n s :
  existsb (String.eqb (row_student_id row)) (student_ids (db s)) = false ->
  import_row row n s
  = (if binds (row_grade row) then Ok (n + 1) else Raise too_large,
     mkState (Student_insert row (db s)) (rand s) (flashed s)).
Proof.
  intros Hk. unfold import_row. rewrite (bind_run _ _ s (db s) s) by reflexivity.
  apply by_student_id_known in Hk. rewrite Hk.
  rewrite (bind_run (modify_db _) _ _ tt _ eq_refl).
  unfold binds. destruct (row_grade row) as [g |]; [| reflexivity].
  rewrite sqlite_int_run. now destruct (int64 g).
Qed.

Lemma student_ids_insert row d :
  student_ids (Student_insert row d) = student_ids d ++ [row_student_id row].
Proof.
  unfold student_ids, Student_insert. cbn [students with_students].
  now rewrite map_app.
Qed.

Lemma import_loop_run rows : forall n s,
  grades_bind (fresh_rows (student_ids (db s)) rows) = true ->
  for_loop rows import_row n s
  = (Ok (n + len (fresh_rows (student_ids (db s)) rows)),
     mkState (insert_all (fresh_rows (student_ids (db s)) rows) (db s))
             (rand s) (flashed s)).
Proof.
  induction rows as [| row rows IH]; intros n s; cbn [for_loop fresh_rows].
  - intros _. unfold ret, len. cbn. rewrite Z.add_0_r. now destruct s.
  - destruct (existsb (String.eqb (row_student_id row)) (student_ids (db s))) eqn:Hk.
    + intros Hb. rewrite (bind_run _ _ _ _ _ (import_row_known row n s Hk)).
      now apply IH.
    + cbn [grades_bind forallb]. intros Hb. apply andb_prop in Hb.
      destruct Hb as [Hrow Hrest].
      set (s1 := mkState (Student_insert row (db s)) (rand s) (flashed s)).
      assert (Hbody : import_row row n s = (Ok (n + 1), s1)).
      { rewrite (import_row_new row n s Hk). now rewrite Hrow. }
      rewrite (bind_run _ _ _ _ _ Hbody).
      assert (Hids : student_ids (db s1) = student_ids (db s) ++ [row_student_id row])
        by apply student_ids_insert.
      rewrite IH by (rewrite Hids; exact Hrest).
      rewrite Hids. unfold len. cbn [List.length insert_all fold_left].
      f_equal. f_equal. lia.
Qed.

Lemma import_loop_raise rows : forall n s,
  grades_bind (fresh_rows (student_ids (db s)) rows) = false ->
  exists d1,
    for_loop rows import_row n s
    = (Raise too_large, mkState d1 (rand s) (flashed s)).
Proof.
  induction rows as [| row rows IH]; intros n s; cbn [for_loop fresh_rows].
  - discriminate.
  - destruct (existsb (String.eqb (row_student_id row)) (student_ids (db s))) eqn:Hk.
    + intros Hb. rewrite (bind_run _ _ _ _ _ (import_row_known row n s Hk)).
      now apply IH.
    + cbn [grades_bind forallb]. intros Hb.
      set (s1 := mkState (Student_insert row (db s)) (rand s) (flashed s)).
      pose proof (import_row_new row n s Hk) as Hbody. fold s1 in Hbody.
      destruct (binds (row_grade row)); cbn [andb] in Hb.
      * rewrite (bind_run _ _ _ _ _ Hbody).
        assert (Hids : student_ids (db s1)
                       = student_ids (db s) ++ [row_student_id row])
          by apply student_ids_insert.
        destruct (IH (n + 1) s1) as [d1 Hd1]; [rewrite Hids; exact Hb |].
        exists d1. exact Hd1.
      * rewrite (bind_raise _ _ _ _ _ Hbody). now exists (db s1).
Qed.

Lemma fresh_rows_new known rows :
  NoDup known ->
  NoDup (known ++ map row_student_id (fresh_rows known rows)).
Proof.
  revert known. induction rows as [| row rows IH]; intros known Hnd; cbn [fresh_rows].
  - cbn. now rewrite app_nil_r.
  - destruct (existsb _ known) eqn:E; [now apply IH |].
    cbn [map].
    replace (known ++ row_student_id row :: map row_student_id
                       (fresh_rows (known ++ [row_student_id row]) rows))
      with ((known ++ [row_student_id row])
            ++ map row_student_id (fresh_rows (known ++ [row_student_id row]) rows))
      by (now rewrite <- app_assoc).
    apply IH. apply NoDup_app; [exact Hnd | repeat constructor; intros [] |].
    intros x Hx [Ex | []]. subst x.
    assert (Ex : existsb (String.eqb (row_student_id row)) known = true).
    { apply existsb_exists. exists (row_student_id row).
      split; [exact Hx | apply String.eqb_refl]. }
    congruence.
Qed.

Lemma insert_all_students rows : forall d,
  student_ids (insert_all rows d) = student_ids d ++ map row_student_id rows /\
  (NoDup (map Student.id (students d)) ->
   NoDup (map Student.id (students (insert_all rows d)))) /\
  tables (insert_all rows d) = tables d /\
  schedule_of (insert_all rows d) = schedule_of d /\
  exists added,
    students (insert_all rows d) = students d ++ added /\
    Forall (fun st => Student.table_number st = None) added.
Proof.
  unfold insert_all.
  induction rows as [| row rows IH]; intros d; cbn [fold_left map].
  - rewrite app_nil_r. repeat (split; [auto |]). exists [].
    now rewrite app_nil_r.
  - set (st := Student.mk (next_id (map Student.id (students d)))
                 (row_student_id row) (row_full_name row)
                 (row_grade row) (row_gender row) (row_country row) None).
    assert (H1 : students (Student_insert row d) = students d ++ [st]) by reflexivity.
    assert (H2 : tables (Student_insert row d) = tables d) by reflexivity.
    assert (H3 : schedule_of (Student_insert row d) = schedule_of d) by reflexivity.
    destruct (IH (Student_insert row d)) as (Hs & Hnd & Ht & Hsch & added & Ha & Hn).
    generalize dependent (Student_insert row d). intros d1 H1 H2 H3 Hs Hnd Ht Hsch Ha.
    unfold student_ids in *. rewrite Hs, Ht, Hsch, H1, H2, H3.
    rewrite map_app, <- app_assoc. split; [reflexivity |].
    split; [| split; [reflexivity | split; [reflexivity |]]].
    + intros Hd. apply Hnd. rewrite H1.
      rewrite map_app. apply NoDup_app; [exact Hd | repeat constructor; intros [] |].
      intros i Hi [E | []]. subst i. apply next_id_gt in Hi. cbn [Student.id st] in Hi. lia.
    + exists (st :: added). rewrite Ha, H1, <- app_assoc. split; [reflexivity |].
      constructor; [reflexivity | exact Hn].
Qed.

Lemma written_student_id ta r :
  Student.student_id (written ta r) = Student.student_id r.
Proof. unfold written. now destruct (owner ta (Student.id r)). Qed.

(** X20: an import adds each new student id once.  Whatever the rows, the
    request is answered, and whether or not a distribution follows: when
    SQLite can bind the grade of every row to add, the student ids
    afterwards are the ones before followed by the ids of the first row of
    every id that was not known, in the order of the sheet, so a row whose
    id is already there (in the table or earlier in the sheet) adds nothing;
    unique ids stay unique and the schedule is untouched; without tables the
    new students are appended unassigned and the message counts them.  When
    one of those grades is outside 64 bits the INSERT raises OverflowError:
    the handler rolls the whole import back, flashes the error and sends the
    user back to the upload page, so no row of the sheet is added. *)
Theorem import_adds_each_new_id_once :
  forall (rows : list sheet_row) (s : State),
    NoDup (map Student.id (students (db s))) ->
    exists r s',
      import_students rows s = (Ok r, s') /\
      if grades_bind (fresh_rows (student_ids (db s)) rows) then
        r = Redirect "students" /\
        student_ids (db s')
        = student_ids (db s)
          ++ map row_student_id (fresh_rows (student_ids (db s)) rows) /\
        (NoDup (student_ids (db s)) -> NoDup (student_ids (db s'))) /\
        NoDup (map Student.id (students (db s'))) /\
        schedule_of (db s') = schedule_of (db s) /\
        (tables (db s) = [] ->
         db s' = insert_all (fresh_rows (student_ids (db s)) rows) (db s) /\
         flashed s'
         = flashed s
           ++ [imported_message (len (fresh_rows (student_ids (db s)) rows))])
      else
        r = Redirect "upload" /\
        db s' = db s /\
        flashed s' = flashed s ++ [import_failed_message too_large].
Proof.
  intros rows s Hpk.
  remember (fresh_rows (student_ids (db s)) rows) as fresh eqn:Efresh.
  destruct (grades_bind fresh) eqn:Hbind.
  2:{ destruct (import_loop_raise rows 0 s) as [d1 Hloop];
        [now rewrite <- Efresh |].
      unfold import_students.
      rewrite (bind_run _ _ s (db s) s) by reflexivity.
      assert (Hfirst :
        try_except
          (imported_count <- for_loop rows import_row 0 ;;
           commit ;;;
           ret (Some imported_count))
          (fun e =>
             rollback (db s) ;;;
             flash ("Error importing file: " ++ exn_str e)%string "error" ;;;
             ret None) s
        = (Ok None,
           mkState (db s) (rand s) (flashed s ++ [import_failed_message too_large]))).
      { unfold try_except. rewrite (bind_raise _ _ _ _ _ Hloop). reflexivity. }
      rewrite (bind_run _ _ _ _ _ Hfirst).
      eexists _, _. split; [reflexivity |]. cbn [db flashed].
      split; [reflexivity |]. split; reflexivity. }
  set (s1 := mkState (insert_all fresh (db s)) (rand s) (flashed s)).
  destruct (insert_all_students fresh (db s)) as (Hids & Hnd & Htabs & Hsch & _).
  specialize (Hnd Hpk).
  assert (Hstart :
    import_students rows s
    = try_except
        ((if len (tables (db s1)) >? 0 then
            distribute_students_to_tables_smart ;;; ret tt
          else flash (fst (imported_message (len fresh))) "info") ;;;
         ret (Redirect "students"))
        (fun e =>
           rollback (db s1) ;;;
           flash ("Error importing file: " ++ exn_str e)%string "error" ;;;
           ret (Redirect "upload")) s1).
  { unfold import_students.
    rewrite (bind_run _ _ s (db s) s) by reflexivity.
    assert (Hfirst :
      try_except
        (imported_count <- for_loop rows import_row 0 ;;
         commit ;;;
         ret (Some imported_count))
        (fun e =>
           rollback (db s) ;;;
           flash ("Error importing file: " ++ exn_str e)%string "error" ;;;
           ret None) s
      = (Ok (Some (len fresh)), s1)).
    { unfold try_except.
      assert (Hloop := import_loop_run rows 0 s). rewrite <- Efresh in Hloop.
      rewrite (bind_run _ _ _ _ _ (Hloop Hbind)). reflexivity. }
    rewrite (bind_run _ _ _ _ _ Hfirst).
    rewrite (bind_run _ _ s1 (db s1) s1) by reflexivity. reflexivity. }
  rewrite Hstart. unfold try_except. cbn [db s1]. rewrite Htabs.
  assert (Hfresh : NoDup (student_ids (db s)) ->
                   NoDup (student_ids (db s) ++ map row_student_id fresh))
    by (rewrite Efresh; apply fresh_rows_new).
  destruct (tables (db s)) as [| tb tbs] eqn:Et.
  - eexists _, _. split; [reflexivity |]. unfold s1. cbn [db flashed rand].
    split; [reflexivity |].
    split; [exact Hids |]. split; [rewrite Hids; exact Hfresh |]. split; [exact Hnd |].
    split; [exact Hsch |]. intros _. split; reflexivity.
  - assert (Hlen : (len (tb :: tbs) >? 0) = true).
    { unfold len. cbn [List.length]. apply Z.gtb_lt. lia. }
    rewrite Hlen.
    assert (Htabs1 : tables (db s1) <> []).
    { cbn [db s1]. rewrite Htabs. discriminate. }
    destruct (Student_query_unassigned (db s1)) as [| st0 rest] eqn:HU.
    + rewrite (bind_run _ _ _ _ _
                 (bind_run _ _ _ _ _ (distribute_without_students s1 Htabs1 HU))).
      eexists _, _. split; [reflexivity |]. unfold s1. cbn [db flashed rand].
      split; [reflexivity |].
      split; [exact Hids |]. split; [rewrite Hids; exact Hfresh |]. split; [exact Hnd |].
      split; [exact Hsch | discriminate].
    + destruct (distribute_run s1 st0 rest HU Htabs1 Hnd)
        as (lf & s' & Hrun & Hst & Hterms & Hweekly & Hdaily & _).
      rewrite (bind_run _ _ _ _ _ (bind_run _ _ _ _ _ Hrun)).
      exists (Redirect "students"), s'. split; [reflexivity |].
      cbn [db s1] in Hst, Hterms, Hweekly, Hdaily.
      split; [reflexivity |].
      assert (Hsid : student_ids (db s') = student_ids (insert_all fresh (db s))).
      { unfold student_ids. rewrite Hst, map_map. apply map_ext.
        intros r. apply written_student_id. }
      split; [now rewrite Hsid |]. split; [rewrite Hsid, Hids; exact Hfresh |].
      split.
      * rewrite Hst, map_map. erewrite map_ext; [exact Hnd |].
        intros r. apply written_id.
      * split; [| discriminate]. rewrite <- Hsch. unfold schedule_of.
        now rewrite Hterms, Hweekly, Hdaily.
Qed.

Lemma import_adds_each_new_id_once_twice :
  (exists s',
     import_students [mkRow "S001" "An" (Some 9) None None;
                      mkRow "S001" "Binh" (Some 10) None None]
                     empty_state
     = (Ok (Redirect "students"), s') /\
     student_ids (db s') = ["S001"] /\
     flashed s' = [imported_message 1]) /\
  (exists s',
     import_students [mkRow "S001" "An" (Some 9) None None;
                      mkRow "S002" "Binh" (Some (2 ^ 63)) None None]
                     empty_state
     = (Ok (Redirect "upload"), s') /\
     db s' = db empty_state /\
     flashed s' = [import_failed_message too_large]).
Proof.
  split.
  - destruct (import_adds_each_new_id_once
                [mkRow "S001" "An" (Some 9) None None;
                 mkRow "S001" "Binh" (Some 10) None None] empty_state)
      as (r & s' & Hrun & Hr & Hids & _ & _ & _ & Hno).
    + constructor.
    + exists s'. subst r. split; [exact Hrun |]. split; [exact Hids |].
      destruct (Hno eq_refl) as [_ Hfl]. exact Hfl.
  - destruct (import_adds_each_new_id_once
                [mkRow "S001" "An" (Some 9) None None;
                 mkRow "S002" "Binh" (Some (2 ^ 63)) None None] empty_state)
      as (r & s' & Hrun & Hr & Hdb & Hfl).
    + constructor.
    + exists s'. subst r. split; [exact Hrun |]. split; [exact Hdb | exact Hfl].
Defined.
